(** * volvisdata: market data acquisition and normalisation

    A shallow embedding of [volvisdata/market_data.py] (class [Data]) and of
    the dispatch in [Volatility.__init__] ([volvisdata/volatility.py]),
    followed by the properties of the natural-language specification that
    were settled against it.

    Conventions of the embedding

    - Python exceptions are values of [exn]; a computation that may raise
      returns a [result].
    - Code that mutates [params] / [tables] runs in the monad [M]: a state
      transformer over [Ctx] whose state survives a raise, as the in-place
      mutations of a Python dict survive an exception.
    - A Python [dict] with string keys is an insertion-ordered association
      list with unique keys ([dict]).
    - Numbers received from the provider are exact rationals ([Q]); the
      rounding of binary floating point is not modelled.
    - Strings are ASCII strings; [str.isdigit] is the test for the
      characters 0..9.
    - A [datetime.date] is its proleptic Gregorian ordinal
      ([date.toordinal()]).
    - Calls into external collaborators (market data provider, HTTP
      transport, HTML parser, date parsers, holiday rules, the downstream
      [DataPrep] stages) are parameters of the development. *)

From Stdlib Require Import List String Ascii Bool Arith ZArith QArith Qabs Lia.
From Stdlib Require Import Sorting.Sorted Sorting.Permutation.
Import ListNotations.

Open Scope string_scope.
Open Scope list_scope.

(* ================================================================== *)
(** * Part I: the embedding                                            *)
(* ================================================================== *)

(** ** Exceptions and results *)

Inductive exn : Type :=
| IndexError
| KeyError
| ValueError
| ZeroDivisionError
| ConnectionError
| TypeError.

Inductive result (A : Type) : Type :=
| Ok (a : A)
| Raise (e : exn).

Arguments Ok {A} a.
Arguments Raise {A} e.

Definition exn_eqb (a b : exn) : bool :=
  match a, b with
  | IndexError, IndexError
  | KeyError, KeyError
  | ValueError, ValueError
  | ZeroDivisionError, ZeroDivisionError
  | ConnectionError, ConnectionError
  | TypeError, TypeError => true
  | _, _ => false
  end.

(** [except KeyError] *)
Definition only_KeyError (e : exn) : bool := exn_eqb e KeyError.

(** [except ValueError] *)
Definition only_ValueError (e : exn) : bool := exn_eqb e ValueError.

(** [except IndexError] *)
Definition only_IndexError (e : exn) : bool := exn_eqb e IndexError.

(** [except (IndexError, KeyError, ValueError)] *)
Definition index_key_value (e : exn) : bool :=
  match e with
  | IndexError | KeyError | ValueError => true
  | _ => false
  end.

Module Res.

Definition bind {A B} (r : result A) (k : A -> result B) : result B :=
  match r with
  | Ok a => k a
  | Raise e => Raise e
  end.

(** [try: body except <handles>: handler] on pure results. *)
Definition try_except {A} (body : result A) (handles : exn -> bool)
  (handler : result A) : result A :=
  match body with
  | Ok a => Ok a
  | Raise e => if handles e then handler else Raise e
  end.

End Res.

(** ** Insertion-ordered dictionaries with string keys *)

Definition dict (V : Type) : Type := list (string * V).

Module Dict.

Definition empty {V} : dict V := [].

Fixpoint get {V} (d : dict V) (k : string) : option V :=
  match d with
  | [] => None
  | (k', v) :: d' => if String.eqb k k' then Some v else get d' k
  end.

(** [d[k] = v]: an existing key keeps its position, a new key goes last. *)
Fixpoint set {V} (d : dict V) (k : string) (v : V) : dict V :=
  match d with
  | [] => [(k, v)]
  | (k', v') :: d' =>
      if String.eqb k k' then (k', v) :: d' else (k', v') :: set d' k v
  end.

Definition mem {V} (d : dict V) (k : string) : bool :=
  match get d k with Some _ => true | None => false end.

Definition keys {V} (d : dict V) : list string := map fst d.

Definition items {V} (d : dict V) : list (string * V) := d.

(** [dict(pairs)]: later pairs overwrite earlier ones. *)
Definition of_pairs {V} (l : list (string * V)) : dict V :=
  fold_left (fun d kv => set d (fst kv) (snd kv)) l empty.

(** [d[k]], raising [KeyError] on a missing key. *)
Definition getitem {V} (d : dict V) (k : string) : result V :=
  match get d k with
  | Some v => Ok v
  | None => Raise KeyError
  end.

End Dict.

(** ** Cells, rows and data frames *)

(** [datetime.date], as its ordinal. *)
Definition date : Type := Z.

(** [date.min.toordinal() <= d <= date.max.toordinal()] *)
Definition valid_date (d : date) : bool :=
  ((1 <=? d) && (d <=? 3652059))%Z.

Inductive cell : Type :=
| CInt (z : Z)          (* a Python / numpy integer *)
| CFloat (q : Q)        (* a finite float *)
| CNaN                  (* the float nan, pandas' missing value *)
| CStr (s : string)
| CDate (d : date).

(** [isinstance(x, (int, float, complex))]; nan is a float. *)
Definition isinstance_number (c : cell) : bool :=
  match c with
  | CInt _ | CFloat _ | CNaN => true
  | CStr _ | CDate _ => false
  end.

Definition is_digit (a : ascii) : bool :=
  let n := nat_of_ascii a in (48 <=? n)%nat && (n <=? 57)%nat.

Fixpoint all_digits (s : string) : bool :=
  match s with
  | EmptyString => true
  | String a s' => is_digit a && all_digits s'
  end.

(** [s.isdigit()]: non-empty and made of digits only. *)
Definition isdigit (s : string) : bool :=
  match s with
  | EmptyString => false
  | _ => all_digits s
  end.

(** [str(x).isdigit()]: the text of a non-negative integer is its digits;
    the text of a float always carries a point, an exponent or letters; the
    text of a date carries hyphens. *)
Definition str_isdigit (c : cell) : bool :=
  match c with
  | CInt z => (0 <=? z)%Z
  | CStr s => isdigit s
  | CFloat _ | CNaN | CDate _ => false
  end.

(** One record of a frame, keyed by column name. *)
Definition row : Type := dict cell.

Record DataFrame : Type := mkDataFrame {
  columns : list string;
  rows : list row
}.

(** [pd.DataFrame()] *)
Definition empty_frame : DataFrame := mkDataFrame [] [].

(** [len(df)] *)
Definition len (df : DataFrame) : nat := List.length (rows df).

Definition has_column (df : DataFrame) (c : string) : bool :=
  existsb (String.eqb c) (columns df).

(** The value a row shows in a column; a cell that was never filled is
    nan. *)
Definition cell_at (r : row) (c : string) : cell :=
  match Dict.get r c with
  | Some v => v
  | None => CNaN
  end.

(** [df[c]]: the column as a list of cells, [KeyError] when [c] is not a
    column. *)
Definition getitem (df : DataFrame) (c : string) : result (list cell) :=
  if has_column df c
  then Ok (map (fun r => cell_at r c) (rows df))
  else Raise KeyError.

(** [series[0]] on the default integer index: [KeyError] when there is no
    row labelled 0. *)
Definition label0 (s : list cell) : result cell :=
  match s with
  | [] => Raise KeyError
  | v :: _ => Ok v
  end.

(** [series.iloc[0]] *)
Definition iloc0 (s : list cell) : result cell :=
  match s with
  | [] => Raise IndexError
  | v :: _ => Ok v
  end.

Definition add_column (cols : list string) (c : string) : list string :=
  if existsb (String.eqb c) cols then cols else cols ++ [c].

(** [df[c] = v] with a scalar [v]. *)
Definition setitem (df : DataFrame) (c : string) (v : cell) : DataFrame :=
  mkDataFrame (add_column (columns df) c)
              (map (fun r => Dict.set r c v) (rows df)).

(** [df[c] = df[src]], row by row; [KeyError] when [src] is not a column. *)
Definition setitem_from (df : DataFrame) (c src : string) : result DataFrame :=
  if has_column df src
  then Ok (mkDataFrame (add_column (columns df) c)
                       (map (fun r => Dict.set r c (cell_at r src)) (rows df)))
  else Raise KeyError.

(** [pd.concat([a, b])]: the rows of [a] then those of [b], over the union
    of the columns. *)
Definition concat2 (a b : DataFrame) : DataFrame :=
  mkDataFrame (fold_left add_column (columns b) (columns a))
              (rows a ++ rows b).

(** [df[[c1, ..., cn]]]: [KeyError] unless every [ci] is a column. *)
Definition select (df : DataFrame) (cs : list string) : result DataFrame :=
  if forallb (has_column df) cs
  then Ok (mkDataFrame cs
             (map (fun r => map (fun c => (c, cell_at r c)) cs) (rows df)))
  else Raise KeyError.

(** [rename] on one row. *)
Definition rename_row (f : string -> string) (r : row) : row :=
  map (fun kv => (f (fst kv), snd kv)) r.

(** [df.rename(columns=mapping)] *)
Definition rename (df : DataFrame) (f : string -> string) : DataFrame :=
  mkDataFrame (map f (columns df)) (map (rename_row f) (rows df)).

(** ** The pipeline context: [params], [tables] and the outside world *)

Record Params : Type := mkParams {
  ticker : string;
  wait : Z;
  discount_type : string;
  precomputed_data : option DataFrame;   (* [None]: the key is absent *)
  extracted_spot : option cell;
  date_list : list string;
  option_dict : dict (list DataFrame);
  opt_except_list : list string;
  html_doc : string;
  url_dict : dict string;
  raw_web_data : dict string;
  url_except_dict : dict string;
  trade_holidays : list date
}.

Record Tables : Type := mkTables {
  full_data : DataFrame
}.

(** What the run did to the outside world, oldest event first. *)
Inductive event : Type :=
| ProviderInfo (tkr : string)        (* first access to [asset.info] *)
| ProviderOptions (tkr : string)     (* [asset.options] *)
| ProviderChain (expiry : string)    (* [asset.option_chain(expiry)] *)
| HttpOpen (url : string)            (* [UrlOpener().open(url)] *)
| Sleep (seconds : Z).               (* [time.sleep(seconds)] *)

Record Ctx : Type := mkCtx {
  params : Params;
  tables : Tables;
  effects : list event
}.

Definition with_precomputed_data (v : option DataFrame) (p : Params) : Params :=
  mkParams (ticker p) (wait p) (discount_type p) v (extracted_spot p)
    (date_list p) (option_dict p) (opt_except_list p) (html_doc p)
    (url_dict p) (raw_web_data p) (url_except_dict p) (trade_holidays p).

Definition with_extracted_spot (v : option cell) (p : Params) : Params :=
  mkParams (ticker p) (wait p) (discount_type p) (precomputed_data p) v
    (date_list p) (option_dict p) (opt_except_list p) (html_doc p)
    (url_dict p) (raw_web_data p) (url_except_dict p) (trade_holidays p).

Definition with_date_list (v : list string) (p : Params) : Params :=
  mkParams (ticker p) (wait p) (discount_type p) (precomputed_data p)
    (extracted_spot p) v (option_dict p) (opt_except_list p) (html_doc p)
    (url_dict p) (raw_web_data p) (url_except_dict p) (trade_holidays p).

Definition with_option_dict (v : dict (list DataFrame)) (p : Params) : Params :=
  mkParams (ticker p) (wait p) (discount_type p) (precomputed_data p)
    (extracted_spot p) (date_list p) v (opt_except_list p) (html_doc p)
    (url_dict p) (raw_web_data p) (url_except_dict p) (trade_holidays p).

Definition with_opt_except_list (v : list string) (p : Params) : Params :=
  mkParams (ticker p) (wait p) (discount_type p) (precomputed_data p)
    (extracted_spot p) (date_list p) (option_dict p) v (html_doc p)
    (url_dict p) (raw_web_data p) (url_except_dict p) (trade_holidays p).

Definition with_html_doc (v : string) (p : Params) : Params :=
  mkParams (ticker p) (wait p) (discount_type p) (precomputed_data p)
    (extracted_spot p) (date_list p) (option_dict p) (opt_except_list p) v
    (url_dict p) (raw_web_data p) (url_except_dict p) (trade_holidays p).

Definition with_url_dict (v : dict string) (p : Params) : Params :=
  mkParams (ticker p) (wait p) (discount_type p) (precomputed_data p)
    (extracted_spot p) (date_list p) (option_dict p) (opt_except_list p)
    (html_doc p) v (raw_web_data p) (url_except_dict p) (trade_holidays p).

Definition with_raw_web_data (v : dict string) (p : Params) : Params :=
  mkParams (ticker p) (wait p) (discount_type p) (precomputed_data p)
    (extracted_spot p) (date_list p) (option_dict p) (opt_except_list p)
    (html_doc p) (url_dict p) v (url_except_dict p) (trade_holidays p).

Definition with_url_except_dict (v : dict string) (p : Params) : Params :=
  mkParams (ticker p) (wait p) (discount_type p) (precomputed_data p)
    (extracted_spot p) (date_list p) (option_dict p) (opt_except_list p)
    (html_doc p) (url_dict p) (raw_web_data p) v (trade_holidays p).

Definition with_trade_holidays (v : list date) (p : Params) : Params :=
  mkParams (ticker p) (wait p) (discount_type p) (precomputed_data p)
    (extracted_spot p) (date_list p) (option_dict p) (opt_except_list p)
    (html_doc p) (url_dict p) (raw_web_data p) (url_except_dict p) v.

(** ** The monad of the stateful stages *)

(** A computation over a mutable state [S]: it ends normally or raises, and
    in both cases leaves a state behind. *)
Definition MS (S A : Type) : Type := S -> result A * S.

(** The stages of the pipeline mutate the context. *)
Definition M (A : Type) : Type := MS Ctx A.

Module PyM.

Definition ret {S A} (a : A) : MS S A := fun s => (Ok a, s).

Definition bind {S A B} (m : MS S A) (k : A -> MS S B) : MS S B :=
  fun s =>
    match m s with
    | (Ok a, s') => k a s'
    | (Raise e, s') => (Raise e, s')
    end.

Definition raise {S A} (e : exn) : MS S A := fun s => (Raise e, s).

(** A pure computation that may raise. *)
Definition lift {S A} (r : result A) : MS S A := fun s => (r, s).

(** [try: body except <handles>: handler].  The handler starts from the
    state the body had reached when it raised. *)
Definition try_except {S A} (body : MS S A) (handles : exn -> bool)
  (handler : MS S A) : MS S A :=
  fun s =>
    match body s with
    | (Ok a, s') => (Ok a, s')
    | (Raise e, s') => if handles e then handler s' else (Raise e, s')
    end.

(** [for x in xs: body(x)] *)
Fixpoint for_each {S A} (xs : list A) (body : A -> MS S unit) : MS S unit :=
  match xs with
  | [] => ret tt
  | x :: xs' => bind (body x) (fun _ => for_each xs' body)
  end.

(** [if b: body] without an [else]. *)
Definition when {S} (b : bool) (body : MS S unit) : MS S unit :=
  if b then body else ret tt.

Definition get_params : M Params := fun s => (Ok (params s), s).

Definition get_tables : M Tables := fun s => (Ok (tables s), s).

Definition modify_params (f : Params -> Params) : M unit :=
  fun s => (Ok tt, mkCtx (f (params s)) (tables s) (effects s)).

Definition set_full_data (df : DataFrame) : M unit :=
  fun s => (Ok tt, mkCtx (params s) (mkTables df) (effects s)).

Definition emit (e : event) : M unit :=
  fun s => (Ok tt, mkCtx (params s) (tables s) (effects s ++ [e])).

(** A function body with one mutable local variable of type [L]: the state
    is the context paired with the local. *)
Definition in_ctx {L A} (m : M A) : MS (Ctx * L) A :=
  fun s => let (r, c) := m (fst s) in (r, (c, snd s)).

Definition get_local {L} : MS (Ctx * L) L := fun s => (Ok (snd s), s).

Definition set_local {L} (l : L) : MS (Ctx * L) unit :=
  fun s => (Ok tt, (fst s, l)).

Definition run_local {L A} (init : L) (m : MS (Ctx * L) A) : M A :=
  fun c => let (r, s) := m (c, init) in (r, fst s).

End PyM.

Declare Scope py_scope.
Delimit Scope py_scope with py.

Notation "x <- m ;; k" := (PyM.bind m (fun x => k))
  (at level 61, m at next level, right associativity) : py_scope.
Notation "m ;; k" := (PyM.bind m (fun _ => k))
  (at level 61, right associativity) : py_scope.
Notation "'TRY' body 'EXCEPT' h 'DO' handler" :=
  (PyM.try_except body h handler)
  (at level 61, body at level 61, handler at level 61) : py_scope.

Declare Scope res_scope.
Delimit Scope res_scope with res.

Notation "x <- m ;; k" := (Res.bind m (fun x => k))
  (at level 61, m at next level, right associativity) : res_scope.
Notation "'TRY' body 'EXCEPT' h 'DO' handler" :=
  (Res.try_except body h handler)
  (at level 61, body at level 61, handler at level 61) : res_scope.

(** ** Spot price resolver ([Data.get_option_data], lines 191-203) *)

(** [a / b] on numbers *)
Definition py_div (a b : Q) : result Q :=
  if Qeq_bool b 0 then Raise ZeroDivisionError else Ok (a / b).

(** [x > y] on numbers *)
Definition py_gt (x y : Q) : bool := negb (Qle_bool x y).

Definition resolve_spot (info : dict Q) : result Q :=
  (TRY
     Dict.getitem info "currentPrice"
   EXCEPT only_KeyError DO
     (TRY
        (bid <- Dict.getitem info "bid" ;;
         ask <- Dict.getitem info "ask" ;;
         let extracted_spot := (bid + ask) / 2 in
         prev <- Dict.getitem info "previousClose" ;;
         prev' <- Dict.getitem info "previousClose" ;;
         deviation <- py_div (Qabs (extracted_spot - prev)) prev' ;;
         if py_gt deviation (2 # 10)
         then Dict.getitem info "previousClose"
         else Ok extracted_spot)
      EXCEPT only_KeyError DO
        (TRY
           Dict.getitem info "navPrice"
         EXCEPT only_KeyError DO
           Dict.getitem info "previousClose")))%res.

(** ** The market-data provider, as the code sees it *)

(** The value of [asset.option_chain(expiry)]; reading a side may raise. *)
Record Chain : Type := mkChain {
  chain_calls : result DataFrame;
  chain_puts : result DataFrame
}.

(** The value of [yf.Ticker(ticker)]. *)
Record Ticker : Type := mkTicker {
  info : dict Q;
  options : list string;
  option_chain : string -> result Chain
}.

(** [l[i] = v] on a Python list *)
Definition list_setitem {A} (l : list A) (i : nat) (v : A) : result (list A) :=
  if (i <? List.length l)%nat
  then Ok (firstn i l ++ v :: skipn (S i) l)
  else Raise IndexError.

(** [l[i]] on a Python list *)
Definition list_getitem {A} (l : list A) (i : nat) : result A :=
  match nth_error l i with
  | Some v => Ok v
  | None => Raise IndexError
  end.

(** [df[c][0]] *)
Definition first_of (df : DataFrame) (c : string) : result cell :=
  (s <- getitem df c ;; label0 s)%res.

(** [params['option_dict'][expiry].append(df)] *)
Definition option_dict_append (expiry : string) (df : DataFrame) : M unit :=
  (p <- PyM.get_params ;;
   l <- PyM.lift (Dict.getitem (option_dict p) expiry) ;;
   PyM.modify_params
     (with_option_dict (Dict.set (option_dict p) expiry (l ++ [df]))))%py.

(** [params['option_dict'][expiry][i] = df] *)
Definition option_dict_assign (expiry : string) (i : nat) (df : DataFrame)
  : M unit :=
  (p <- PyM.get_params ;;
   l <- PyM.lift (Dict.getitem (option_dict p) expiry) ;;
   l' <- PyM.lift (list_setitem l i df) ;;
   PyM.modify_params (with_option_dict (Dict.set (option_dict p) expiry l')))%py.

(** [tables['full_data'] = pd.concat([tables['full_data'], df])] *)
Definition append_full_data (df : DataFrame) : M unit :=
  (t <- PyM.get_tables ;;
   PyM.set_full_data (concat2 (full_data t) df))%py.

(** [params['opt_except_list'].append(expiry)] *)
Definition opt_except_list_append (expiry : string) : M unit :=
  PyM.modify_params
    (fun p => with_opt_except_list (opt_except_list p ++ [expiry]) p).

(** The column mapping of the final [rename] (lines 267-276). *)
Definition canonical_name (c : string) : string :=
  if c =? "lastPrice" then "Last Price"
  else if c =? "bid" then "Bid"
  else if c =? "ask" then "Ask"
  else if c =? "lastTradeDate" then "Last Trade Date"
  else if c =? "strike" then "Strike"
  else if c =? "openInterest" then "Open Interest"
  else if c =? "volume" then "Volume"
  else if c =? "impliedVolatility" then "Implied Volatility"
  else c.

Section Fetchers.

(** [yf.Ticker] *)
Variable yf_Ticker : string -> Ticker.

(** [pd.to_datetime(text).date()]; a text that is no date raises (a subclass
    of) [ValueError]. *)
Variable to_datetime : string -> result date.

(** ** API chain fetcher ([Data.get_option_data]) *)

(** The body of the loop over [opt_list] (lines 209-265).  The frames kept
    in [option_dict] are recorded as they are when stored. *)
Definition get_option_data_body (asset : Ticker) (expiry : string) : M unit :=
  (PyM.modify_params
     (fun p => with_option_dict (Dict.set (option_dict p) expiry []) p) ;;
   PyM.emit (ProviderChain expiry) ;;
   chain <- PyM.lift (option_chain asset expiry) ;;
   TRY
     (calls <- PyM.lift (chain_calls chain) ;;
      let calls := setitem calls "Option Type" (CStr "call") in
      PyM.when (0 <? len calls)%nat
        (strike0 <- PyM.lift (first_of calls "strike") ;;
         PyM.when (isinstance_number strike0)
           (option_dict_append expiry calls ;;
            TRY
              (puts <- PyM.lift (chain_puts chain) ;;
               let puts := setitem puts "Option Type" (CStr "put") in
               PyM.when (0 <? len puts)%nat
                 (strike0 <- PyM.lift (first_of puts "strike") ;;
                  PyM.when (isinstance_number strike0)
                    (option_dict_append expiry puts ;;
                     let options := concat2 calls puts in
                     d <- PyM.lift (to_datetime expiry) ;;
                     let options := setitem options "Expiry" (CDate d) in
                     append_full_data options)))
            EXCEPT index_key_value DO
              (d <- PyM.lift (to_datetime expiry) ;;
               let calls := setitem calls "Expiry" (CDate d) in
               append_full_data calls))))
   EXCEPT index_key_value DO
     (TRY
        (puts <- PyM.lift (chain_puts chain) ;;
         let puts := setitem puts "Option Type" (CStr "put") in
         PyM.when (0 <? len puts)%nat
           (strike0 <- PyM.lift (first_of puts "strike") ;;
            PyM.when (isinstance_number strike0)
              (option_dict_assign expiry 1 puts ;;
               d <- PyM.lift (to_datetime expiry) ;;
               let puts := setitem puts "Expiry" (CDate d) in
               append_full_data puts)))
      EXCEPT index_key_value DO
        opt_except_list_append expiry))%py.

Definition get_option_data : M unit :=
  (PyM.modify_params (with_option_dict Dict.empty) ;;
   PyM.modify_params (with_opt_except_list []) ;;
   PyM.set_full_data empty_frame ;;
   p <- PyM.get_params ;;
   let asset := yf_Ticker (ticker p) in
   PyM.emit (ProviderInfo (ticker p)) ;;
   extracted_spot <- PyM.lift (resolve_spot (info asset)) ;;
   PyM.modify_params (with_extracted_spot (Some (CFloat extracted_spot))) ;;
   PyM.emit (ProviderOptions (ticker p)) ;;
   let opt_list := options asset in
   PyM.modify_params (with_date_list opt_list) ;;
   PyM.for_each opt_list (get_option_data_body asset) ;;
   t <- PyM.get_tables ;;
   PyM.set_full_data (rename (full_data t) canonical_name))%py.

(** ** Legacy scrape fetcher *)

(** The value of [UrlOpener().open(url)]; reading [.text] may raise. *)
Record Response : Type := mkResponse {
  text : result string
}.

(** One [<div role="option">] of the root page. *)
Record OptionDiv : Type := mkOptionDiv {
  get_text : string;
  attrs : dict string
}.

(** [UrlOpener().open] *)
Variable urlopen : string -> result Response.

(** [BeautifulSoup(html, features="lxml").findAll('div', {'role': 'option'})] *)
Variable findAll_option_divs : string -> list OptionDiv.

(** [parser.parse(text).date()] *)
Variable parse : string -> result date.

(** [date_obj.strftime('%Y-%m-%d')] *)
Variable strftime : date -> string.

(** [pd.read_html(StringIO(text))] *)
Variable read_html : string -> result (list DataFrame).

(** [time.sleep(seconds)]; a negative length raises [ValueError]. *)
Definition sleep (seconds : Z) : M unit :=
  if (seconds <? 0)%Z then PyM.raise ValueError else PyM.emit (Sleep seconds).

(** The loop filling [dates_list] (lines 364-370). *)
Fixpoint collect_dates (option_dates : list string) (dates_list : list date)
  : result (list date) :=
  match option_dates with
  | [] => Ok dates_list
  | option_date :: rest =>
      (dates_list' <-
         (TRY (d <- parse option_date ;; Ok (dates_list ++ [d]))
          EXCEPT index_key_value DO Ok dates_list) ;;
       collect_dates rest dates_list')%res
  end.

(** [[f(a) for a in l]] where [f] may raise *)
Fixpoint map_result {A B} (f : A -> result B) (l : list A) : result (list B) :=
  match l with
  | [] => Ok []
  | a :: l' => (b <- f a ;; bs <- map_result f l' ;; Ok (b :: bs))%res
  end.

(** [(len(num) == 10) and (num.isdigit())] *)
Definition valid_page (num : string) : bool :=
  (String.length num =? 10)%nat && isdigit num.

Definition option_url (tkr page : string) : string :=
  ("https://finance.yahoo.com/quote/" ++ tkr ++ "/options?date=" ++ page)%string.

(** Lines 357-394: from the date-picker entries to [url_dict]. *)
Definition build_url_dict (tkr : string) (soup : list OptionDiv)
  : result (dict string) :=
  (let option_dates := map get_text soup in
   dates_list <- collect_dates option_dates [] ;;
   let str_dates := map strftime dates_list in
   raw_option_pages <-
     map_result (fun a => Dict.getitem (attrs a) "data-value") soup ;;
   let option_pages := filter valid_page raw_option_pages in
   let optodict := Dict.of_pairs (combine str_dates option_pages) in
   Ok (fold_left
         (fun url_dict kv =>
            Dict.set url_dict (fst kv) (option_url tkr (snd kv)))
         (Dict.items optodict) Dict.empty))%res.

Definition _extracturls : M unit :=
  (p <- PyM.get_params ;;
   let url := ("https://finance.yahoo.com/quote/" ++ ticker p
               ++ "/options?p=" ++ ticker p)%string in
   PyM.emit (HttpOpen url) ;;
   response <- PyM.lift (urlopen url) ;;
   html <- PyM.lift (text response) ;;
   PyM.modify_params (with_html_doc html) ;;
   url_dict' <- PyM.lift (build_url_dict (ticker p) (findAll_option_divs html)) ;;
   PyM.modify_params (with_url_dict url_dict'))%py.

(** The local variable of [_extract_web_data] is [raw_web_data]. *)
Definition _extract_web_data : M (dict string) :=
  PyM.run_local (Dict.empty : dict string)
    (p <- PyM.in_ctx PyM.get_params ;;
     PyM.for_each (Dict.items (url_dict p))
       (fun kv =>
          let input_date := fst kv in
          let url := snd kv in
          PyM.in_ctx (PyM.emit (HttpOpen url)) ;;
          weburl <- PyM.lift (urlopen url) ;;
          TRY
            (page <- PyM.lift (text weburl) ;;
             raw_web_data <- PyM.get_local ;;
             PyM.set_local (Dict.set raw_web_data input_date page) ;;
             PyM.in_ctx (sleep (wait p)))
          EXCEPT only_ValueError DO
            PyM.in_ctx (sleep 5)) ;;
     PyM.get_local)%py.

Definition _read_web_data : M unit :=
  (PyM.modify_params (with_option_dict Dict.empty) ;;
   PyM.modify_params (with_url_except_dict Dict.empty) ;;
   p <- PyM.get_params ;;
   PyM.for_each (Dict.items (url_dict p))
     (fun kv =>
        let input_date := fst kv in
        let url := snd kv in
        TRY
          (p <- PyM.get_params ;;
           page <- PyM.lift (Dict.getitem (raw_web_data p) input_date) ;;
           option_frame <- PyM.lift (read_html page) ;;
           PyM.modify_params
             (fun p => with_option_dict
                         (Dict.set (option_dict p) input_date option_frame) p))
        EXCEPT only_ValueError DO
          PyM.modify_params
            (fun p => with_url_except_dict
                        (Dict.set (url_except_dict p) input_date url) p)))%py.

(** [params['option_dict'][input_date][i]] *)
Definition option_dict_frame (input_date : string) (i : nat) : M DataFrame :=
  (p <- PyM.get_params ;;
   frames <- PyM.lift (Dict.getitem (option_dict p) input_date) ;;
   PyM.lift (list_getitem frames i))%py.

(** The body of the loop of [_process_options] (lines 462-515).  The
    columns stamped on a frame are not written back to [option_dict]; the
    stamps are idempotent, so the table does not depend on it. *)
Definition _process_options_body (input_date : string) : M unit :=
  (TRY
     (calls <- option_dict_frame input_date 0 ;;
      let calls := setitem calls "Option Type" (CStr "call") in
      strike0 <- PyM.lift (first_of calls "Strike") ;;
      PyM.when (str_isdigit strike0)
        (TRY
           (puts <- option_dict_frame input_date 1 ;;
            let puts := setitem puts "Option Type" (CStr "put") in
            strike0 <- PyM.lift (first_of puts "Strike") ;;
            PyM.when (str_isdigit strike0)
              (let options := concat2 calls puts in
               d <- PyM.lift (to_datetime input_date) ;;
               let options := setitem options "Expiry" (CDate d) in
               append_full_data options))
         EXCEPT only_IndexError DO
           (d <- PyM.lift (to_datetime input_date) ;;
            let calls := setitem calls "Expiry" (CDate d) in
            append_full_data calls)))
   EXCEPT only_IndexError DO
     (TRY
        (puts <- option_dict_frame input_date 1 ;;
         let puts := setitem puts "Option Type" (CStr "put") in
         strike0 <- PyM.lift (first_of puts "Strike") ;;
         PyM.when (str_isdigit strike0)
           (d <- PyM.lift (to_datetime input_date) ;;
            let puts := setitem puts "Expiry" (CDate d) in
            append_full_data puts))
      EXCEPT only_IndexError DO
        opt_except_list_append input_date))%py.

Definition _process_options : M unit :=
  (PyM.modify_params (with_opt_except_list []) ;;
   p <- PyM.get_params ;;
   PyM.for_each (date_list p) _process_options_body)%py.

Definition extractoptions : M unit :=
  (_extracturls ;;
   raw <- _extract_web_data ;;
   PyM.modify_params (with_raw_web_data raw) ;;
   _read_web_data ;;
   PyM.set_full_data empty_frame ;;
   p <- PyM.get_params ;;
   PyM.modify_params (with_date_list (Dict.keys (option_dict p))) ;;
   _process_options)%py.

End Fetchers.

(** ** Precomputed-data adapter and the choice of path *)

Section Pipeline.

Variable yf_Ticker : string -> Ticker.
Variable to_datetime : string -> result date.

(** [DataPrep.transform] and [DataPrep.combine] ([market_data_prep], not
    part of this development): stages from [(params, tables)] to
    [(params, tables)]. *)
Variable DataPrep_transform : Params * Tables -> result (Params * Tables).
Variable DataPrep_combine : Params * Tables -> result (Params * Tables).

Definition stage (f : Params * Tables -> result (Params * Tables)) : M unit :=
  fun s =>
    match f (params s, tables s) with
    | Ok pt => (Ok tt, mkCtx (fst pt) (snd pt) (effects s))
    | Raise e => (Raise e, s)
    end.

Definition create_option_data : M unit :=
  (get_option_data yf_Ticker to_datetime ;;
   stage DataPrep_transform ;;
   stage DataPrep_combine)%py.

(** The columns kept by [process_df_option_data] (lines 142-155). *)
Definition canonical_columns : list string :=
  [ "Contract Symbol"; "Last Price"; "Bid"; "Ask"; "Last Trade Date";
    "Expiry"; "Strike"; "Option Type"; "Open Interest"; "Volume";
    "Implied Volatility"; "Discount Rate" ].

(** [params['precomputed_data']] *)
Definition params_precomputed_data (p : Params) : result DataFrame :=
  match precomputed_data p with
  | Some df => Ok df
  | None => Raise KeyError
  end.

Definition process_df_option_data : M unit :=
  (p <- PyM.get_params ;;
   df <- PyM.lift (params_precomputed_data p) ;;
   spot <- PyM.lift (s <- getitem df "Spot Price" ;; iloc0 s)%res ;;
   PyM.modify_params (with_extracted_spot (Some spot)) ;;
   projected <- PyM.lift (select df canonical_columns) ;;
   PyM.set_full_data projected ;;
   stage DataPrep_transform ;;
   stage DataPrep_combine)%py.

(** [Volatility.__init__], lines 105-115: the choice between the
    precomputed-data path and the fetch path. *)
Definition Volatility_init_data : M unit :=
  (p <- PyM.get_params ;;
   match precomputed_data p with
   | Some df =>
       df' <- PyM.lift
                (if discount_type p =? "smooth"
                 then setitem_from df "Discount Rate" "Smooth Discount Rate"
                 else setitem_from df "Discount Rate" "Direct Discount Rate") ;;
       PyM.modify_params (with_precomputed_data (Some df')) ;;
       process_df_option_data
   | None => create_option_data
   end)%py.

End Pipeline.

(** ** Trading calendar builder ([Data.trading_calendar]) *)

Section Calendar.

(** A holiday rule of [pandas.tseries.holiday]. *)
Variable Holiday : Type.

(** The dates a rule yields between two dates. *)
Variable rule_dates : Holiday -> date -> date -> list date.

(** [USFederalHolidayCalendar.rules] *)
Variable USFederalHolidayCalendar_rules : list Holiday.

(** [GoodFriday] *)
Variable GoodFriday : Holiday.

(** [HolidayCalendarFactory(name, base, other)], as the rules of the class
    it returns, from the rules of [base] and of [other]. *)
Variable HolidayCalendarFactory : list Holiday -> list Holiday -> list Holiday.

(** [Calendar().holidays(start, end)] for a calendar class with the given
    rules, each timestamp taken as its date. *)
Variable holidays : list Holiday -> date -> date -> list date.

(** [date.today()] *)
Variable today : date.

(** [[x for i, x in enumerate(l) if keep(i)]], counting from [i]. *)
Fixpoint filter_enumerate {A} (keep : nat -> bool) (i : nat) (l : list A)
  : list A :=
  match l with
  | [] => []
  | x :: l' =>
      if keep i then x :: filter_enumerate keep (S i) l'
      else filter_enumerate keep (S i) l'
  end.

(** [CustomTradingCalendar.rules] (line 562) *)
Definition CustomTradingCalendar_rules : list Holiday :=
  filter_enumerate (fun i => negb (i =? 6)%nat && negb (i =? 7)%nat) 0
    USFederalHolidayCalendar_rules.

(** [GoodFridayCalendar.rules] (line 566) *)
Definition GoodFridayCalendar_rules : list Holiday := [GoodFriday].

Definition TradingCalendar_rules : list Holiday :=
  HolidayCalendarFactory CustomTradingCalendar_rules GoodFridayCalendar_rules.

Definition trading_calendar (p : Params) : Params :=
  let start_dt := today in
  let end_dt := (today + 2500)%Z in
  let holiday_array := holidays TradingCalendar_rules start_dt end_dt in
  with_trade_holidays holiday_array p.

End Calendar.

(** ** The spot fallback as the specification words it *)

(** The value the specification assigns to a snapshot: the current price;
    else the mid of bid and ask when both are present, replaced by the
    previous close when it deviates from it by more than 20%; else the net
    asset value; else the previous close. *)
Definition spot_as_specified (info : dict Q) (v : Q) : Prop :=
  match Dict.get info "currentPrice" with
  | Some c => v = c
  | None =>
      match Dict.get info "bid", Dict.get info "ask" with
      | Some b, Some a =>
          (exists p, Dict.get info "previousClose" = Some p /\
                     2 # 10 < Qabs ((b + a) / 2 - p) / p /\ v = p) \/
          ((forall p, Dict.get info "previousClose" = Some p ->
                      ~ 2 # 10 < Qabs ((b + a) / 2 - p) / p) /\
           v = (b + a) / 2)
      | _, _ =>
          match Dict.get info "navPrice" with
          | Some n => v = n
          | None => Dict.get info "previousClose" = Some v
          end
      end
  end.

(** ** Sample data *)

Module Sample.

(** A date parser that knows two expiries. *)
Definition to_datetime (s : string) : result date :=
  if s =? "2025-03-21" then Ok 739331%Z
  else if s =? "2025-04-18" then Ok 739359%Z
  else Raise ValueError.

Definition base_params : Params :=
  mkParams "SPY" 1 "smooth" None None [] [] [] EmptyString [] [] [] [].

Definition ctx0 : Ctx := mkCtx base_params (mkTables empty_frame) [].

(** Quote snapshots. *)
Definition quote_mid : dict Q :=
  [("bid", 100 # 1); ("ask", 102 # 1); ("previousClose", 90 # 1)].

Definition quote_wide : dict Q :=
  [("bid", 100 # 1); ("ask", 200 # 1); ("previousClose", 90 # 1)].

Definition quote_no_close : dict Q :=
  [("bid", 100 # 1); ("ask", 102 # 1); ("navPrice", 50 # 1)].

Definition quote_nav : dict Q :=
  [("ask", 102 # 1); ("navPrice", 50 # 1); ("previousClose", 90 # 1)].

Definition quote_close_only : dict Q := [("previousClose", 90 # 1)].

Definition quote_current : dict Q :=
  [("currentPrice", 101 # 1); ("previousClose", 90 # 1)].

Definition quote_zero_close : dict Q :=
  [("bid", 1 # 1); ("ask", 1 # 1); ("previousClose", 0 # 1)].

Definition quote_bid_ask_only : dict Q := [("bid", 100 # 1); ("ask", 102 # 1)].

(** Option rows as the provider returns them. *)
Definition option_row (symbol : string) (strike : cell) : row :=
  [("contractSymbol", CStr symbol); ("strike", strike);
   ("lastPrice", CFloat (5 # 2)); ("bid", CFloat (2 # 1));
   ("ask", CFloat (3 # 1)); ("volume", CInt 10); ("openInterest", CInt 7)].

Definition provider_columns : list string :=
  ["contractSymbol"; "strike"; "lastPrice"; "bid"; "ask"; "volume";
   "openInterest"].

Definition five_calls : DataFrame :=
  mkDataFrame provider_columns
    [ option_row "C90" (CFloat (90 # 1)); option_row "C95" (CFloat (95 # 1));
      option_row "C100" (CFloat (100 # 1)); option_row "C105" (CFloat (105 # 1));
      option_row "C110" (CFloat (110 # 1)) ].

Definition three_puts : DataFrame :=
  mkDataFrame provider_columns
    [ option_row "P90" (CFloat (90 # 1)); option_row "P95" (CFloat (95 # 1));
      option_row "P100" (CFloat (100 # 1)) ].

(** A put set with no rows. *)
Definition no_rows : DataFrame := mkDataFrame provider_columns [].

(** A side whose rows lack the strike field. *)
Definition no_strike_field : DataFrame :=
  mkDataFrame ["contractSymbol"; "lastPrice"]
    [ [("contractSymbol", CStr "X1"); ("lastPrice", CFloat (1 # 1))] ].

(** A side whose first strike is a placeholder text. *)
Definition placeholder_strikes : DataFrame :=
  mkDataFrame provider_columns
    [ option_row "P1" (CStr "-"); option_row "P2" (CStr "-") ].

(** A side whose first strike is a number and whose second is not. *)
Definition mixed_strikes : DataFrame :=
  mkDataFrame provider_columns
    [ option_row "C100" (CFloat (100 # 1)); option_row "C???" (CStr "-") ].

(** A provider with one expiry and the given two sides. *)
Definition one_expiry (quote : dict Q) (c p : result DataFrame)
  : string -> Ticker :=
  fun _ => mkTicker quote ["2025-03-21"] (fun _ => Ok (mkChain c p)).

(** A provider whose chain fetch loses the connection. *)
Definition chain_down (quote : dict Q) : string -> Ticker :=
  fun _ => mkTicker quote ["2025-03-21"] (fun _ => Raise ConnectionError).

(** Runs of the API fetcher over one expiry with the given sides. *)
Definition api_run (c p : result DataFrame) : result unit * Ctx :=
  get_option_data (one_expiry quote_mid c p) to_datetime ctx0.

(** One pass of the API loop over the expiry, from the initial context. *)
Definition api_pass (c p : result DataFrame) : result unit * Ctx :=
  get_option_data_body to_datetime (one_expiry quote_mid c p "SPY")
    "2025-03-21" ctx0.

(** The legacy path: a date parser and a formatter for two dates, and the
    date-picker entries of a root page. *)
Definition parse (s : string) : result date :=
  if s =? "March 21, 2025" then Ok 739331%Z
  else if s =? "April 18, 2025" then Ok 739359%Z
  else Raise ValueError.

Definition strftime (d : date) : string :=
  if (d =? 739331)%Z then "2025-03-21"
  else if (d =? 739359)%Z then "2025-04-18"
  else "0001-01-01".

Definition march : OptionDiv :=
  mkOptionDiv "March 21, 2025" [("data-value", "1742515200")].

Definition april : OptionDiv :=
  mkOptionDiv "April 18, 2025" [("data-value", "1744934400")].

(** The March entry shown a second time, with another token. *)
Definition march_again : OptionDiv :=
  mkOptionDiv "March 21, 2025" [("data-value", "1742601600")].

(** An entry with neither a date nor a page token. *)
Definition placeholder : OptionDiv :=
  mkOptionDiv "Select a date" [("data-value", "none")].

Definition root_url : string :=
  "https://finance.yahoo.com/quote/SPY/options?p=SPY".

Definition march_url : string := option_url "SPY" "1742515200".
Definition april_url : string := option_url "SPY" "1744934400".

(** A root page with the two entries. *)
Definition findAll_option_divs (html : string) : list OptionDiv :=
  [march; april].

(** One parsed table of calls, as the legacy parser names the columns. *)
Definition legacy_calls : DataFrame :=
  mkDataFrame ["Contract Name"; "Strike"]
    [ [("Contract Name", CStr "C100"); ("Strike", CInt 100)];
      [("Contract Name", CStr "C105"); ("Strike", CInt 105)] ].

Definition read_html (page : string) : result (list DataFrame) :=
  Ok [legacy_calls].

(** A transport that loses the connection on the March page. *)
Definition urlopen_march_down (url : string) : result Response :=
  if url =? march_url then Raise ConnectionError
  else Ok (mkResponse (Ok "<html>")).

(** A transport whose March response cannot be read as text. *)
Definition urlopen_march_unreadable (url : string) : result Response :=
  if url =? march_url then Ok (mkResponse (Raise ValueError))
  else Ok (mkResponse (Ok "<html>")).

(** A transport without faults. *)
Definition urlopen_up (url : string) : result Response :=
  Ok (mkResponse (Ok "<html>")).

(** A supplied table of two contracts with both discount-rate variants. *)
Definition precomputed_row (symbol : string) (smooth direct : Q) : row :=
  [ ("Contract Symbol", CStr symbol); ("Last Price", CFloat (5 # 2));
    ("Bid", CFloat (2 # 1)); ("Ask", CFloat (3 # 1));
    ("Last Trade Date", CDate 739300%Z); ("Expiry", CDate 739331%Z);
    ("Strike", CFloat (450 # 1)); ("Option Type", CStr "call");
    ("Open Interest", CInt 7); ("Volume", CInt 10);
    ("Implied Volatility", CFloat (1 # 5)); ("Spot Price", CFloat (452 # 1));
    ("Smooth Discount Rate", CFloat smooth);
    ("Direct Discount Rate", CFloat direct) ].

Definition precomputed : DataFrame :=
  mkDataFrame
    [ "Contract Symbol"; "Last Price"; "Bid"; "Ask"; "Last Trade Date";
      "Expiry"; "Strike"; "Option Type"; "Open Interest"; "Volume";
      "Implied Volatility"; "Spot Price"; "Smooth Discount Rate";
      "Direct Discount Rate" ]
    [ precomputed_row "A" (4 # 100) (5 # 100);
      precomputed_row "B" (41 # 1000) (52 # 1000) ].

Definition ctx_precomputed : Ctx :=
  mkCtx (with_precomputed_data (Some precomputed) base_params)
        (mkTables empty_frame) [].

(** Downstream stages that hand the tables on unchanged. *)
Definition pass_on (pt : Params * Tables) : result (Params * Tables) := Ok pt.

(** A small holiday machinery: a rule is one fixed date, a calendar
    evaluates to the ordered dates of its rules that fall in the range. *)
Definition rule_dates (rule : date) (a b : date) : list date :=
  if ((a <=? rule) && (rule <=? b))%Z then [rule] else [].

Fixpoint insert_date (d : date) (l : list date) : list date :=
  match l with
  | [] => [d]
  | x :: l' => if (d <=? x)%Z then d :: l else x :: insert_date d l'
  end.

Fixpoint sort_dates (l : list date) : list date :=
  match l with
  | [] => []
  | d :: l' => insert_date d (sort_dates l')
  end.

Definition holidays (rules : list date) (a b : date) : list date :=
  sort_dates (flat_map (fun r => rule_dates r a b) rules).

Definition HolidayCalendarFactory (base other : list date) : list date :=
  other ++ base.

(** Eleven federal rules (dates of one year), Good Friday of the next, and
    the day of the run. *)
Definition federal_rules : list date :=
  [ 740014; 740031; 740059; 740164; 740183; 740199; 740262; 740297;
    740296; 740311; 740340 ]%Z.

Definition good_friday : date := 740066%Z.

Definition today : date := 739923%Z.

(** Runs of the legacy path with the given transport. *)
Definition legacy_run (urlopen : string -> result Response)
  : result unit * Ctx :=
  extractoptions to_datetime urlopen findAll_option_divs parse strftime
    read_html ctx0.

End Sample.

(** ** Vocabulary of the properties *)

(** How one side of a chain fares in the API fetcher: it passes the two
    guards (non-empty, numeric first strike), it raises one of the handled
    exceptions (on access, or on the strike lookup of a non-empty frame
    without a strike column), or it is turned down by a guard without any
    exception. *)
Definition api_side_valid (side : result DataFrame) : bool :=
  match side with
  | Ok df =>
      (0 <? len df)%nat &&
      match first_of df "strike" with
      | Ok c => isinstance_number c
      | Raise _ => false
      end
  | Raise _ => false
  end.

Definition api_side_raises (side : result DataFrame) : bool :=
  match side with
  | Ok df => (0 <? len df)%nat && negb (has_column df "strike")
  | Raise e => index_key_value e
  end.

Definition api_side_turned_down (side : result DataFrame) : bool :=
  match side with
  | Ok df =>
      negb (0 <? len df)%nat ||
      match first_of df "strike" with
      | Ok c => negb (isinstance_number c)
      | Raise _ => false
      end
  | Raise _ => false
  end.

(** The rows a side contributes once tagged and stamped. *)
Definition stamped (df : DataFrame) (option_type : string) (d : date)
  : DataFrame :=
  setitem (setitem df "Option Type" (CStr option_type)) "Expiry" (CDate d).

(** The context in which [get_option_data] enters its loop, once the spot
    price has resolved to [spot]. *)
Definition api_loop_entry (asset : Ticker) (spot : Q) (s : Ctx) : Ctx :=
  mkCtx
    (with_date_list (options asset)
       (with_extracted_spot (Some (CFloat spot))
          (with_opt_except_list []
             (with_option_dict Dict.empty (params s)))))
    (mkTables empty_frame)
    (effects s ++ [ProviderInfo (ticker (params s))]
               ++ [ProviderOptions (ticker (params s))]).

(** The last step of [get_option_data]: the column names become the
    canonical ones. *)
Definition api_finish (s : Ctx) : Ctx :=
  mkCtx (params s)
        (mkTables (rename (full_data (tables s)) canonical_name))
        (effects s).

(** How a table of the legacy parser fares: the text of its first strike
    is made of digits, or not. *)
Definition legacy_valid (df : DataFrame) : bool :=
  match first_of df "Strike" with
  | Ok c => str_isdigit c
  | Raise _ => false
  end.

(** What the specification asks of a row of the canonical table, with the
    test for a numeric strike that the fetcher applies. *)
Definition canonical_row (numeric : cell -> bool) (r : row) : Prop :=
  (cell_at r "Option Type" = CStr "call" \/
   cell_at r "Option Type" = CStr "put") /\
  numeric (cell_at r "Strike") = true /\
  (exists d, cell_at r "Expiry" = CDate d /\ valid_date d = true).

(** Every row of the side agrees with the first one on the test. *)
Definition uniform_column (test : cell -> bool) (c : string) (df : DataFrame)
  : Prop :=
  forall r r', In r (rows df) -> In r' (rows df) ->
               test (cell_at r c) = test (cell_at r' c).

(** No row carries the key. *)
Definition lacks_key (c : string) (df : DataFrame) : Prop :=
  forall r, In r (rows df) -> Dict.get r c = None.

(** A row of the table of the API fetcher before the final [rename]: the
    strike still sits under the provider's name. *)
Definition provider_row (r : row) : Prop :=
  (cell_at r "Option Type" = CStr "call" \/
   cell_at r "Option Type" = CStr "put") /\
  isinstance_number (cell_at r "strike") = true /\
  (exists d, cell_at r "Expiry" = CDate d /\ valid_date d = true) /\
  Dict.get r "Strike" = None.

(** The dates [collect_dates] keeps: those of the entries whose text
    parses. *)
Definition parsed_dates (parse : string -> result date) (texts : list string)
  : list date :=
  flat_map (fun t => match parse t with Ok d => [d] | Raise _ => [] end) texts.

(** The page tokens of the entries that carry one. *)
Definition page_tokens (soup : list OptionDiv) : list string :=
  flat_map (fun a => match Dict.get (attrs a) "data-value" with
                     | Some tok => [tok]
                     | None => []
                     end) soup.

(** The pairs that [build_url_dict] zips: the formatted parsed dates against
    the valid tokens, position by position. *)
Definition zipped_pages (parse : string -> result date)
  (strftime : date -> string) (soup : list OptionDiv)
  : list (string * string) :=
  combine (map strftime (parsed_dates parse (map get_text soup)))
          (filter valid_page (page_tokens soup)).

(** The column the discount-type flag selects (lines 108-111 of
    [Volatility.__init__]). *)
Definition selected_discount_column (p : Params) : string :=
  if discount_type p =? "smooth" then "Smooth Discount Rate"
  else "Direct Discount Rate".

(** The columns the precomputed-data path reads from the supplied table. *)
Definition precomputed_columns : list string :=
  [ "Smooth Discount Rate"; "Direct Discount Rate"; "Spot Price";
    "Contract Symbol"; "Last Price"; "Bid"; "Ask"; "Last Trade Date";
    "Expiry"; "Strike"; "Option Type"; "Open Interest"; "Volume";
    "Implied Volatility" ].

(** The row of the canonical table made from a row of the supplied table
    once its Discount Rate is set to [rate]. *)
Definition projected_row (r : row) (rate : cell) : row :=
  map (fun c => (c, cell_at (Dict.set r "Discount Rate" rate) c))
      canonical_columns.

(** ** Further vocabulary and samples *)

(** Two contexts hold the same results of the API fetcher. *)
Definition same_results (s1 s2 : Ctx) : Prop :=
  option_dict (params s1) = option_dict (params s2) /\
  opt_except_list (params s1) = opt_except_list (params s2) /\
  full_data (tables s1) = full_data (tables s2).

Module Sample2.

(** A snapshot whose previous close is negative. *)
Definition quote_negative_close : dict Q :=
  [("bid", 1 # 1); ("ask", 3 # 1); ("previousClose", -5 # 1)].

(** A provider with two expiries, the second of which is no date. *)
Definition two_expiries : string -> Ticker :=
  fun _ =>
    mkTicker Sample.quote_mid ["2025-03-21"; "next week"]
      (fun _ => Ok (mkChain (Ok Sample.five_calls) (Ok Sample.three_puts))).

(** A context left behind by an earlier run. *)
Definition ctx_used : Ctx :=
  mkCtx (with_opt_except_list ["2024-01-19"]
           (with_option_dict [("2024-01-19", [])] Sample.base_params))
        (mkTables Sample.five_calls) [ProviderInfo "SPY"].

End Sample2.

(** ** The transport stages of the legacy path, as values *)

Section Transport.

Variable urlopen : string -> result Response.
Variable read_html : string -> result (list DataFrame).

(** The pause that follows a page whose text was stored: the configured
    wait, or the fixed 5 when [time.sleep] refuses a negative wait. *)
Definition pause_after_fetch (p : Params) : Z :=
  if (wait p <? 0)%Z then 5%Z else wait p.

(** [UrlOpener().open(url).text], when both steps return. *)
Definition fetched_text (url : string) : option string :=
  match urlopen url with
  | Ok weburl => match text weburl with Ok page => Some page | Raise _ => None end
  | Raise _ => None
  end.

(** Every page opens, and reading its text returns or raises
    [ValueError]. *)
Definition transport_up (urls : dict string) : Prop :=
  forall kv, In kv urls ->
    exists weburl, urlopen (snd kv) = Ok weburl /\
      forall e, text weburl = Raise e -> e = ValueError.

Definition fetch_trace (p : Params) (urls : dict string) : list event :=
  flat_map (fun kv => [HttpOpen (snd kv);
                       Sleep (match fetched_text (snd kv) with
                              | Some _ => pause_after_fetch p
                              | None => 5%Z
                              end)]) urls.

Definition fetched_pages (urls : dict string) : dict string :=
  flat_map (fun kv => match fetched_text (snd kv) with
                      | Some page => [(fst kv, page)]
                      | None => []
                      end) urls.

(** [pd.read_html(StringIO(params['raw_web_data'][input_date]))] *)
Definition read_page (raw : dict string) (input_date : string)
  : result (list DataFrame) :=
  (page <- Dict.getitem raw input_date ;; read_html page)%res.

(** The dates whose page parses, with their tables, and the others, with
    their URL, both in the order of [url_dict]. *)
Definition parsed_pages (raw urls : dict string) : dict (list DataFrame) :=
  flat_map (fun kv => match read_page raw (fst kv) with
                      | Ok frames => [(fst kv, frames)]
                      | Raise _ => []
                      end) urls.

Definition unparsed_pages (raw urls : dict string) : dict string :=
  flat_map (fun kv => match read_page raw (fst kv) with
                      | Ok _ => []
                      | Raise _ => [kv]
                      end) urls.

(** The body of the loop of [_extract_web_data] (lines 407-421), over the
    context and the local [raw_web_data]. *)
Definition fetch_body (p : Params) (kv : string * string)
  : MS (Ctx * dict string) unit :=
  (let input_date := fst kv in
   let url := snd kv in
   PyM.in_ctx (PyM.emit (HttpOpen url)) ;;
   weburl <- PyM.lift (urlopen url) ;;
   TRY
     (page <- PyM.lift (text weburl) ;;
      raw_web_data <- PyM.get_local ;;
      PyM.set_local (Dict.set raw_web_data input_date page) ;;
      PyM.in_ctx (sleep (wait p)))
   EXCEPT only_ValueError DO
     PyM.in_ctx (sleep 5))%py.

(** The body of the loop of [_read_web_data] (lines 433-446). *)
Definition read_body (kv : string * string) : M unit :=
  (let input_date := fst kv in
   let url := snd kv in
   TRY
     (p <- PyM.get_params ;;
      page <- PyM.lift (Dict.getitem (raw_web_data p) input_date) ;;
      option_frame <- PyM.lift (read_html page) ;;
      PyM.modify_params
        (fun p => with_option_dict
                    (Dict.set (option_dict p) input_date option_frame) p))
   EXCEPT only_ValueError DO
     PyM.modify_params
       (fun p => with_url_except_dict
                   (Dict.set (url_except_dict p) input_date url) p))%py.

(** Every date has its page text, and the table reader returns or raises
    [ValueError]. *)
Definition pages_readable (raw urls : dict string) : Prop :=
  forall kv, In kv urls ->
    exists page, Dict.get raw (fst kv) = Some page /\
      forall e, read_html page = Raise e -> e = ValueError.

(** What one pass of the reader does to the parameters when it completes. *)
Definition read_step (raw : dict string) (kv : string * string) (p : Params)
  : Params :=
  match read_page raw (fst kv) with
  | Ok frames =>
      with_option_dict (Dict.set (option_dict p) (fst kv) frames) p
  | Raise _ =>
      with_url_except_dict (Dict.set (url_except_dict p) (fst kv) (snd kv)) p
  end.

End Transport.

(** The root page of a ticker (lines 344-345) and the context in which
    [extractoptions] enters [_process_options] after healthy transport
    stages. *)
Definition root_url (tkr : string) : string :=
  ("https://finance.yahoo.com/quote/" ++ tkr ++ "/options?p=" ++ tkr)%string.

Definition legacy_entry (urlopen : string -> result Response)
  (read_html : string -> result (list DataFrame))
  (html : string) (urls : dict string) (s : Ctx) : Ctx :=
  mkCtx
    (with_date_list
       (Dict.keys (parsed_pages read_html (fetched_pages urlopen urls) urls))
       (with_url_except_dict
          (unparsed_pages read_html (fetched_pages urlopen urls) urls)
          (with_option_dict
             (parsed_pages read_html (fetched_pages urlopen urls) urls)
             (with_raw_web_data (fetched_pages urlopen urls)
                (with_url_dict urls (with_html_doc html (params s)))))))
    (mkTables empty_frame)
    (effects s ++ HttpOpen (root_url (ticker (params s)))
       :: fetch_trace urlopen (params s) urls).

(** Every page opens, its text is read, and the table reader returns or
    raises [ValueError] on it. *)
Definition pages_served (urlopen : string -> result Response)
  (read_html : string -> result (list DataFrame)) (urls : dict string) : Prop :=
  forall kv, In kv urls ->
    exists page, fetched_text urlopen (snd kv) = Some page /\
      forall e, read_html page = Raise e -> e = ValueError.

(** ** The precomputed-data path, continued *)

(** The supplied table once line 109 or 111 of [Volatility.__init__] has
    set its Discount Rate from the column the flag selects. *)
Definition with_selected_rate (p : Params) (df : DataFrame) : DataFrame :=
  mkDataFrame (add_column (columns df) "Discount Rate")
    (map (fun r => Dict.set r "Discount Rate"
                     (cell_at r (selected_discount_column p)))
         (rows df)).

(** The canonical columns that must come with the supplied table. *)
Definition supplied_columns : list string :=
  [ "Contract Symbol"; "Last Price"; "Bid"; "Ask"; "Last Trade Date";
    "Expiry"; "Strike"; "Option Type"; "Open Interest"; "Volume";
    "Implied Volatility" ].

(** ** The graph, query and report methods of [Volatility]
    (volatility.py, lines 129-585) *)

(** A value of the settings dictionary [self.params]. *)
Inductive setting : Type :=
| SNone
| SBool (b : bool)
| SInt (z : Z)
| SFloat (q : Q)
| SStr (s : string).

(** [v == s] for a string literal [s]. *)
Definition setting_is (v : setting) (s : string) : bool :=
  match v with
  | SStr t => String.eqb t s
  | _ => false
  end.

(** [v is not None] *)
Definition is_not_None (v : setting) : bool :=
  match v with
  | SNone => false
  | _ => true
  end.

(** One call of a function of [GraphData], [VolMethods] or [SkewReport],
    with the settings it was passed. *)
Record Call : Type := mkCall {
  callee : string;
  passed : dict setting
}.

Section VolatilityMethods.

(** The graph dictionaries, the report dictionary, and what the object
    holds besides its settings: [self.tables], [self.surface_models] and
    whatever else the called functions reach. *)
Variables GraphDict VolDict Outside : Type.

(** A function of [graph_data], [vol_methods] or [skew_report] (not part of
    this development): it is passed [self.params] by reference, so it may
    change the settings as well as return or raise. *)
Definition collaborator (A : Type) : Type :=
  dict setting * Outside -> result A * (dict setting * Outside).

Variables line_graph scatter_3d surface_3d : collaborator GraphDict.
Variable get_vol : string -> Z -> collaborator Q.
Variable create_vol_dict : collaborator VolDict.

(** The object: [self.params], [self.data_dict], [self.vol_dict] ([None]
    for the empty dictionary of [__init__]), the rest, and the calls made
    so far, oldest first. *)
Record Volatility : Type := mkVolatility {
  self_params : dict setting;
  self_data_dict : dict GraphDict;
  self_vol_dict : option VolDict;
  outside : Outside;
  calls : list Call
}.

Definition VM (A : Type) : Type := MS Volatility A.

(** [self.params[key]] *)
Definition get_param (key : string) : VM setting :=
  fun o => (Dict.getitem (self_params o) key, o).

(** [self.params[key] = value] *)
Definition set_param (key : string) (value : setting) : VM unit :=
  fun o => (Ok tt, mkVolatility (Dict.set (self_params o) key value)
                     (self_data_dict o) (self_vol_dict o) (outside o)
                     (calls o)).

(** [self.data_dict[key] = value] *)
Definition set_data (key : string) (value : GraphDict) : VM unit :=
  fun o => (Ok tt, mkVolatility (self_params o)
                     (Dict.set (self_data_dict o) key value)
                     (self_vol_dict o) (outside o) (calls o)).

(** [self.vol_dict = value] *)
Definition set_vol_dict (value : VolDict) : VM unit :=
  fun o => (Ok tt, mkVolatility (self_params o) (self_data_dict o)
                     (Some value) (outside o) (calls o)).

(** [f(params=self.params, ...)] *)
Definition call {A} (name : string) (f : collaborator A) : VM A :=
  fun o =>
    let (r, pw) := f (self_params o, outside o) in
    (r, mkVolatility (fst pw) (self_data_dict o) (self_vol_dict o) (snd pw)
          (calls o ++ [mkCall name (self_params o)])).

(** [for key, value in kwargs.items(): self.params[key] = value] *)
Definition update_params (kwargs : dict setting) : VM unit :=
  PyM.for_each (Dict.items kwargs) (fun kv => set_param (fst kv) (snd kv)).

(** [self.params[key] == s] *)
Definition param_is (key s : string) : VM bool :=
  (v <- get_param key ;; PyM.ret (setting_is v s))%py.

(** [visualize] (lines 191-230).  The branches on the surface type from
    'mesh' on are [elif]s of the outer chain: the [if] nested under
    [graphtype == 'surface'] tests 'trisurf' only. *)
Definition visualize (kwargs : dict setting) : VM unit :=
  (update_params kwargs ;;
   is_line <- param_is "graphtype" "line" ;;
   if is_line : bool then
     g <- call "line_graph" line_graph ;; set_data "line_data_dict" g
   else
   is_scatter <- param_is "graphtype" "scatter" ;;
   if is_scatter : bool then
     g <- call "scatter_3d" scatter_3d ;; set_data "scatter_data_dict" g
   else
   is_surface <- param_is "graphtype" "surface" ;;
   if is_surface : bool then
     is_trisurf <- param_is "surfacetype" "trisurf" ;;
     if is_trisurf : bool then
       g <- call "surface_3d" surface_3d ;; set_data "trisurf_data_dict" g
     else PyM.ret tt
   else
   is_mesh <- param_is "surfacetype" "mesh" ;;
   if is_mesh : bool then
     g <- call "surface_3d" surface_3d ;; set_data "mesh_data_dict" g
   else
   is_spline <- param_is "surfacetype" "spline" ;;
   if is_spline : bool then
     g <- call "surface_3d" surface_3d ;; set_data "spline_data_dict" g
   else
   is_svi <- param_is "surfacetype" "svi" ;;
   if is_svi : bool then
     g <- call "surface_3d" surface_3d ;; set_data "svi_data_dict" g
   else
   is_int_mesh <- param_is "surfacetype" "interactive_mesh" ;;
   if is_int_mesh : bool then
     g <- call "surface_3d" surface_3d ;; set_data "int_mesh_data_dict" g
   else
   is_int_spline <- param_is "surfacetype" "interactive_spline" ;;
   if is_int_spline : bool then
     g <- call "surface_3d" surface_3d ;; set_data "int_spline_data_dict" g
   else
   is_int_svi <- param_is "surfacetype" "interactive_svi" ;;
   if is_int_svi : bool then
     g <- call "surface_3d" surface_3d ;; set_data "int_svi_data_dict" g
   else PyM.ret tt)%py.

(** [data] (lines 294-356) *)
Definition data (kwargs : dict setting) : VM unit :=
  (update_params kwargs ;;
   set_param "graphtype" (SStr "line") ;;
   line_data_dict <- call "line_graph" line_graph ;;
   set_param "graphtype" (SStr "scatter") ;;
   scatter_data_dict <- call "scatter_3d" scatter_3d ;;
   set_param "graphtype" (SStr "surface") ;;
   set_param "surfacetype" (SStr "trisurf") ;;
   trisurf_data_dict <- call "surface_3d" surface_3d ;;
   set_param "surfacetype" (SStr "mesh") ;;
   mesh_data_dict <- call "surface_3d" surface_3d ;;
   set_param "surfacetype" (SStr "spline") ;;
   spline_data_dict <- call "surface_3d" surface_3d ;;
   set_param "surfacetype" (SStr "svi") ;;
   svi_data_dict <- call "surface_3d" surface_3d ;;
   set_param "surfacetype" (SStr "interactive_mesh") ;;
   int_mesh_data_dict <- call "surface_3d" surface_3d ;;
   set_param "surfacetype" (SStr "interactive_spline") ;;
   int_spline_data_dict <- call "surface_3d" surface_3d ;;
   set_param "surfacetype" (SStr "interactive_svi") ;;
   int_svi_data_dict <- call "surface_3d" surface_3d ;;
   set_data "line" line_data_dict ;;
   set_data "scatter" scatter_data_dict ;;
   set_data "trisurf" trisurf_data_dict ;;
   set_data "mesh" mesh_data_dict ;;
   set_data "spline" spline_data_dict ;;
   set_data "svi" svi_data_dict ;;
   set_data "int_mesh" int_mesh_data_dict ;;
   set_data "int_spline" int_spline_data_dict ;;
   set_data "int_svi" int_svi_data_dict)%py.

(** [linegraph], [scatter] and [surface] (lines 383-512) *)
Definition linegraph (kwargs : dict setting) : VM unit :=
  (update_params kwargs ;;
   line_data_dict <- call "line_graph" line_graph ;;
   set_data "line_data_dict" line_data_dict)%py.

Definition scatter (kwargs : dict setting) : VM unit :=
  (update_params kwargs ;;
   scatter_data_dict <- call "scatter_3d" scatter_3d ;;
   set_data "scatter_data_dict" scatter_data_dict)%py.

Definition surface (kwargs : dict setting) : VM unit :=
  (update_params kwargs ;;
   surface_data_dict <- call "surface_3d" surface_3d ;;
   set_data "surface_data_dict" surface_data_dict)%py.

(** [if value is not None: self.params[key] = value] *)
Definition set_param_unless_None (key : string) (value : setting) : VM unit :=
  PyM.when (is_not_None value) (set_param key value).

(** [vol] (lines 537-545) *)
Definition vol (maturity : string) (strike : Z)
  (smoothing smooth_type_svi : setting) : VM Q :=
  (set_param_unless_None "smoothing" smoothing ;;
   set_param_unless_None "smooth_type_svi" smooth_type_svi ;;
   call "get_vol" (get_vol maturity strike))%py.

(** [skewreport] (lines 570-585); its defaults are [None], [None], [True]
    and [True]. *)
Definition skewreport (months direction smoothing smooth_type_svi : setting)
  : VM unit :=
  (set_param_unless_None "skew_months" months ;;
   set_param_unless_None "skew_direction" direction ;;
   set_param_unless_None "smoothing" smoothing ;;
   set_param_unless_None "smooth_type_svi" smooth_type_svi ;;
   vol_dict <- call "create_vol_dict" create_vol_dict ;;
   set_vol_dict vol_dict)%py.

(** The settings after [kwargs] have been written over them. *)
Definition updated (kwargs : dict setting) (p : dict setting) : dict setting :=
  fold_left (fun d kv => Dict.set d (fst kv) (snd kv)) kwargs p.

End VolatilityMethods.

Arguments mkVolatility {GraphDict VolDict Outside}.
Arguments self_params {GraphDict VolDict Outside}.
Arguments self_data_dict {GraphDict VolDict Outside}.
Arguments self_vol_dict {GraphDict VolDict Outside}.
Arguments outside {GraphDict VolDict Outside}.
Arguments calls {GraphDict VolDict Outside}.
Arguments get_param {GraphDict VolDict Outside}.
Arguments set_param {GraphDict VolDict Outside}.
Arguments set_data {GraphDict VolDict Outside}.
Arguments set_vol_dict {GraphDict VolDict Outside}.
Arguments call {GraphDict VolDict Outside A}.
Arguments update_params {GraphDict VolDict Outside}.
Arguments param_is {GraphDict VolDict Outside}.
Arguments set_param_unless_None {GraphDict VolDict Outside}.
Arguments visualize {GraphDict VolDict Outside}.
Arguments data {GraphDict VolDict Outside}.
Arguments linegraph {GraphDict VolDict Outside}.
Arguments scatter {GraphDict VolDict Outside}.
Arguments surface {GraphDict VolDict Outside}.
Arguments vol {GraphDict VolDict Outside}.
Arguments skewreport {GraphDict VolDict Outside}.

(** The surface types that [visualize] tests in the outer chain, each with
    the key of [self.data_dict] it stores under (lines 210-227), and the
    keys that [visualize] may store under. *)
Definition outer_surface_types : list (string * string) :=
  [ ("mesh", "mesh_data_dict"); ("spline", "spline_data_dict");
    ("svi", "svi_data_dict"); ("interactive_mesh", "int_mesh_data_dict");
    ("interactive_spline", "int_spline_data_dict");
    ("interactive_svi", "int_svi_data_dict") ].

Definition visualize_keys : list string :=
  "line_data_dict" :: "scatter_data_dict" :: "trisurf_data_dict"
  :: map snd outer_surface_types.

(** The surface types that [data] goes through, in order. *)
Definition data_surface_types : list string :=
  "trisurf" :: map fst outer_surface_types.

(** The keys that [data] stores under, in order (lines 348-356). *)
Definition data_keys : list string :=
  [ "line"; "scatter"; "trisurf"; "mesh"; "spline"; "svi"; "int_mesh";
    "int_spline"; "int_svi" ].

(** The builders that [data] calls, in order. *)
Definition data_builders : list string :=
  "line_graph" :: "scatter_3d" :: map (fun _ => "surface_3d") data_surface_types.

(** The optional arguments of [skewreport], each with the setting it
    writes. *)
Definition skewreport_settings (months direction smoothing smooth_type_svi
  : setting) : list (string * setting) :=
  [ ("skew_months", months); ("skew_direction", direction);
    ("smoothing", smoothing); ("smooth_type_svi", smooth_type_svi) ].

(** ** Sample data for the legacy path and the precomputed path *)

Module LegacySample.

(** Parsed tables: puts, a table whose strikes are floats, and a table
    without a 'Strike' column. *)
Definition legacy_puts : DataFrame :=
  mkDataFrame ["Contract Name"; "Strike"]
    [ [("Contract Name", CStr "P100"); ("Strike", CInt 100)] ].

Definition float_strikes : DataFrame :=
  mkDataFrame ["Contract Name"; "Strike"]
    [ [("Contract Name", CStr "C100.5"); ("Strike", CFloat (201 # 2))] ].

Definition no_strike_column : DataFrame :=
  mkDataFrame ["Contract Name"]
    [ [("Contract Name", CStr "C100")] ].

(** Pages as [_read_web_data] leaves them: two tables, one table, none, a
    table of float strikes, a table without strikes, and a page with two
    tables under a text that is no date. *)
Definition pages : dict (list DataFrame) :=
  [ ("2025-03-21", [Sample.legacy_calls; legacy_puts]);
    ("2025-04-18", [Sample.legacy_calls]);
    ("2025-05-16", []);
    ("2025-06-20", [float_strikes; legacy_puts]);
    ("2025-07-18", [no_strike_column]);
    ("next week", [Sample.legacy_calls]) ].

Definition ctx_pages : Ctx :=
  mkCtx (with_date_list ["2025-03-21"; "2025-04-18"; "2025-05-16"; "2025-06-20"]
           (with_option_dict pages Sample.base_params))
        (mkTables empty_frame) [].

(** URL maps, and the page texts of a fetch pass. *)
Definition urls : dict string :=
  [("2025-03-21", Sample.march_url); ("2025-04-18", Sample.april_url)].

Definition urls_april_first : dict string :=
  [("2025-04-18", Sample.april_url); ("2025-03-21", Sample.march_url)].

Definition ctx_urls (urls : dict string) (wait : Z) : Ctx :=
  mkCtx (with_url_dict urls
           (mkParams "SPY" wait "smooth" None None [] [] [] EmptyString [] []
              [] []))
        (mkTables empty_frame) [].

(** A table reader that finds a table in one page text only. *)
Definition read_html (page : string) : result (list DataFrame) :=
  if page =? "<html>" then Ok [Sample.legacy_calls] else Raise ValueError.

Definition ctx_fetched (raw : dict string) : Ctx :=
  mkCtx (with_raw_web_data raw
           (with_url_except_dict [("2024-01-19", "stale")]
              (with_url_dict urls Sample.base_params)))
        (mkTables empty_frame) [].

(** A date-picker entry without page token. *)
Definition no_token : OptionDiv := mkOptionDiv "April 18, 2025" [].

Definition findAll_no_token (html : string) : list OptionDiv :=
  [Sample.march; no_token].

(** A supplied table with the smooth rate only, and one with no rows. *)
Definition smooth_only_row (symbol : string) (smooth : Q) : row :=
  [ ("Contract Symbol", CStr symbol); ("Last Price", CFloat (5 # 2));
    ("Bid", CFloat (2 # 1)); ("Ask", CFloat (3 # 1));
    ("Last Trade Date", CDate 739300%Z); ("Expiry", CDate 739331%Z);
    ("Strike", CFloat (450 # 1)); ("Option Type", CStr "call");
    ("Open Interest", CInt 7); ("Volume", CInt 10);
    ("Implied Volatility", CFloat (1 # 5)); ("Spot Price", CFloat (452 # 1));
    ("Smooth Discount Rate", CFloat smooth) ].

Definition smooth_only_columns : list string :=
  [ "Contract Symbol"; "Last Price"; "Bid"; "Ask"; "Last Trade Date";
    "Expiry"; "Strike"; "Option Type"; "Open Interest"; "Volume";
    "Implied Volatility"; "Spot Price"; "Smooth Discount Rate" ].

Definition smooth_only : DataFrame :=
  mkDataFrame smooth_only_columns [ smooth_only_row "A" (4 # 100) ].

Definition smooth_only_empty : DataFrame :=
  mkDataFrame smooth_only_columns [].

Definition ctx_supplied (df : DataFrame) (discount_type : string) : Ctx :=
  mkCtx (mkParams "SPY" 1 discount_type (Some df) None [] [] [] EmptyString
           [] [] [] [])
        (mkTables empty_frame) [].

End LegacySample.

(** ** Sample data for the methods of [Volatility] *)

Module VolatilitySample.

(** Builders that return a label and leave the settings alone, and a
    surface builder that fails on the 'svi' surface. *)
Definition line_graph : collaborator unit string :=
  fun pw => (Ok "line graph", pw).

Definition scatter_3d : collaborator unit string :=
  fun pw => (Ok "scatter graph", pw).

Definition surface_3d : collaborator unit string :=
  fun pw => (Ok "surface graph", pw).

Definition surface_3d_no_svi : collaborator unit string :=
  fun pw =>
    match Dict.get (fst pw) "surfacetype" with
    | Some (SStr "svi") => (Raise ValueError, pw)
    | _ => (Ok "surface graph", pw)
    end.

Definition create_vol_dict : collaborator unit string :=
  fun pw => (Ok "skew report", pw).

(** An object with the default graph type and surface type, smoothing
    off. *)
Definition obj0 : Volatility string string unit :=
  mkVolatility
    [ ("graphtype", SStr "line"); ("surfacetype", SStr "mesh");
      ("smoothing", SBool false) ]
    [] None tt [].

End VolatilitySample.

(* ================================================================== *)
(** * Part II: properties                                              *)
(* ================================================================== *)

(** ** Dictionaries *)

Lemma getitem_Some {V} (d : dict V) k v :
  Dict.get d k = Some v -> Dict.getitem d k = Ok v.
Proof. unfold Dict.getitem. intros ->. reflexivity. Qed.

Lemma getitem_None {V} (d : dict V) k :
  Dict.get d k = None -> Dict.getitem d k = Raise KeyError.
Proof. unfold Dict.getitem. intros ->. reflexivity. Qed.

Lemma get_set_same {V} (d : dict V) k v : Dict.get (Dict.set d k v) k = Some v.
Proof.
  induction d as [|[k' v'] d IH]; simpl.
  - rewrite String.eqb_refl. reflexivity.
  - destruct (String.eqb k k') eqn:E; simpl; rewrite E; auto.
Qed.

Lemma get_set_other {V} (d : dict V) k k' v :
  k' <> k -> Dict.get (Dict.set d k v) k' = Dict.get d k'.
Proof.
  intros Hne. induction d as [|[k0 v0] d IH]; simpl.
  - destruct (String.eqb_spec k' k); [contradiction | reflexivity].
  - destruct (String.eqb_spec k k0) as [->|Hk]; simpl.
    + destruct (String.eqb_spec k' k0); [contradiction | reflexivity].
    + destruct (String.eqb_spec k' k0); [reflexivity | exact IH].
Qed.

(** ** Spot price resolver *)

Lemma py_div_nonzero a b : ~ b == 0 -> py_div a b = Ok (a / b).
Proof.
  intros H. unfold py_div. destruct (Qeq_bool b 0) eqn:E; [|reflexivity].
  apply Qeq_bool_eq in E. contradiction.
Qed.

Lemma py_gt_true x y : py_gt x y = true <-> y < x.
Proof.
  unfold py_gt. rewrite negb_true_iff. split; intros H.
  - apply Qnot_le_lt. intros L. apply Qle_bool_iff in L. congruence.
  - destruct (Qle_bool x y) eqn:E; [|reflexivity].
    apply Qle_bool_iff in E. exfalso. apply (Qlt_not_le _ _ H E).
Qed.

Lemma py_gt_false x y : py_gt x y = false <-> ~ y < x.
Proof.
  rewrite <- py_gt_true. destruct (py_gt x y); split; intros; congruence.
Qed.

(** The resolver reads the snapshot only through its key/value content. *)
Lemma resolve_spot_ext (info info' : dict Q) :
  (forall k, Dict.get info k = Dict.get info' k) ->
  resolve_spot info = resolve_spot info'.
Proof.
  intros H. unfold resolve_spot, Dict.getitem. rewrite !H. reflexivity.
Qed.




(** ** Frames *)

Lemma existsb_add_column cols c c' :
  c' <> c ->
  existsb (String.eqb c') (add_column cols c) = existsb (String.eqb c') cols.
Proof.
  intros Hne. unfold add_column.
  destruct (existsb (String.eqb c) cols); [reflexivity|].
  rewrite existsb_app. simpl.
  destruct (String.eqb_spec c' c); [contradiction|].
  rewrite !orb_false_r. reflexivity.
Qed.

Lemma cell_at_set_same (r : row) c v : cell_at (Dict.set r c v) c = v.
Proof. unfold cell_at. rewrite get_set_same. reflexivity. Qed.

Lemma cell_at_set_other (r : row) c c' v :
  c' <> c -> cell_at (Dict.set r c v) c' = cell_at r c'.
Proof.
  intros H. unfold cell_at. rewrite get_set_other by exact H. reflexivity.
Qed.

Lemma len_setitem df c v : len (setitem df c v) = len df.
Proof. unfold len, setitem. simpl. apply length_map. Qed.

Lemma rows_setitem df c v :
  rows (setitem df c v) = map (fun r => Dict.set r c v) (rows df).
Proof. reflexivity. Qed.

Lemma rows_concat2 a b : rows (concat2 a b) = rows a ++ rows b.
Proof. reflexivity. Qed.

Lemma len_concat2 a b : len (concat2 a b) = (len a + len b)%nat.
Proof. unfold len. rewrite rows_concat2. apply length_app. Qed.

Lemma first_of_setitem_other df c c' v :
  c' <> c -> first_of (setitem df c v) c' = first_of df c'.
Proof.
  intros Hne. unfold first_of, getitem, has_column, setitem. simpl.
  rewrite existsb_add_column by exact Hne.
  destruct (existsb (String.eqb c') (columns df)); [|reflexivity].
  simpl. rewrite map_map.
  destruct (rows df) as [|r rs]; simpl; [reflexivity|].
  rewrite cell_at_set_other by exact Hne. reflexivity.
Qed.

(** A failed [df[c][0]] is a [KeyError]. *)
Lemma first_of_raises df c e : first_of df c = Raise e -> e = KeyError.
Proof.
  unfold first_of, getitem. destruct (has_column df c); simpl.
  - destruct (map _ (rows df)); simpl; congruence.
  - congruence.
Qed.

(** A successful [df[c][0]] is the cell of the first row. *)
Lemma first_of_ok df c v :
  first_of df c = Ok v ->
  exists r rs, rows df = r :: rs /\ v = cell_at r c.
Proof.
  unfold first_of, getitem. destruct (has_column df c); simpl; [|discriminate].
  destruct (rows df) as [|r rs]; simpl; [discriminate|].
  intros [= <-]. eauto.
Qed.

Lemma first_of_no_column df c :
  has_column df c = false -> first_of df c = Raise KeyError.
Proof. unfold first_of, getitem. intros ->. reflexivity. Qed.

(** The rows of a stamped side, one per row of the side. *)
Lemma rows_stamped df option_type d :
  rows (stamped df option_type d)
  = map (fun r => Dict.set (Dict.set r "Option Type" (CStr option_type))
                    "Expiry" (CDate d)) (rows df).
Proof. unfold stamped. rewrite !rows_setitem, map_map. reflexivity. Qed.

Lemma len_stamped df option_type d : len (stamped df option_type d) = len df.
Proof. unfold stamped. rewrite !len_setitem. reflexivity. Qed.

(** ** Rows *)

Lemma first_uniform_all test c df v :
  first_of df c = Ok v -> test v = true -> uniform_column test c df ->
  forall r, In r (rows df) -> test (cell_at r c) = true.
Proof.
  intros Hf Ht Hu r Hr.
  destruct (first_of_ok _ _ _ Hf) as (r1 & rs & Hrows & ->).
  rewrite (Hu r r1 Hr); [exact Ht|]. rewrite Hrows. left. reflexivity.
Qed.

Lemma In_rows_stamped df option_type d r :
  In r (rows (stamped df option_type d)) ->
  exists r0, In r0 (rows df) /\
    r = Dict.set (Dict.set r0 "Option Type" (CStr option_type))
          "Expiry" (CDate d).
Proof.
  rewrite rows_stamped. intros H. apply in_map_iff in H.
  destruct H as (r0 & <- & Hr0). eauto.
Qed.

Lemma In_rows_both cdf pdf d r :
  In r (rows (setitem (concat2 (setitem cdf "Option Type" (CStr "call"))
                               (setitem pdf "Option Type" (CStr "put")))
                      "Expiry" (CDate d))) ->
  In r (rows (stamped cdf "call" d)) \/ In r (rows (stamped pdf "put" d)).
Proof.
  rewrite !rows_stamped, rows_setitem, rows_concat2, !rows_setitem, map_app,
    !map_map.
  intros H. apply in_app_or in H. exact H.
Qed.

(** What stamping does to the cells of a row. *)
Lemma stamped_row_cells r0 option_type d :
  let r := Dict.set (Dict.set r0 "Option Type" (CStr option_type))
             "Expiry" (CDate d) in
  cell_at r "Option Type" = CStr option_type /\
  cell_at r "Expiry" = CDate d /\
  (forall c, c <> "Option Type" -> c <> "Expiry" ->
             Dict.get r c = Dict.get r0 c).
Proof.
  cbv zeta. repeat split.
  - rewrite cell_at_set_other by discriminate. apply cell_at_set_same.
  - apply cell_at_set_same.
  - intros c H1 H2. rewrite !get_set_other by assumption. reflexivity.
Qed.

Lemma get_rename_row_same f (r : row) k :
  (forall k', f k' = k <-> k' = k) ->
  Dict.get (rename_row f r) k = Dict.get r k.
Proof.
  intros Hf. induction r as [|[k0 v0] r IH]; simpl; [reflexivity|].
  destruct (String.eqb_spec k k0) as [->|Hne].
  - rewrite (proj2 (Hf k0) eq_refl), String.eqb_refl. reflexivity.
  - destruct (String.eqb_spec k (f k0)) as [E|_]; [|exact IH].
    exfalso. apply Hne. symmetry. apply Hf. symmetry. exact E.
Qed.

Lemma get_rename_row_merge f (r : row) k k0 :
  (forall k', f k' = k <-> (k' = k0 \/ k' = k)) ->
  Dict.get r k = None ->
  Dict.get (rename_row f r) k = Dict.get r k0.
Proof.
  intros Hf. induction r as [|[k1 v1] r IH]; simpl; [reflexivity|].
  destruct (String.eqb_spec k k1) as [->|Hne]; [discriminate|].
  intros Hnone.
  destruct (String.eqb_spec k0 k1) as [->|Hne0].
  - rewrite (proj2 (Hf k1) (or_introl eq_refl)), String.eqb_refl. reflexivity.
  - destruct (String.eqb_spec k (f k1)) as [E|_]; [|exact (IH Hnone)].
    exfalso. symmetry in E. apply Hf in E. destruct E; congruence.
Qed.

Lemma canonical_name_fixes k :
  k = "Option Type" \/ k = "Expiry" ->
  forall k', canonical_name k' = k <-> k' = k.
Proof.
  intros Hk k'. unfold canonical_name.
  repeat match goal with
         | |- context [String.eqb ?a ?b] => destruct (String.eqb_spec a b)
         end;
    destruct Hk; subst; split; intros H; try discriminate; congruence.
Qed.

Lemma canonical_name_strike k' :
  canonical_name k' = "Strike" <-> (k' = "strike" \/ k' = "Strike").
Proof.
  unfold canonical_name.
  repeat match goal with
         | |- context [String.eqb ?a ?b] => destruct (String.eqb_spec a b)
         end;
    subst; split; intros H; try discriminate; auto;
    destruct H; try discriminate; try congruence.
Qed.

Lemma provider_row_canonical r :
  provider_row r ->
  canonical_row isinstance_number (rename_row canonical_name r).
Proof.
  intros (Htype & Hstrike & (d & Hd & Hv) & Hnone).
  unfold canonical_row, cell_at in *.
  split; [|split; [|exists d]].
  - rewrite get_rename_row_same by (apply canonical_name_fixes; auto).
    exact Htype.
  - rewrite (get_rename_row_merge canonical_name r "Strike" "strike")
      by (exact canonical_name_strike || exact Hnone).
    exact Hstrike.
  - rewrite get_rename_row_same by (apply canonical_name_fixes; auto).
    split; assumption.
Qed.

(** ** Running the stages *)

#[local] Arguments index_key_value !e /.
#[local] Arguments isinstance_number !c /.
#[local] Arguments str_isdigit !c /.
#[local] Arguments exn_eqb !a !b /.

Lemma list_setitem_nil {A} i (v : A) : list_setitem [] i v = Raise IndexError.
Proof. unfold list_setitem. simpl. destruct i; reflexivity. Qed.

Lemma list_setitem_one {A} (x v : A) : list_setitem [x] 1 v = Raise IndexError.
Proof. reflexivity. Qed.

Lemma list_setitem_two {A} (x y v : A) : list_setitem [x; y] 1 v = Ok [x; v].
Proof. reflexivity. Qed.

Lemma list_getitem_nil {A} i : @list_getitem A [] i = Raise IndexError.
Proof. unfold list_getitem. destruct i; reflexivity. Qed.

Lemma list_getitem_In {A} (l : list A) i a : list_getitem l i = Ok a -> In a l.
Proof.
  unfold list_getitem. destruct (nth_error l i) eqn:E; [|discriminate].
  intros [= <-]. eapply nth_error_In. exact E.
Qed.

Lemma legacy_valid_intro df c :
  first_of df "Strike" = Ok c -> str_isdigit c = true -> legacy_valid df = true.
Proof. intros H1 H2. unfold legacy_valid. rewrite H1. exact H2. Qed.

Lemma api_side_valid_intro df c :
  (0 <? len df)%nat = true -> first_of df "strike" = Ok c ->
  isinstance_number c = true -> api_side_valid (Ok df) = true.
Proof. intros H1 H2 H3. unfold api_side_valid. rewrite H1, H2. exact H3. Qed.

Ltac run_unfold :=
  unfold PyM.bind, PyM.ret, PyM.lift, PyM.raise, PyM.try_except, PyM.when,
    PyM.get_params, PyM.get_tables, PyM.modify_params, PyM.set_full_data,
    PyM.emit, PyM.in_ctx, PyM.get_local, PyM.set_local, PyM.run_local.

Ltac py_simpl_core :=
  cbn -[len setitem first_of concat2 stamped Dict.get Dict.set Nat.ltb
        has_column list_setitem list_getitem
        api_side_valid api_side_raises api_side_turned_down legacy_valid].

Ltac py_simpl :=
  py_simpl_core;
  rewrite ?len_setitem, ?first_of_setitem_other, ?get_set_same,
    ?list_setitem_nil, ?list_setitem_one, ?list_setitem_two,
    ?list_getitem_nil by discriminate;
  py_simpl_core.

Ltac py_unfold :=
  unfold get_option_data_body, _process_options_body, option_dict_frame,
    option_dict_append, option_dict_assign,
    append_full_data, opt_except_list_append, Dict.getitem;
  run_unfold.

(** Use a fact already known about the next scrutinee. *)
Ltac py_known :=
  match goal with
  | H : ?x = Ok _ |- context [match ?x with _ => _ end] => rewrite H
  | H : ?x = Raise _ |- context [match ?x with _ => _ end] => rewrite H
  | H : ?x = Some _ |- context [match ?x with _ => _ end] => rewrite H
  | H : ?x = None |- context [match ?x with _ => _ end] => rewrite H
  | H : ?x = true |- context [if ?x then _ else _] => rewrite H
  | H : ?x = false |- context [if ?x then _ else _] => rewrite H
  end.

(** Split on an innermost scrutinee. *)
Ltac py_case :=
  match goal with
  | |- context [match ?x with _ => _ end] =>
      lazymatch x with
      | context [match _ with _ => _ end] => fail
      | _ => destruct x eqn:?
      end
  | |- context [if ?x then _ else _] =>
      lazymatch x with
      | context [match _ with _ => _ end] => fail
      | _ => destruct x eqn:?
      end
  end.

Ltac side_facts :=
  repeat match goal with
  | H : api_side_valid _ = true |- _ => unfold api_side_valid in H
  | H : api_side_raises _ = true |- _ => unfold api_side_raises in H
  | H : api_side_turned_down _ = true |- _ =>
      unfold api_side_turned_down in H
  | H : match ?x with _ => _ end = true |- _ =>
      destruct x eqn:?; try discriminate H
  | H : first_of _ _ = Raise ?e |- _ =>
      is_var e; apply first_of_raises in H; subst e
  | H : has_column ?df ?c = false |- _ =>
      lazymatch goal with
      | H' : first_of df c = Raise KeyError |- _ => fail
      | _ => pose proof (first_of_no_column _ _ H)
      end
  | H : _ && _ = true |- _ => apply andb_true_iff in H; destruct H
  | H : _ || _ = true |- _ => apply orb_true_iff in H; destruct H
  | H : negb _ = true |- _ => apply negb_true_iff in H
  end.

(** Run a stage symbolically: use what is known, split on what is not. *)
Ltac py_run :=
  py_unfold; py_simpl; repeat (first [py_known | py_case]; py_simpl).

Lemma resolve_spot_KeyError (info : dict Q) :
  resolve_spot info = Raise KeyError <->
  Dict.get info "currentPrice" = None /\
  Dict.get info "navPrice" = None /\
  Dict.get info "previousClose" = None.
Proof.
  unfold resolve_spot, Dict.getitem. split.
  - destruct (Dict.get info "currentPrice"); simpl; [discriminate|].
    destruct (Dict.get info "bid"); simpl;
      destruct (Dict.get info "ask"); simpl;
      destruct (Dict.get info "previousClose") as [p|]; simpl;
      destruct (Dict.get info "navPrice"); simpl;
      try discriminate; auto;
      unfold py_div; destruct (Qeq_bool p 0); simpl; try discriminate;
      match goal with |- context [py_gt ?x ?y] => destruct (py_gt x y) end;
      discriminate.
  - intros (-> & -> & ->). simpl.
    destruct (Dict.get info "bid"); simpl; [|reflexivity].
    destruct (Dict.get info "ask"); reflexivity.
Qed.

(** ** Loops *)

Lemma for_each_invariant {S A} (P : S -> Prop) (body : A -> MS S unit) xs :
  (forall x s, In x xs -> P s -> P (snd (body x s))) ->
  forall s, P s -> P (snd (PyM.for_each xs body s)).
Proof.
  induction xs as [|x xs IH]; intros Hb s Hs; simpl; [exact Hs|].
  unfold PyM.bind. 
  pose proof (Hb x s (or_introl eq_refl) Hs) as H1.
  destruct (body x s) as [[[]|e] s1]; simpl in *.
  - apply IH; [|exact H1]. intros y t Hy. apply Hb. right. exact Hy.
  - exact H1.
Qed.

Lemma for_each_ok {S A} (body : A -> MS S unit) xs :
  (forall x s, In x xs -> fst (body x s) = Ok tt) ->
  forall s, fst (PyM.for_each xs body s) = Ok tt.
Proof.
  induction xs as [|x xs IH]; intros Hb s; simpl; [reflexivity|].
  unfold PyM.bind.
  pose proof (Hb x s (or_introl eq_refl)) as H1.
  destruct (body x s) as [[[]|e] s1]; simpl in *; [|discriminate].
  apply IH. intros y t Hy. apply Hb. right. exact Hy.
Qed.

Section Count.
Context {S : Type} (L : S -> list string) (I : S -> Prop)
  (body : string -> MS S unit).
Hypothesis body_inv : forall x s, I s -> I (snd (body x s)).
Hypothesis body_effect :
  forall x s, L (snd (body x s)) = L s \/ L (snd (body x s)) = L s ++ [x].

Lemma for_each_not_recorded e xs :
  ~ In e xs ->
  forall s, count_occ string_dec (L (snd (PyM.for_each xs body s))) e
            = count_occ string_dec (L s) e.
Proof.
  induction xs as [|x xs IH]; intros Hn s; simpl; [reflexivity|].
  unfold PyM.bind.
  assert (Hx : count_occ string_dec (L (snd (body x s))) e
               = count_occ string_dec (L s) e).
  { destruct (body_effect x s) as [-> | ->]; [reflexivity|].
    rewrite count_occ_app. simpl.
    destruct (string_dec x e) as [->|]; [|lia].
    exfalso. apply Hn. left. reflexivity. }
  destruct (body x s) as [[[]|e'] s1]; simpl in *.
  - rewrite IH; [exact Hx|]. intros Hin. apply Hn. right. exact Hin.
  - exact Hx.
Qed.

Lemma for_each_recorded_once e xs :
  NoDup xs -> In e xs ->
  (forall s, I s -> L (snd (body e s)) = L s ++ [e]) ->
  forall s, I s -> fst (PyM.for_each xs body s) = Ok tt ->
  count_occ string_dec (L (snd (PyM.for_each xs body s))) e
  = Datatypes.S (count_occ string_dec (L s) e).
Proof.
  intros Hnd Hin He. induction xs as [|x xs IH]; [destruct Hin|].
  intros s Hs Hok. simpl in *. unfold PyM.bind in *.
  inversion Hnd as [|? ? Hnx Hnd']; subst.
  pose proof (body_inv x s Hs) as Hs1.
  destruct Hin as [->|Hin].
  - pose proof (He s Hs) as Hrec.
    destruct (body e s) as [[[]|e'] s1]; simpl in *; [|discriminate].
    rewrite for_each_not_recorded by exact Hnx.
    rewrite Hrec, count_occ_app. simpl.
    destruct (string_dec e e); [lia|contradiction].
  - assert (Hx : count_occ string_dec (L (snd (body x s))) e
                 = count_occ string_dec (L s) e).
    { destruct (body_effect x s) as [-> | ->]; [reflexivity|].
      rewrite count_occ_app. simpl.
      destruct (string_dec x e) as [->|]; [contradiction|lia]. }
    destruct (body x s) as [[[]|e'] s1]; simpl in *; [|discriminate].
    rewrite IH by assumption. rewrite Hx. reflexivity.
Qed.
End Count.

Section FetcherProofs.

Variable yf_Ticker : string -> Ticker.
Variable to_datetime : string -> result date.

Local Notation "'api_body'" := (get_option_data_body to_datetime).
Local Notation "'legacy_body'" := (_process_options_body to_datetime).

(** *** The loop body of the API chain fetcher *)


(** An expiry whose call side raises and whose put side is valid: the
    assignment [params['option_dict'][expiry][1] = puts] is made on a list
    with no element, raises [IndexError], and the handler records the
    expiry as failed; the puts never reach the table. *)
Lemma puts_only_is_recorded_as_failure asset expiry ch s :
  option_chain asset expiry = Ok ch ->
  api_side_raises (chain_calls ch) = true ->
  api_side_valid (chain_puts ch) = true ->
  fst (api_body asset expiry s) = Ok tt /\
  full_data (tables (snd (api_body asset expiry s))) = full_data (tables s) /\
  opt_except_list (params (snd (api_body asset expiry s)))
  = opt_except_list (params s) ++ [expiry].
Proof.
  intros Hch Hcalls Hputs.
  side_facts; py_run; repeat split; congruence.
Qed.

(** Both sides raise: the expiry is recorded, the table is untouched. *)
Lemma api_both_raise asset expiry ch s :
  option_chain asset expiry = Ok ch ->
  api_side_raises (chain_calls ch) = true ->
  api_side_raises (chain_puts ch) = true ->
  fst (api_body asset expiry s) = Ok tt /\
  full_data (tables (snd (api_body asset expiry s))) = full_data (tables s) /\
  opt_except_list (params (snd (api_body asset expiry s)))
  = opt_except_list (params s) ++ [expiry].
Proof.
  intros Hch Hcalls Hputs.
  side_facts; py_run; repeat split; congruence.
Qed.

(** The call side is turned down by a guard: the expiry is skipped. *)
Lemma api_calls_turned_down asset expiry ch s :
  option_chain asset expiry = Ok ch ->
  api_side_turned_down (chain_calls ch) = true ->
  fst (api_body asset expiry s) = Ok tt /\
  full_data (tables (snd (api_body asset expiry s))) = full_data (tables s) /\
  opt_except_list (params (snd (api_body asset expiry s)))
  = opt_except_list (params s).
Proof.
  intros Hch Hcalls.
  side_facts; py_run; repeat split; congruence.
Qed.

(** One pass of the loop adds its own expiry to the failed-expiry list, at
    most once, and nothing else. *)
Lemma api_body_list_effect asset expiry s :
  opt_except_list (params (snd (api_body asset expiry s)))
  = opt_except_list (params s) \/
  opt_except_list (params (snd (api_body asset expiry s)))
  = opt_except_list (params s) ++ [expiry].
Proof. py_run; auto. Qed.

(** One pass of the loop appends nothing, the stamped calls, or the stamped
    calls and puts; in the last two cases the sides it appends had passed
    the guards and the expiry had parsed. *)
Lemma api_body_table_effect asset expiry s :
  full_data (tables (snd (api_body asset expiry s))) = full_data (tables s) \/
  exists ch cdf d,
    option_chain asset expiry = Ok ch /\
    chain_calls ch = Ok cdf /\
    api_side_valid (Ok cdf) = true /\
    to_datetime expiry = Ok d /\
    (full_data (tables (snd (api_body asset expiry s)))
     = concat2 (full_data (tables s)) (stamped cdf "call" d) \/
     exists pdf,
       chain_puts ch = Ok pdf /\
       api_side_valid (Ok pdf) = true /\
       full_data (tables (snd (api_body asset expiry s)))
       = concat2 (full_data (tables s))
           (setitem (concat2 (setitem cdf "Option Type" (CStr "call"))
                             (setitem pdf "Option Type" (CStr "put")))
                    "Expiry" (CDate d))).
Proof.
  py_run;
    first
      [ left; reflexivity
      | right; do 3 eexists;
        split; [reflexivity|];
        split; [eassumption|];
        split; [eapply api_side_valid_intro; eassumption|];
        split; [reflexivity|];
        first
          [ left; reflexivity
          | right; eexists;
            split; [eassumption|];
            split; [eapply api_side_valid_intro; eassumption|];
            reflexivity ] ].
Qed.

(** One pass of the loop ends normally when the chain is delivered and
    everything that raises raises a handled exception. *)
Lemma api_body_total asset expiry s :
  (exists ch, option_chain asset expiry = Ok ch /\
     (forall e, chain_calls ch = Raise e -> index_key_value e = true) /\
     (forall e, chain_puts ch = Raise e -> index_key_value e = true)) ->
  (forall e, to_datetime expiry = Raise e -> index_key_value e = true) ->
  fst (api_body asset expiry s) = Ok tt.
Proof.
  intros (ch & Hch & Hc & Hp) Hd.
  py_run; try reflexivity;
    repeat match goal with
    | H : forall e0, Raise ?e = Raise e0 -> _ |- _ => specialize (H e eq_refl)
    end;
    side_facts; try congruence; discriminate.
Qed.

(** *** The loop body of the legacy table parser *)

Lemma legacy_body_list_effect input_date s :
  opt_except_list (params (snd (legacy_body input_date s)))
  = opt_except_list (params s) \/
  opt_except_list (params (snd (legacy_body input_date s)))
  = opt_except_list (params s) ++ [input_date].
Proof. py_run; auto. Qed.

Lemma legacy_body_option_dict input_date s :
  option_dict (params (snd (legacy_body input_date s)))
  = option_dict (params s).
Proof. py_run; auto. Qed.

Lemma legacy_both_missing input_date s :
  Dict.get (option_dict (params s)) input_date = Some [] ->
  fst (legacy_body input_date s) = Ok tt /\
  full_data (tables (snd (legacy_body input_date s)))
  = full_data (tables s) /\
  opt_except_list (params (snd (legacy_body input_date s)))
  = opt_except_list (params s) ++ [input_date].
Proof.
  intros H. py_run; auto.
Qed.

Lemma legacy_body_table_effect input_date s :
  full_data (tables (snd (legacy_body input_date s))) = full_data (tables s) \/
  exists frames d,
    Dict.get (option_dict (params s)) input_date = Some frames /\
    to_datetime input_date = Ok d /\
    ((exists df option_type,
        full_data (tables (snd (legacy_body input_date s)))
        = concat2 (full_data (tables s)) (stamped df option_type d) /\
        (option_type = "call" \/ option_type = "put") /\
        In df frames /\ legacy_valid df = true) \/
     (exists cdf pdf,
        full_data (tables (snd (legacy_body input_date s)))
        = concat2 (full_data (tables s))
            (setitem (concat2 (setitem cdf "Option Type" (CStr "call"))
                              (setitem pdf "Option Type" (CStr "put")))
                     "Expiry" (CDate d)) /\
        In cdf frames /\ legacy_valid cdf = true /\
        In pdf frames /\ legacy_valid pdf = true)).
Proof.
  py_run;
    first
      [ left; reflexivity
      | right; do 2 eexists;
        split; [reflexivity|];
        split; [reflexivity|];
        first
          [ left; do 2 eexists;
            split; [reflexivity|];
            split; [auto|];
            split; [eapply list_getitem_In; eassumption|];
            eapply legacy_valid_intro; eassumption
          | right; do 2 eexists;
            split; [reflexivity|];
            split; [eapply list_getitem_In; eassumption|];
            split; [eapply legacy_valid_intro; eassumption|];
            split; [eapply list_getitem_In; eassumption|];
            eapply legacy_valid_intro; eassumption ] ].
Qed.

(** *** Whole runs *)

(** A run whose spot resolution raises stops there, with the empty table
    it had just initialised. *)
Lemma get_option_data_spot_raises (s : Ctx) (e : exn) :
  resolve_spot (info (yf_Ticker (ticker (params s)))) = Raise e ->
  fst (get_option_data yf_Ticker to_datetime s) = Raise e /\
  full_data (tables (snd (get_option_data yf_Ticker to_datetime s)))
  = empty_frame.
Proof.
  intros H. unfold get_option_data. run_unfold. simpl. rewrite H. simpl.
  split; reflexivity.
Qed.

(** The shape of a run whose spot price resolves. *)
Lemma get_option_data_run s spot :
  resolve_spot (info (yf_Ticker (ticker (params s)))) = Ok spot ->
  get_option_data yf_Ticker to_datetime s
  = let asset := yf_Ticker (ticker (params s)) in
    match PyM.for_each (options asset) (get_option_data_body to_datetime asset)
            (api_loop_entry asset spot s) with
    | (Ok _, s1) => (Ok tt, api_finish s1)
    | (Raise e, s1) => (Raise e, s1)
    end.
Proof.
  intros H. unfold get_option_data. run_unfold. simpl. rewrite H. simpl.
  unfold api_loop_entry. rewrite <- app_assoc. simpl.
  destruct (PyM.for_each _ _ _) as [[[]|e] s1]; reflexivity.
Qed.
(** The shape of a run of the legacy table parser. *)
Lemma _process_options_run s :
  _process_options to_datetime s
  = PyM.for_each (date_list (params s)) legacy_body
      (mkCtx (with_opt_except_list [] (params s)) (tables s) (effects s)).
Proof. reflexivity. Qed.

Lemma api_run_recorded_once s expiry ch :
  NoDup (options (yf_Ticker (ticker (params s)))) ->
  In expiry (options (yf_Ticker (ticker (params s)))) ->
  option_chain (yf_Ticker (ticker (params s))) expiry = Ok ch ->
  api_side_raises (chain_calls ch) = true ->
  api_side_raises (chain_puts ch) = true ->
  fst (get_option_data yf_Ticker to_datetime s) = Ok tt ->
  count_occ string_dec
    (opt_except_list (params (snd (get_option_data yf_Ticker to_datetime s))))
    expiry = 1%nat.
Proof.
  intros Hnd Hin Hch Hc Hp Hok.
  destruct (resolve_spot (info (yf_Ticker (ticker (params s))))) as [spot|e]
    eqn:Hspot.
  2:{ apply get_option_data_spot_raises in Hspot.
      destruct Hspot as [Hr _]. congruence. }
  rewrite (get_option_data_run s spot Hspot) in *.
  cbv zeta in *.
  pose proof (for_each_recorded_once
                (fun c => opt_except_list (params c)) (fun _ => True)
                (get_option_data_body to_datetime
                   (yf_Ticker (ticker (params s))))
                (fun _ _ _ => I)
                (api_body_list_effect _)
                expiry _ Hnd Hin
                (fun c _ => proj2 (proj2 (api_both_raise _ _ _ c
                                            Hch Hc Hp)))
                (api_loop_entry (yf_Ticker (ticker (params s))) spot s) I)
    as Hcount.
  destruct (PyM.for_each _ _ _) as [[[]|e] s1]; simpl in *; [|discriminate].
  apply Hcount. reflexivity.
Qed.

Lemma legacy_run_recorded_once s input_date :
  NoDup (date_list (params s)) ->
  In input_date (date_list (params s)) ->
  Dict.get (option_dict (params s)) input_date = Some [] ->
  fst (_process_options to_datetime s) = Ok tt ->
  count_occ string_dec
    (opt_except_list (params (snd (_process_options to_datetime s))))
    input_date = 1%nat.
Proof.
  intros Hnd Hin Hget Hok.
  rewrite _process_options_run in *.
  apply (for_each_recorded_once
           (fun c => opt_except_list (params c))
           (fun c => option_dict (params c) = option_dict (params s))
           (_process_options_body to_datetime)).
  - intros x c Hc. rewrite legacy_body_option_dict. exact Hc.
  - apply legacy_body_list_effect.
  - exact Hnd.
  - exact Hin.
  - intros c Hc. apply legacy_both_missing. rewrite Hc. exact Hget.
  - reflexivity.
  - exact Hok.
Qed.
(** A run whose spot price resolves completes when every chain is
    delivered and whatever raises raises a handled exception. *)
Lemma get_option_data_completes s spot :
  resolve_spot (info (yf_Ticker (ticker (params s)))) = Ok spot ->
  (forall expiry,
      In expiry (options (yf_Ticker (ticker (params s)))) ->
      exists ch,
        option_chain (yf_Ticker (ticker (params s))) expiry = Ok ch /\
        (forall e, chain_calls ch = Raise e -> index_key_value e = true) /\
        (forall e, chain_puts ch = Raise e -> index_key_value e = true)) ->
  (forall expiry e,
      to_datetime expiry = Raise e -> index_key_value e = true) ->
  fst (get_option_data yf_Ticker to_datetime s) = Ok tt.
Proof.
  intros Hspot Hchains Hdates.
  rewrite (get_option_data_run s spot Hspot). cbv zeta.
  pose proof (for_each_ok
                (get_option_data_body to_datetime
                   (yf_Ticker (ticker (params s))))
                (options (yf_Ticker (ticker (params s))))) as Hok.
  specialize (Hok (fun x c Hx => api_body_total _ x c (Hchains x Hx)
                                   (Hdates x))).
  specialize (Hok (api_loop_entry (yf_Ticker (ticker (params s))) spot s)).
  destruct (PyM.for_each _ _ _) as [[[]|e] s1]; simpl in *;
    [reflexivity | discriminate].
Qed.

End FetcherProofs.


(** ** The rows of the canonical table *)

Section FetcherInvariants.

Variable yf_Ticker : string -> Ticker.
Variable to_datetime : string -> result date.

(** A parsed date is a [datetime.date]. *)
Hypothesis dates_valid :
  forall text d, to_datetime text = Ok d -> valid_date d = true.

Lemma stamped_rows_provider df option_type d :
  option_type = "call" \/ option_type = "put" ->
  api_side_valid (Ok df) = true ->
  uniform_column isinstance_number "strike" df ->
  lacks_key "Strike" df ->
  valid_date d = true ->
  Forall provider_row (rows (stamped df option_type d)).
Proof.
  intros Hot Hvalid Hu Hl Hd. apply Forall_forall. intros r Hr.
  apply In_rows_stamped in Hr. destruct Hr as (r0 & Hr0 & ->).
  destruct (stamped_row_cells r0 option_type d) as (Ht & He & Hother).
  cbv zeta in *.
  unfold api_side_valid in Hvalid. apply andb_true_iff in Hvalid.
  destruct Hvalid as [_ Hvalid].
  destruct (first_of df "strike") as [v|] eqn:Hf; [|discriminate].
  unfold provider_row. repeat split.
  - rewrite Ht. destruct Hot as [-> | ->]; auto.
  - unfold cell_at. rewrite Hother by discriminate.
    apply (first_uniform_all isinstance_number "strike" df v Hf Hvalid Hu).
    exact Hr0.
  - exists d. split; assumption.
  - rewrite Hother by discriminate. apply Hl. exact Hr0.
Qed.

Lemma api_body_keeps_provider_rows asset expiry s :
  (forall ch df,
      option_chain asset expiry = Ok ch ->
      chain_calls ch = Ok df \/ chain_puts ch = Ok df ->
      uniform_column isinstance_number "strike" df /\ lacks_key "Strike" df) ->
  Forall provider_row (rows (full_data (tables s))) ->
  Forall provider_row
    (rows (full_data (tables (snd (get_option_data_body to_datetime asset
                                      expiry s))))).
Proof.
  intros Hsides Hinv.
  destruct (api_body_table_effect to_datetime asset expiry s)
    as [-> | (ch & cdf & d & Hch & Hc & Hcv & Hd & Hcases)]; [exact Hinv|].
  destruct (Hsides ch cdf Hch (or_introl Hc)) as [Hcu Hcl].
  pose proof (dates_valid _ _ Hd) as Hdv.
  destruct Hcases as [-> | (pdf & Hp & Hpv & ->)];
    rewrite rows_concat2; apply Forall_app; split; try exact Hinv.
  - apply stamped_rows_provider; auto.
  - destruct (Hsides ch pdf Hch (or_intror Hp)) as [Hpu Hpl].
    apply Forall_forall. intros r Hr. apply In_rows_both in Hr.
    destruct Hr as [Hr | Hr]; revert r Hr; apply Forall_forall;
      apply stamped_rows_provider; auto.
Qed.

Lemma api_run_rows_canonical s :
  (forall expiry ch df,
      In expiry (options (yf_Ticker (ticker (params s)))) ->
      option_chain (yf_Ticker (ticker (params s))) expiry = Ok ch ->
      chain_calls ch = Ok df \/ chain_puts ch = Ok df ->
      uniform_column isinstance_number "strike" df /\ lacks_key "Strike" df) ->
  fst (get_option_data yf_Ticker to_datetime s) = Ok tt ->
  Forall (canonical_row isinstance_number)
    (rows (full_data (tables (snd (get_option_data yf_Ticker to_datetime s))))).
Proof.
  intros Hsides Hok.
  destruct (resolve_spot (info (yf_Ticker (ticker (params s))))) as [spot|e]
    eqn:Hspot.
  2:{ apply (get_option_data_spot_raises yf_Ticker to_datetime) in Hspot.
      destruct Hspot as [Hr _]. congruence. }
  rewrite (get_option_data_run yf_Ticker to_datetime s spot Hspot) in *.
  cbv zeta in *.
  pose proof (for_each_invariant
                (fun c => Forall provider_row (rows (full_data (tables c))))
                (get_option_data_body to_datetime
                   (yf_Ticker (ticker (params s))))
                (options (yf_Ticker (ticker (params s))))) as Hinv.
  specialize (Hinv (fun x c Hx Hc =>
                      api_body_keeps_provider_rows _ x c
                        (fun ch df => Hsides x ch df Hx) Hc)).
  specialize (Hinv (api_loop_entry (yf_Ticker (ticker (params s))) spot s)
                   (Forall_nil _)).
  destruct (PyM.for_each _ _ _) as [[[]|e] s1]; simpl in *; [|discriminate].
  unfold rename. simpl. apply Forall_forall. intros r Hr.
  apply in_map_iff in Hr. destruct Hr as (r0 & <- & Hr0).
  apply provider_row_canonical.
  revert r0 Hr0. apply Forall_forall. exact Hinv.
Qed.

Lemma stamped_rows_canonical df option_type d :
  option_type = "call" \/ option_type = "put" ->
  legacy_valid df = true ->
  uniform_column str_isdigit "Strike" df ->
  valid_date d = true ->
  Forall (canonical_row str_isdigit) (rows (stamped df option_type d)).
Proof.
  intros Hot Hvalid Hu Hd. apply Forall_forall. intros r Hr.
  apply In_rows_stamped in Hr. destruct Hr as (r0 & Hr0 & ->).
  destruct (stamped_row_cells r0 option_type d) as (Ht & He & Hother).
  cbv zeta in *.
  unfold legacy_valid in Hvalid.
  destruct (first_of df "Strike") as [v|] eqn:Hf; [|discriminate].
  unfold canonical_row. repeat split.
  - rewrite Ht. destruct Hot as [-> | ->]; auto.
  - unfold cell_at. rewrite Hother by discriminate.
    apply (first_uniform_all str_isdigit "Strike" df v Hf Hvalid Hu).
    exact Hr0.
  - exists d. split; assumption.
Qed.

Lemma legacy_body_keeps_canonical_rows input_date s :
  (forall frames df,
      Dict.get (option_dict (params s)) input_date = Some frames ->
      In df frames -> uniform_column str_isdigit "Strike" df) ->
  Forall (canonical_row str_isdigit) (rows (full_data (tables s))) ->
  Forall (canonical_row str_isdigit)
    (rows (full_data (tables (snd (_process_options_body to_datetime
                                      input_date s))))).
Proof.
  intros Hframes Hinv.
  destruct (legacy_body_table_effect to_datetime input_date s)
    as [-> | (frames & d & Hget & Hd & Hcases)]; [exact Hinv|].
  pose proof (dates_valid _ _ Hd) as Hdv.
  destruct Hcases as [(df & ot & -> & Hot & Hin & Hv)
                     | (cdf & pdf & -> & Hcin & Hcv & Hpin & Hpv)];
    rewrite rows_concat2; apply Forall_app; split; try exact Hinv.
  - apply stamped_rows_canonical; eauto.
  - apply Forall_forall. intros r Hr. apply In_rows_both in Hr.
    destruct Hr as [Hr | Hr]; revert r Hr; apply Forall_forall;
      apply stamped_rows_canonical; eauto.
Qed.

Lemma legacy_run_rows_canonical s :
  (forall input_date frames df,
      Dict.get (option_dict (params s)) input_date = Some frames ->
      In df frames -> uniform_column str_isdigit "Strike" df) ->
  Forall (canonical_row str_isdigit) (rows (full_data (tables s))) ->
  Forall (canonical_row str_isdigit)
    (rows (full_data (tables (snd (_process_options to_datetime s))))).
Proof.
  intros Hframes Hinv. rewrite _process_options_run.
  apply (for_each_invariant
           (fun c => option_dict (params c) = option_dict (params s) /\
                     Forall (canonical_row str_isdigit)
                       (rows (full_data (tables c))))
           (_process_options_body to_datetime)
           (date_list (params s))).
  - intros x c _ [Hod Hc]. split.
    + rewrite legacy_body_option_dict. exact Hod.
    + apply legacy_body_keeps_canonical_rows; [|exact Hc].
      intros frames df Hget. apply (Hframes x). rewrite <- Hod. exact Hget.
  - split; [reflexivity | exact Hinv].
Qed.

End FetcherInvariants.

(** ** Claims on the fetchers *)



(** C3 (code defect).  A run over one expiry whose call side raises
    [KeyError] (its rows have no strike field) and whose put side holds
    three rows with numeric strikes: the puts pass both guards, yet the run
    ends with no row in the table and with the expiry in the failed-expiry
    list, because the assignment to index 1 of the empty list
    [option_dict[expiry]] raises [IndexError]. *)
Theorem puts_only_expiry_is_lost :
  api_side_raises (Ok Sample.no_strike_field) = true /\
  api_side_valid (Ok Sample.three_puts) = true /\
  fst (Sample.api_run (Ok Sample.no_strike_field) (Ok Sample.three_puts))
  = Ok tt /\
  rows (full_data (tables (snd (Sample.api_run (Ok Sample.no_strike_field)
                                               (Ok Sample.three_puts))))) = [] /\
  opt_except_list (params (snd (Sample.api_run (Ok Sample.no_strike_field)
                                               (Ok Sample.three_puts))))
  = ["2025-03-21"] /\
  Dict.get (option_dict (params (snd (Sample.api_run
                                        (Ok Sample.no_strike_field)
                                        (Ok Sample.three_puts)))))
    "2025-03-21" = Some [].
Proof. vm_compute. repeat split. Qed.

(** C4 (amended).  For an expiry whose call side and put side both raise a
    handled exception (API fetcher: [IndexError], [KeyError] or
    [ValueError], on access or on the strike lookup of a non-empty side
    without strike field; legacy fetcher: [IndexError], the page held no
    table), the pass over the expiry adds it to the failed-expiry list and
    leaves the table as it was; in a completed run over pairwise distinct
    expiries it appears exactly once in the list. *)
Theorem both_sides_fail_recorded_once :
  (forall to_datetime asset expiry ch s,
      option_chain asset expiry = Ok ch ->
      api_side_raises (chain_calls ch) = true ->
      api_side_raises (chain_puts ch) = true ->
      fst (get_option_data_body to_datetime asset expiry s) = Ok tt /\
      full_data (tables (snd (get_option_data_body to_datetime asset expiry s)))
      = full_data (tables s) /\
      opt_except_list
        (params (snd (get_option_data_body to_datetime asset expiry s)))
      = opt_except_list (params s) ++ [expiry]) /\
  (forall yf_Ticker to_datetime s expiry ch,
      NoDup (options (yf_Ticker (ticker (params s)))) ->
      In expiry (options (yf_Ticker (ticker (params s)))) ->
      option_chain (yf_Ticker (ticker (params s))) expiry = Ok ch ->
      api_side_raises (chain_calls ch) = true ->
      api_side_raises (chain_puts ch) = true ->
      fst (get_option_data yf_Ticker to_datetime s) = Ok tt ->
      count_occ string_dec
        (opt_except_list
           (params (snd (get_option_data yf_Ticker to_datetime s))))
        expiry = 1%nat) /\
  (forall to_datetime input_date s,
      Dict.get (option_dict (params s)) input_date = Some [] ->
      fst (_process_options_body to_datetime input_date s) = Ok tt /\
      full_data (tables (snd (_process_options_body to_datetime input_date s)))
      = full_data (tables s) /\
      opt_except_list
        (params (snd (_process_options_body to_datetime input_date s)))
      = opt_except_list (params s) ++ [input_date]) /\
  (forall to_datetime s input_date,
      NoDup (date_list (params s)) ->
      In input_date (date_list (params s)) ->
      Dict.get (option_dict (params s)) input_date = Some [] ->
      fst (_process_options to_datetime s) = Ok tt ->
      count_occ string_dec
        (opt_except_list (params (snd (_process_options to_datetime s))))
        input_date = 1%nat).
Proof.
  split; [|split; [|split]].
  - intros. apply api_both_raise with (ch := ch); assumption.
  - intros. apply api_run_recorded_once with (ch := ch); assumption.
  - intros. apply legacy_both_missing. assumption.
  - intros. apply legacy_run_recorded_once; assumption.
Qed.

(** A run over one expiry whose two sides raise [KeyError]. *)
Lemma both_sides_fail_recorded_once_witness :
  count_occ string_dec
    (opt_except_list
       (params (snd (Sample.api_run (Raise KeyError) (Raise KeyError)))))
    "2025-03-21" = 1%nat.
Proof.
  refine (proj1 (proj2 both_sides_fail_recorded_once)
            (Sample.one_expiry Sample.quote_mid (Raise KeyError)
               (Raise KeyError))
            Sample.to_datetime Sample.ctx0 "2025-03-21"
            (mkChain (Raise KeyError) (Raise KeyError))
            _ _ eq_refl eq_refl eq_refl eq_refl).
  - constructor; [intros [] | constructor].
  - left. reflexivity.
Defined.

(** C4 (as stated) fails when the two sides fail by being empty row sets:
    no exception is raised, and the expiry is absent from the failed-expiry
    list of the completed run. *)
Lemma empty_sides_are_not_recorded :
  api_side_valid (Ok Sample.no_rows) = false /\
  fst (Sample.api_run (Ok Sample.no_rows) (Ok Sample.no_rows)) = Ok tt /\
  count_occ string_dec
    (opt_except_list
       (params (snd (Sample.api_run (Ok Sample.no_rows) (Ok Sample.no_rows)))))
    "2025-03-21" <> 1%nat.
Proof. vm_compute. repeat split; discriminate. Qed.

(** C6 (amended).  Spot resolution raises [KeyError] exactly for the
    snapshots in which currentPrice, navPrice and previousClose are all
    absent, whatever bid and ask; on such a snapshot the run raises that
    [KeyError] to its caller and leaves nothing but the empty table it had
    initialised.  A run whose spot price resolves completes whenever every
    chain is delivered and the sides and the date parser raise handled
    exceptions only. *)
Theorem spot_failure_is_fatal :
  (forall info,
      resolve_spot info = Raise KeyError <->
      Dict.get info "currentPrice" = None /\
      Dict.get info "navPrice" = None /\
      Dict.get info "previousClose" = None) /\
  (forall yf_Ticker to_datetime s,
      Dict.get (info (yf_Ticker (ticker (params s)))) "currentPrice" = None ->
      Dict.get (info (yf_Ticker (ticker (params s)))) "navPrice" = None ->
      Dict.get (info (yf_Ticker (ticker (params s)))) "previousClose" = None ->
      fst (get_option_data yf_Ticker to_datetime s) = Raise KeyError /\
      full_data (tables (snd (get_option_data yf_Ticker to_datetime s)))
      = empty_frame) /\
  (forall yf_Ticker to_datetime s spot,
      resolve_spot (info (yf_Ticker (ticker (params s)))) = Ok spot ->
      (forall expiry,
          In expiry (options (yf_Ticker (ticker (params s)))) ->
          exists ch,
            option_chain (yf_Ticker (ticker (params s))) expiry = Ok ch /\
            (forall e, chain_calls ch = Raise e -> index_key_value e = true) /\
            (forall e, chain_puts ch = Raise e -> index_key_value e = true)) ->
      (forall expiry e,
          to_datetime expiry = Raise e -> index_key_value e = true) ->
      fst (get_option_data yf_Ticker to_datetime s) = Ok tt).
Proof.
  split; [|split].
  - apply resolve_spot_KeyError.
  - intros yf dt s Hc Hn Hp. apply get_option_data_spot_raises.
    apply resolve_spot_KeyError. auto.
  - intros yf dt s spot Hspot Hch Hd.
    apply get_option_data_completes with (spot := spot); assumption.
Qed.

(** A snapshot with bid and ask only: the run raises [KeyError]. *)
Lemma spot_failure_is_fatal_witness :
  fst (get_option_data
         (Sample.one_expiry Sample.quote_bid_ask_only
            (Ok Sample.five_calls) (Ok Sample.three_puts))
         Sample.to_datetime Sample.ctx0) = Raise KeyError.
Proof.
  exact (proj1 (proj1 (proj2 spot_failure_is_fatal)
                  (Sample.one_expiry Sample.quote_bid_ask_only
                     (Ok Sample.five_calls) (Ok Sample.three_puts))
                  Sample.to_datetime Sample.ctx0 eq_refl eq_refl eq_refl)).
Defined.

(** C6 (as stated) fails: absence of all four fields is not the only way
    for a run not to complete.  With a complete snapshot, a chain fetch
    that raises ends the run, [asset.option_chain(expiry)] being called
    outside the [try]; and a snapshot whose previousClose is zero, next to
    bid and ask, makes the deviation test divide by zero. *)
Lemma spot_failure_not_the_only_fatal_case :
  (exists spot, resolve_spot Sample.quote_mid = Ok spot) /\
  fst (get_option_data (Sample.chain_down Sample.quote_mid)
         Sample.to_datetime Sample.ctx0) = Raise ConnectionError /\
  Dict.get Sample.quote_zero_close "previousClose" = Some (0 # 1) /\
  fst (get_option_data
         (Sample.one_expiry Sample.quote_zero_close
            (Ok Sample.five_calls) (Ok Sample.three_puts))
         Sample.to_datetime Sample.ctx0) = Raise ZeroDivisionError /\
  ~ (forall yf_Ticker to_datetime s e,
        fst (get_option_data yf_Ticker to_datetime s) = Raise e ->
        Dict.get (info (yf_Ticker (ticker (params s)))) "previousClose"
        = None).
Proof.
  split; [eexists; reflexivity|].
  split; [reflexivity|]. split; [reflexivity|]. split; [reflexivity|].
  intros H.
  specialize (H (Sample.chain_down Sample.quote_mid)
                Sample.to_datetime Sample.ctx0 ConnectionError eq_refl).
  discriminate H.
Qed.

Lemma all_pass_uniform test c df :
  Forall (fun r => test (cell_at r c) = true) (rows df) ->
  uniform_column test c df.
Proof.
  intros H r r' Hr Hr'. rewrite Forall_forall in H.
  rewrite (H r Hr), (H r' Hr'). reflexivity.
Qed.


Lemma sample_dates_valid text d :
  Sample.to_datetime text = Ok d -> valid_date d = true.
Proof.
  unfold Sample.to_datetime.
  destruct (text =? "2025-03-21"); [intros [= <-]; reflexivity|].
  destruct (text =? "2025-04-18"); [intros [= <-]; reflexivity|].
  discriminate.
Defined.



(** ** Legacy URL discovery *)

Lemma set_fresh {V} (d : dict V) k v :
  Dict.get d k = None -> Dict.set d k v = d ++ [(k, v)].
Proof.
  induction d as [|[k0 v0] d IH]; simpl; [reflexivity|].
  destruct (String.eqb k k0); [discriminate|].
  intros H. rewrite IH by exact H. reflexivity.
Qed.

Lemma get_None_iff {V} (d : dict V) k :
  Dict.get d k = None <-> ~ In k (map fst d).
Proof.
  induction d as [|[k0 v0] d IH]; simpl; [tauto|].
  destruct (String.eqb_spec k k0) as [->|Hne].
  - split; [discriminate | intros H; exfalso; apply H; auto].
  - rewrite IH. split; [intros H [E|E]; [congruence | auto] | auto].
Qed.

Lemma fold_set_fresh {V W} (f : string * V -> W) (l : list (string * V))
  (acc : dict W) :
  NoDup (map fst acc ++ map fst l) ->
  fold_left (fun d kv => Dict.set d (fst kv) (f kv)) l acc
  = acc ++ map (fun kv => (fst kv, f kv)) l.
Proof.
  revert acc. induction l as [|[k v] l IH]; intros acc Hnd; simpl.
  - rewrite app_nil_r. reflexivity.
  - rewrite set_fresh.
    + rewrite IH.
      * rewrite <- app_assoc. reflexivity.
      * rewrite map_app. simpl. rewrite <- app_assoc. exact Hnd.
    + apply get_None_iff. intros Hin.
      simpl in Hnd. apply NoDup_remove_2 in Hnd. apply Hnd.
      apply in_or_app. left. exact Hin.
Qed.

Lemma of_pairs_distinct {V} (l : list (string * V)) :
  NoDup (map fst l) -> Dict.of_pairs l = l.
Proof.
  intros H. unfold Dict.of_pairs, Dict.empty.
  rewrite (fold_set_fresh (fun kv => snd kv) l []) by exact H.
  simpl. rewrite <- (map_id l) at 2. apply map_ext. intros [k v]. reflexivity.
Qed.

Lemma get_In_distinct {V} (d : dict V) k v :
  NoDup (map fst d) -> In (k, v) d -> Dict.get d k = Some v.
Proof.
  induction d as [|[k0 v0] d IH]; simpl; [intros _ []|].
  intros Hnd [E|Hin].
  - injection E as -> ->. rewrite String.eqb_refl. reflexivity.
  - inversion Hnd as [|? ? Hn Hnd']; subst.
    destruct (String.eqb_spec k k0) as [->|_].
    + exfalso. apply Hn. apply in_map_iff. exists (k0, v). auto.
    + apply IH; assumption.
Qed.

Section UrlDiscovery.

Variable parse : string -> result date.
Variable strftime : date -> string.

Lemma collect_dates_handled texts acc :
  (forall t e, In t texts -> parse t = Raise e -> index_key_value e = true) ->
  collect_dates parse texts acc = Ok (acc ++ parsed_dates parse texts).
Proof.
  revert acc. induction texts as [|t texts IH]; intros acc H; simpl.
  - rewrite app_nil_r. reflexivity.
  - destruct (parse t) as [d|e] eqn:E; simpl.
    + rewrite IH by (intros; eapply H; eauto; right; assumption).
      rewrite <- app_assoc. reflexivity.
    + rewrite (H t e (or_introl eq_refl) E). simpl.
      apply IH. intros; eapply H; eauto. right; assumption.
Qed.

Lemma map_result_tokens soup :
  (forall a, In a soup -> Dict.get (attrs a) "data-value" <> None) ->
  map_result (fun a => Dict.getitem (attrs a) "data-value") soup
  = Ok (page_tokens soup).
Proof.
  induction soup as [|a soup IH]; intros H; simpl; [reflexivity|].
  unfold Dict.getitem at 1.
  destruct (Dict.get (attrs a) "data-value") as [tok|] eqn:E.
  - simpl. rewrite IH by (intros; apply H; right; assumption). reflexivity.
  - exfalso. apply (H a (or_introl eq_refl)). exact E.
Qed.

Lemma build_url_dict_distinct tkr soup :
  (forall a e, In a soup -> parse (get_text a) = Raise e ->
               index_key_value e = true) ->
  (forall a, In a soup -> Dict.get (attrs a) "data-value" <> None) ->
  NoDup (map fst (zipped_pages parse strftime soup)) ->
  build_url_dict parse strftime tkr soup
  = Ok (map (fun kv => (fst kv, option_url tkr (snd kv)))
            (zipped_pages parse strftime soup)).
Proof.
  intros Hparse Hattr Hnd. unfold build_url_dict.
  rewrite collect_dates_handled.
  2:{ intros t e Ht. apply in_map_iff in Ht. destruct Ht as (a & <- & Ha).
      apply Hparse. exact Ha. }
  simpl. rewrite map_result_tokens by exact Hattr. simpl.
  fold (zipped_pages parse strftime soup).
  rewrite of_pairs_distinct by exact Hnd.
  unfold Dict.items, Dict.empty.
  rewrite (fold_set_fresh (fun kv => option_url tkr (snd kv))) by exact Hnd.
  reflexivity.
Qed.

Lemma nth_error_zip {A B} (l1 : list A) (l2 : list B) i a b :
  nth_error l1 i = Some a -> nth_error l2 i = Some b ->
  nth_error (combine l1 l2) i = Some (a, b).
Proof.
  revert l2 i. induction l1 as [|x l1 IH]; intros [|y l2] [|i]; simpl;
    try discriminate.
  - intros [= ->] [= ->]. reflexivity.
  - apply IH.
Qed.

(** When every entry parses and carries a valid token, the zip pairs the
    date of each entry with the token of the same entry. *)
Lemma zipped_pages_aligned soup :
  (forall a, In a soup ->
     exists d tok, parse (get_text a) = Ok d /\
                   Dict.get (attrs a) "data-value" = Some tok /\
                   valid_page tok = true) ->
  forall a d tok,
    In a soup -> parse (get_text a) = Ok d ->
    Dict.get (attrs a) "data-value" = Some tok ->
    In (strftime d, tok) (zipped_pages parse strftime soup).
Proof.
  unfold zipped_pages, parsed_dates, page_tokens.
  induction soup as [|a0 soup IH]; intros Hall a d tok Hin Hp Ht;
    [destruct Hin|].
  destruct (Hall a0 (or_introl eq_refl)) as (d0 & tok0 & Hp0 & Ht0 & Hv0).
  simpl. rewrite Hp0, Ht0. simpl. rewrite Hv0. simpl.
  destruct Hin as [<- | Hin].
  - left. congruence.
  - right. apply (IH (fun a' Ha' => Hall a' (or_intror Ha')) a d tok);
      assumption.
Qed.


End UrlDiscovery.



(** C5 (code defect).  Two runs of the legacy path over a root page with a
    March and an April entry.  When the transport raises on the March page,
    the error leaves [_extract_web_data] ([open] is called outside the
    [try]): the April page is never fetched, no backoff is applied and
    nothing is recorded.  When the March response cannot be read as text
    ([ValueError] inside the [try]), the 5-unit backoff is applied and the
    April page is fetched, but [_read_web_data] then raises [KeyError] on
    the missing March text, which its [except ValueError] does not handle:
    the URL-exception mapping stays empty and no page is parsed. *)
Theorem page_fault_aborts_the_legacy_run :
  fst (Sample.legacy_run Sample.urlopen_march_down) = Raise ConnectionError /\
  effects (snd (Sample.legacy_run Sample.urlopen_march_down))
  = [HttpOpen Sample.root_url; HttpOpen Sample.march_url] /\
  url_except_dict (params (snd (Sample.legacy_run Sample.urlopen_march_down)))
  = [] /\
  fst (Sample.legacy_run Sample.urlopen_march_unreadable) = Raise KeyError /\
  effects (snd (Sample.legacy_run Sample.urlopen_march_unreadable))
  = [HttpOpen Sample.root_url; HttpOpen Sample.march_url; Sleep 5;
     HttpOpen Sample.april_url; Sleep 1] /\
  url_except_dict
    (params (snd (Sample.legacy_run Sample.urlopen_march_unreadable))) = [] /\
  option_dict
    (params (snd (Sample.legacy_run Sample.urlopen_march_unreadable))) = [] /\
  fst (Sample.legacy_run Sample.urlopen_up) = Ok tt.
Proof. vm_compute. repeat split. Qed.

(** ** Precomputed-data adapter *)

Lemma has_column_add df rs c c' :
  has_column (mkDataFrame (add_column (columns df) c) rs) c'
  = has_column df c' || String.eqb c' c.
Proof.
  unfold has_column, add_column. simpl.
  destruct (existsb (String.eqb c) (columns df)) eqn:E.
  - destruct (String.eqb_spec c' c) as [->|_].
    + rewrite E. reflexivity.
    + rewrite orb_false_r. reflexivity.
  - rewrite existsb_app. simpl. rewrite orb_false_r. reflexivity.
Qed.

Section PipelineProofs.

Variable yf_Ticker : string -> Ticker.
Variable to_datetime : string -> result date.
Variable DataPrep_transform : Params * Tables -> result (Params * Tables).
Variable DataPrep_combine : Params * Tables -> result (Params * Tables).

Local Notation "'init_data'" :=
  (Volatility_init_data yf_Ticker to_datetime DataPrep_transform
     DataPrep_combine).
Local Notation "'downstream'" :=
  (PyM.bind (stage DataPrep_transform) (fun _ => stage DataPrep_combine)).

Lemma stage_effects f s : effects (snd (stage f s)) = effects s.
Proof. unfold stage. destruct (f _) as [[p t]|e]; reflexivity. Qed.

Lemma downstream_effects s : effects (snd (downstream s)) = effects s.
Proof.
  unfold PyM.bind.
  pose proof (stage_effects DataPrep_transform s) as H1.
  destruct (stage DataPrep_transform s) as [[[]|e] s1]; simpl in *.
  - rewrite stage_effects. exact H1.
  - exact H1.
Qed.

Lemma init_data_precomputed s df :
  precomputed_data (params s) = Some df ->
  forallb (has_column df) precomputed_columns = true ->
  forall r rs, rows df = r :: rs ->
  init_data s
  = downstream
      (mkCtx
         (with_extracted_spot (Some (cell_at r "Spot Price"))
            (with_precomputed_data
               (Some (mkDataFrame (add_column (columns df) "Discount Rate")
                        (map (fun r => Dict.set r "Discount Rate"
                                         (cell_at r (selected_discount_column
                                                       (params s))))
                             (rows df))))
               (params s)))
         (mkTables
            (mkDataFrame canonical_columns
               (map (fun r => projected_row r
                                (cell_at r (selected_discount_column
                                              (params s))))
                    (rows df))))
         (effects s)).
Proof.
  intros Hpre Hcols r rs Hrows.
  simpl in Hcols.
  repeat (apply andb_true_iff in Hcols; destruct Hcols as [? Hcols]).
  unfold Volatility_init_data, process_df_option_data,
    selected_discount_column, params_precomputed_data.
  unfold PyM.bind at 1. unfold PyM.get_params at 1. cbn [fst snd params].
  rewrite Hpre.
  assert (Hfrom : forall src, has_column df src = true ->
            setitem_from df "Discount Rate" src
            = Ok (mkDataFrame (add_column (columns df) "Discount Rate")
                    (map (fun r => Dict.set r "Discount Rate" (cell_at r src))
                         (rows df)))).
  { intros src Hsrc. unfold setitem_from. rewrite Hsrc. reflexivity. }
  set (src := if discount_type (params s) =? "smooth"
              then "Smooth Discount Rate" else "Direct Discount Rate").
  assert (Hsrc : has_column df src = true).
  { subst src. destruct (discount_type (params s) =? "smooth"); assumption. }
  replace (if discount_type (params s) =? "smooth"
           then setitem_from df "Discount Rate" "Smooth Discount Rate"
           else setitem_from df "Discount Rate" "Direct Discount Rate")
    with (setitem_from df "Discount Rate" src)
    by (subst src; destruct (discount_type (params s) =? "smooth");
        reflexivity).
  rewrite (Hfrom src Hsrc).
  unfold PyM.bind, PyM.lift, PyM.modify_params, PyM.get_params,
    PyM.set_full_data.
  cbn [fst snd params tables effects precomputed_data with_precomputed_data
       with_extracted_spot].
  unfold getitem. rewrite has_column_add, H1. cbn [orb Res.bind rows].
  replace (iloc0 _) with (Ok (cell_at r "Spot Price"))
    by (rewrite Hrows; cbn [map iloc0];
        rewrite cell_at_set_other by discriminate; reflexivity).
  unfold select.
  replace (forallb _ canonical_columns) with true.
  2:{ symmetry. unfold canonical_columns. cbn [forallb].
      rewrite !has_column_add.
      repeat match goal with H : has_column df _ = true |- _ =>
               rewrite H; clear H end.
      rewrite String.eqb_refl, orb_true_r. reflexivity. }
  cbn [rows]. rewrite map_map. reflexivity.
Qed.

Lemma init_data_fetches s :
  precomputed_data (params s) = None -> 
  init_data s
  = create_option_data yf_Ticker to_datetime DataPrep_transform
      DataPrep_combine s.
Proof.
  intros H. unfold Volatility_init_data.
  unfold PyM.bind at 1. unfold PyM.get_params at 1. cbn [fst snd params].
  rewrite H. reflexivity.
Qed.

Lemma projected_row_cells r rate :
  cell_at (projected_row r rate) "Discount Rate" = rate /\
  (forall c, In c canonical_columns -> c <> "Discount Rate" ->
             cell_at (projected_row r rate) c = cell_at r c).
Proof.
  split.
  - unfold projected_row, cell_at at 1. cbn. apply cell_at_set_same.
  - intros c Hin Hne. unfold canonical_columns in Hin. simpl in Hin.
    repeat (destruct Hin as [<- | Hin];
            [ first [ contradiction (Hne eq_refl)
                    | unfold projected_row, cell_at at 1; cbn;
                      apply cell_at_set_other; discriminate ] | ]).
    destruct Hin.
Qed.

(** With precomputed data the run adds no event, whatever the table. *)
Lemma init_data_precomputed_effects s df :
  precomputed_data (params s) = Some df ->
  effects (snd (init_data s)) = effects s.
Proof.
  intros Hpre.
  unfold Volatility_init_data, process_df_option_data.
  unfold PyM.bind at 1. unfold PyM.get_params at 1. cbn [fst snd params].
  rewrite Hpre.
  unfold PyM.bind at 1. unfold PyM.lift at 1.
  destruct (if discount_type (params s) =? "smooth"
            then setitem_from df "Discount Rate" "Smooth Discount Rate"
            else setitem_from df "Discount Rate" "Direct Discount Rate")
    as [df'|e]; [|reflexivity].
  unfold PyM.bind at 1. unfold PyM.modify_params at 1.
  unfold PyM.bind at 1. unfold PyM.get_params at 1.
  cbn [fst snd params tables effects].
  unfold PyM.bind at 1. unfold PyM.lift at 1.
  destruct (params_precomputed_data _) as [df0|e]; [|reflexivity].
  unfold PyM.bind at 1. unfold PyM.lift at 1.
  destruct (Res.bind _ _) as [spot|e]; [|reflexivity].
  unfold PyM.bind at 1. unfold PyM.modify_params at 1.
  cbn [fst snd params tables effects].
  unfold PyM.bind at 1. unfold PyM.lift at 1.
  destruct (select df0 canonical_columns) as [projected|e]; [|reflexivity].
  unfold PyM.bind at 1. unfold PyM.set_full_data at 1.
  cbn [fst snd params tables effects].
  rewrite downstream_effects.
  reflexivity.
Qed.
(** C8.  When precomputed data is supplied (with the columns the path
    reads, and at least one row), the state handed to the downstream stages
    has, for every row of the supplied table and in the same order, a row
    whose Discount Rate is the value of the 'Smooth Discount Rate' column
    when the discount-type flag equals 'smooth' and of the 'Direct Discount
    Rate' column otherwise, the other canonical columns being those of the
    supplied row; the resolved spot price is the Spot Price of the first
    row; no provider or transport event is added to the run, whatever the
    supplied table.  The fetch path is taken exactly when no precomputed
    data is present. *)
Theorem precomputed_adapter s :
  (forall df r rs,
      precomputed_data (params s) = Some df ->
      forallb (has_column df) precomputed_columns = true ->
      rows df = r :: rs ->
      exists adapted,
        init_data s = downstream adapted /\
        extracted_spot (params adapted) = Some (cell_at r "Spot Price") /\
        columns (full_data (tables adapted)) = canonical_columns /\
        List.length (rows (full_data (tables adapted)))
        = List.length (rows df) /\
        (forall i r_in,
            nth_error (rows df) i = Some r_in ->
            exists r_out,
              nth_error (rows (full_data (tables adapted))) i = Some r_out /\
              cell_at r_out "Discount Rate"
              = cell_at r_in (selected_discount_column (params s)) /\
              (forall c, In c canonical_columns -> c <> "Discount Rate" ->
                         cell_at r_out c = cell_at r_in c)) /\
        effects adapted = effects s) /\
  (forall df,
      precomputed_data (params s) = Some df ->
      effects (snd (init_data s)) = effects s) /\
  (discount_type (params s) = "smooth" ->
   selected_discount_column (params s) = "Smooth Discount Rate") /\
  (discount_type (params s) <> "smooth" ->
   selected_discount_column (params s) = "Direct Discount Rate") /\
  (precomputed_data (params s) = None ->
   init_data s
   = create_option_data yf_Ticker to_datetime DataPrep_transform
       DataPrep_combine s).
Proof.
  split; [|split; [|split; [|split]]].
  - intros df r rs Hpre Hcols Hrows.
    pose proof (init_data_precomputed s df Hpre Hcols r rs Hrows) as Heq.
    eexists. split; [exact Heq|].
    split; [reflexivity|]. split; [reflexivity|].
    split; [cbn; apply length_map|].
    split; [|reflexivity].
    intros i r_in Hi. eexists. split.
    + cbn. rewrite nth_error_map, Hi. reflexivity.
    + apply projected_row_cells.
  - apply init_data_precomputed_effects.
  - unfold selected_discount_column. intros ->. reflexivity.
  - unfold selected_discount_column. intros H.
    destruct (String.eqb_spec (discount_type (params s)) "smooth");
      [contradiction | reflexivity].
  - apply init_data_fetches.
Qed.

End PipelineProofs.

(** The supplied table of the samples under the 'smooth' flag: the spot is
    that of the first row and the run stays free of events. *)
Lemma precomputed_adapter_witness :
  exists adapted,
    Volatility_init_data (Sample.one_expiry Sample.quote_mid
                            (Ok Sample.five_calls) (Ok Sample.three_puts))
      Sample.to_datetime Sample.pass_on Sample.pass_on Sample.ctx_precomputed
    = (Ok tt, adapted) /\
    extracted_spot (params adapted) = Some (CFloat (452 # 1)) /\
    effects adapted = [].
Proof.
  destruct (proj1 (precomputed_adapter
                     (Sample.one_expiry Sample.quote_mid
                        (Ok Sample.five_calls) (Ok Sample.three_puts))
                     Sample.to_datetime Sample.pass_on Sample.pass_on
                     Sample.ctx_precomputed)
                  Sample.precomputed _ _ eq_refl eq_refl eq_refl)
    as (adapted & Heq & Hspot & _ & _ & _ & Heff).
  exists adapted. split; [|split; [exact Hspot | exact Heff]].
  rewrite Heq. destruct adapted as [p t ev]. reflexivity.
Defined.

(** ** Trading calendar *)

Lemma In_filter_enumerate {A} (keep : nat -> bool) (l : list A) i x :
  In x (filter_enumerate keep i l) <->
  exists j, keep (i + j)%nat = true /\ nth_error l j = Some x.
Proof.
  revert i. induction l as [|y l IH]; intros i; simpl.
  - split; [intros [] | intros (j & _ & H); destruct j; discriminate].
  - destruct (keep i) eqn:Hk; simpl; rewrite IH; split.
    + intros [<- | (j & Hj & Hn)].
      * exists 0%nat. rewrite Nat.add_0_r. auto.
      * exists (S j). rewrite Nat.add_succ_r. auto.
    + intros ([|j] & Hj & Hn); simpl in Hn.
      * left. congruence.
      * right. exists j. rewrite Nat.add_succ_r in Hj. auto.
    + intros (j & Hj & Hn). exists (S j). rewrite Nat.add_succ_r. auto.
    + intros ([|j] & Hj & Hn); simpl in Hn.
      * rewrite Nat.add_0_r in Hj. congruence.
      * exists j. rewrite Nat.add_succ_r in Hj. auto.
Qed.

Lemma filter_enumerate_keep_all {A} (keep : nat -> bool) (l : list A) i :
  (forall j, keep (i + j)%nat = true) -> filter_enumerate keep i l = l.
Proof.
  revert i. induction l as [|y l IH]; intros i H; simpl; [reflexivity|].
  pose proof (H 0%nat) as H0. rewrite Nat.add_0_r in H0. rewrite H0.
  f_equal. apply IH. intros j. specialize (H (S j)).
  rewrite Nat.add_succ_r in H. exact H.
Qed.

Lemma drop_6_7_length {A} (l : list A) :
  (8 <= List.length l)%nat ->
  (List.length
     (filter_enumerate (fun i => negb (i =? 6)%nat && negb (i =? 7)%nat) 0 l)
   + 2 = List.length l)%nat.
Proof.
  intros H.
  do 8 (destruct l as [|? l]; [simpl in H; lia|]).
  cbn -[Nat.eqb filter_enumerate].
  simpl filter_enumerate at 1.
  rewrite filter_enumerate_keep_all.
  - simpl. lia.
  - intros j. simpl. reflexivity.
Qed.

Section CalendarProofs.

Variable Holiday : Type.
Variable rule_dates : Holiday -> date -> date -> list date.
Variable USFederalHolidayCalendar_rules : list Holiday.
Variable GoodFriday : Holiday.
Variable HolidayCalendarFactory : list Holiday -> list Holiday -> list Holiday.
Variable holidays : list Holiday -> date -> date -> list date.
Variable today : date.

Hypothesis factory_merges :
  forall base other r,
    In r (HolidayCalendarFactory base other) <-> In r base \/ In r other.
Hypothesis holidays_sorted :
  forall rules a b, Sorted Z.le (holidays rules a b).
Hypothesis holidays_exact :
  forall rules a b d,
    In d (holidays rules a b) <->
    exists r, In r rules /\ In d (rule_dates r a b).
Hypothesis rule_dates_in_range :
  forall r a b d, In d (rule_dates r a b) -> (a <= d <= b)%Z.

Local Notation "'custom_rules'" :=
  (CustomTradingCalendar_rules Holiday USFederalHolidayCalendar_rules).
Local Notation "'calendar'" :=
  (trading_calendar Holiday USFederalHolidayCalendar_rules GoodFriday
     HolidayCalendarFactory holidays today).

End CalendarProofs.

Lemma insert_date_In d x l :
  In x (Sample.insert_date d l) <-> x = d \/ In x l.
Proof.
  induction l as [|y l IH]; simpl; [intuition|].
  destruct (d <=? y)%Z; simpl; [intuition|].
  rewrite IH. intuition.
Defined.

Lemma sort_dates_In x l : In x (Sample.sort_dates l) <-> In x l.
Proof.
  induction l as [|y l IH]; simpl; [tauto|].
  rewrite insert_date_In, IH. intuition.
Defined.

Lemma insert_date_sorted d l :
  Sorted Z.le l -> Sorted Z.le (Sample.insert_date d l).
Proof.
  induction l as [|y l IH]; intros Hs; simpl.
  - repeat constructor.
  - destruct (Z.leb_spec d y) as [Hle | Hgt].
    + constructor; [exact Hs|]. constructor. exact Hle.
    + inversion Hs as [|? ? Hs' Hhd]; subst.
      constructor; [apply IH; exact Hs'|].
      destruct l as [|z l]; simpl.
      * constructor. lia.
      * destruct (d <=? z)%Z; constructor; [lia|].
        inversion Hhd; subst. assumption.
Defined.

Lemma sort_dates_sorted l : Sorted Z.le (Sample.sort_dates l).
Proof.
  induction l as [|y l IH]; simpl; [constructor|].
  apply insert_date_sorted. exact IH.
Defined.


(* ================================================================== *)
(** * Part III: further properties of the code                         *)
(* ================================================================== *)

(** ** Spot price resolver: failures and edge cases *)

Lemma resolve_spot_raises (info : dict Q) e :
  resolve_spot info = Raise e -> e = KeyError \/ e = ZeroDivisionError.
Proof.
  unfold resolve_spot, Dict.getitem.
  destruct (Dict.get info "currentPrice"); simpl; [discriminate|].
  destruct (Dict.get info "bid"); simpl;
    destruct (Dict.get info "ask"); simpl;
    destruct (Dict.get info "previousClose") as [p|]; simpl;
    destruct (Dict.get info "navPrice"); simpl;
    try discriminate; try (intros [= <-]; auto);
    unfold py_div; destruct (Qeq_bool p 0); simpl;
    try (intros [= <-]; auto);
    match goal with |- context [py_gt ?x ?y] => destruct (py_gt x y) end;
    discriminate.
Qed.

(** X1.  Spot resolution fails with [KeyError] or [ZeroDivisionError] and
    nothing else; it divides by zero exactly when currentPrice is absent,
    bid and ask are present and previousClose is present and zero. *)
Theorem spot_division_by_zero (info : dict Q) :
  (forall e, resolve_spot info = Raise e ->
             e = KeyError \/ e = ZeroDivisionError) /\
  (resolve_spot info = Raise ZeroDivisionError <->
   Dict.get info "currentPrice" = None /\
   exists b a p,
     Dict.get info "bid" = Some b /\ Dict.get info "ask" = Some a /\
     Dict.get info "previousClose" = Some p /\ p == 0).
Proof.
  split; [intros e; apply resolve_spot_raises|].
  unfold resolve_spot, Dict.getitem. split.
  - destruct (Dict.get info "currentPrice"); simpl; [discriminate|].
    destruct (Dict.get info "bid") as [b|]; simpl;
      destruct (Dict.get info "ask") as [a|]; simpl;
      destruct (Dict.get info "previousClose") as [p|]; simpl;
      destruct (Dict.get info "navPrice"); simpl; try discriminate;
      unfold py_div; destruct (Qeq_bool p 0) eqn:E; simpl;
      try (match goal with |- context [py_gt ?x ?y] => destruct (py_gt x y) end;
           discriminate);
      intros _; (split; [reflexivity|]); exists b, a, p;
      repeat split; apply Qeq_bool_eq; exact E.
  - intros (-> & b & a & p & -> & -> & -> & Hp). simpl.
    unfold py_div. rewrite (Qeq_eq_bool _ _ Hp). reflexivity.
Qed.

(** The snapshot with a zero previous close. *)
Lemma spot_division_by_zero_witness :
  resolve_spot Sample.quote_zero_close = Raise ZeroDivisionError.
Proof.
  apply (proj2 (proj2 (spot_division_by_zero Sample.quote_zero_close))).
  split; [reflexivity|].
  exists (1 # 1), (1 # 1), (0 # 1). repeat split.
Defined.

Lemma Qabs_div_neg x p : p < 0 -> ~ 2 # 10 < Qabs x / p.
Proof.
  intros Hp H.
  assert (Hnz : ~ p == 0).
  { intros E. rewrite E in Hp. discriminate Hp. }
  assert (Hpos : 0 < - p).
  { apply (Qplus_lt_l _ _ p). ring_simplify. exact Hp. }
  assert (Hq : 0 <= Qabs x / - p).
  { apply Qmult_le_0_compat; [apply Qabs_nonneg|].
    apply Qinv_le_0_compat. apply Qlt_le_weak. exact Hpos. }
  assert (Heq : Qabs x / p == - (Qabs x / - p)) by (field; exact Hnz).
  rewrite Heq in H.
  assert (Hle : - (Qabs x / - p) <= 0).
  { apply (Qplus_le_l _ _ (Qabs x / - p)). ring_simplify. exact Hq. }
  apply (Qlt_irrefl (2 # 10)).
  eapply Qlt_le_trans; [exact H|].
  eapply Qle_trans; [exact Hle|]. discriminate.
Qed.

(** X2.  With a negative previousClose the deviation
    [|mid - previousClose| / previousClose] is never above 0.20: the mid of
    bid and ask is kept however far it lies from the previous close. *)
Theorem negative_close_never_rejects (info : dict Q) b a p :
  Dict.get info "currentPrice" = None ->
  Dict.get info "bid" = Some b ->
  Dict.get info "ask" = Some a ->
  Dict.get info "previousClose" = Some p ->
  p < 0 ->
  resolve_spot info = Ok ((b + a) / 2).
Proof.
  intros Hc Hb Ha Hp Hneg.
  unfold resolve_spot, Dict.getitem. rewrite Hc, Hb, Ha, Hp.
  cbn [Res.bind Res.try_except only_KeyError exn_eqb].
  rewrite py_div_nonzero.
  2:{ intros E. rewrite E in Hneg. discriminate Hneg. }
  cbn [Res.bind Res.try_except].
  rewrite (proj2 (py_gt_false _ _) (Qabs_div_neg _ _ Hneg)). reflexivity.
Qed.

Lemma negative_close_never_rejects_witness :
  resolve_spot Sample2.quote_negative_close = Ok (((1 # 1) + (3 # 1)) / 2).
Proof.
  apply (negative_close_never_rejects Sample2.quote_negative_close
           (1 # 1) (3 # 1) (-5 # 1)); reflexivity.
Defined.

(** ** Loops, continued *)

Lemma for_each_app {S A} (body : A -> MS S unit) xs ys s :
  PyM.for_each (xs ++ ys) body s
  = PyM.bind (PyM.for_each xs body) (fun _ => PyM.for_each ys body) s.
Proof.
  revert s. induction xs as [|x xs IH]; intros s; simpl.
  - reflexivity.
  - unfold PyM.bind in *. destruct (body x s) as [[[]|e] s1]; [|reflexivity].
    apply IH.
Qed.

(** A loop that stops early has run a prefix of its passes. *)
Lemma for_each_trace {S A E} (log : S -> list E) (ev : A -> list E)
  (body : A -> MS S unit) :
  (forall x s, log (snd (body x s)) = log s ++ ev x) ->
  forall xs s,
    exists done,
      log (snd (PyM.for_each xs body s)) = log s ++ flat_map ev done /\
      (exists rest, xs = done ++ rest) /\
      (fst (PyM.for_each xs body s) = Ok tt -> done = xs).
Proof.
  intros Hb. induction xs as [|x xs IH]; intros s; simpl.
  - exists []. simpl. rewrite app_nil_r. repeat split. exists []. reflexivity.
  - unfold PyM.bind. pose proof (Hb x s) as Hx.
    destruct (body x s) as [[[]|e] s1]; simpl in *.
    + destruct (IH s1) as (done & Hlog & (rest & Hrest) & Hok).
      exists (x :: done). simpl. rewrite Hlog, Hx, <- !app_assoc.
      repeat split.
      * exists rest. rewrite Hrest. reflexivity.
      * intros H. rewrite (Hok H). reflexivity.
    + exists [x]. simpl. rewrite app_nil_r. repeat split; [exact Hx| |discriminate].
      exists xs. reflexivity.
Qed.

Lemma for_each_related {S A} (R : S -> S -> Prop) (body : A -> MS S unit) :
  (forall x s1 s2, R s1 s2 ->
     fst (body x s1) = fst (body x s2) /\ R (snd (body x s1)) (snd (body x s2))) ->
  forall xs s1 s2, R s1 s2 ->
    fst (PyM.for_each xs body s1) = fst (PyM.for_each xs body s2) /\
    R (snd (PyM.for_each xs body s1)) (snd (PyM.for_each xs body s2)).
Proof.
  intros Hb. induction xs as [|x xs IH]; intros s1 s2 HR; simpl; [auto|].
  unfold PyM.bind. destruct (Hb x s1 s2 HR) as [Hf Hs].
  destruct (body x s1) as [[[]|e1] t1], (body x s2) as [[[]|e2] t2];
    simpl in *; try discriminate.
  - apply IH. exact Hs.
  - auto.
Qed.

(** ** Column normalizer *)

Lemma canonical_name_idempotent c :
  canonical_name (canonical_name c) = canonical_name c.
Proof.
  unfold canonical_name at 2 3.
  repeat match goal with
         | |- context [if String.eqb c ?b then _ else _] =>
             destruct (String.eqb c b) eqn:?
         end; try reflexivity.
  unfold canonical_name.
  repeat match goal with H : String.eqb c _ = false |- _ => rewrite H; clear H end.
  reflexivity.
Qed.

Lemma rename_idempotent df :
  rename (rename df canonical_name) canonical_name = rename df canonical_name.
Proof.
  unfold rename. simpl. f_equal.
  - rewrite map_map. apply map_ext. apply canonical_name_idempotent.
  - rewrite map_map. apply map_ext. intros r. unfold rename_row.
    rewrite map_map. apply map_ext. intros [k v]. simpl.
    rewrite canonical_name_idempotent. reflexivity.
Qed.

(** ** API chain fetcher: one pass *)

Section ApiPass.

Variable to_datetime : string -> result date.

Local Notation "'api_body'" := (get_option_data_body to_datetime).



Lemma api_body_records_or_appends asset expiry s :
  opt_except_list (params (snd (api_body asset expiry s)))
  = opt_except_list (params s) \/
  full_data (tables (snd (api_body asset expiry s))) = full_data (tables s).
Proof. py_run; auto. Qed.

Lemma api_body_effects asset expiry s :
  effects (snd (api_body asset expiry s))
  = effects s ++ [ProviderChain expiry].
Proof. py_run; reflexivity. Qed.

Lemma api_body_appends asset expiry s :
  exists new,
    rows (full_data (tables (snd (api_body asset expiry s))))
    = rows (full_data (tables s)) ++ new.
Proof.
  destruct (api_body_table_effect to_datetime asset expiry s)
    as [-> | (ch & cdf & d & _ & _ & _ & _ & [-> | (pdf & _ & _ & ->)])].
  - exists []. rewrite app_nil_r. reflexivity.
  - eexists. apply rows_concat2.
  - eexists. apply rows_concat2.
Qed.
Lemma api_body_same_results asset expiry s1 s2 :
  same_results s1 s2 ->
  fst (api_body asset expiry s1) = fst (api_body asset expiry s2) /\
  same_results (snd (api_body asset expiry s1)) (snd (api_body asset expiry s2)).
Proof.
  unfold same_results. intros (H1 & H2 & H3).
  destruct s1 as [[] [fd1] ev1], s2 as [[] [fd2] ev2]. simpl in H1, H2, H3.
  subst.
  py_run; repeat split; reflexivity.
Qed.
End ApiPass.

(** ** API chain fetcher: whole runs *)

Section Recorded.
Context {S : Type} (L : S -> list string) (body : string -> MS S unit).
Hypothesis body_effect :
  forall x s, L (snd (body x s)) = L s \/ L (snd (body x s)) = L s ++ [x].

Lemma for_each_recorded xs :
  forall s, exists recorded,
    L (snd (PyM.for_each xs body s)) = L s ++ recorded /\
    (forall e, In e recorded -> In e xs) /\
    (NoDup xs -> NoDup recorded).
Proof.
  induction xs as [|x xs IH]; intros s; simpl.
  - exists []. rewrite app_nil_r. repeat split; [intros e []|constructor].
  - unfold PyM.bind.
    assert (Hx : exists r0, L (snd (body x s)) = L s ++ r0 /\
                            (r0 = [] \/ r0 = [x])).
    { destruct (body_effect x s) as [H | H].
      - exists []. rewrite app_nil_r. auto.
      - exists [x]. auto. }
    destruct Hx as (r0 & Hr0 & Hcase).
    destruct (body x s) as [[[]|e] s1]; simpl in *.
    + destruct (IH s1) as (rec & Hrec & Hin & Hnd).
      exists (r0 ++ rec). rewrite Hrec, Hr0, <- app_assoc.
      split; [reflexivity|]. split.
      * intros e He. apply in_app_or in He.
        destruct He as [He | He]; [|right; auto].
        destruct Hcase as [-> | ->]; [destruct He|].
        destruct He as [<- | []]. left. reflexivity.
      * intros Hxs. inversion Hxs as [|? ? Hnx Hxs']; subst.
        destruct Hcase as [-> | ->]; simpl; [auto|].
        constructor; [|auto]. intros Hc. apply Hnx. auto.
    + exists r0. split; [exact Hr0|]. split.
      * intros e' He. destruct Hcase as [-> | ->]; [destruct He|].
        destruct He as [<- | []]. left. reflexivity.
      * intros _. destruct Hcase as [-> | ->]; repeat constructor. intros [].
Qed.
End Recorded.

Section ApiRun.

Variable yf_Ticker : string -> Ticker.
Variable to_datetime : string -> result date.

(** X5.  Once the spot price has resolved, the run asks the provider for
    the quote, for the list of expiries, and then for one chain per expiry,
    in the order of the list and never twice; a run that stops early has
    fetched the chains of a prefix of the list, a run that completes those
    of the whole list. *)
Theorem one_chain_fetch_per_expiry s spot :
  resolve_spot (info (yf_Ticker (ticker (params s)))) = Ok spot ->
  exists fetched rest,
    options (yf_Ticker (ticker (params s))) = fetched ++ rest /\
    effects (snd (get_option_data yf_Ticker to_datetime s))
    = effects s
      ++ ProviderInfo (ticker (params s))
      :: ProviderOptions (ticker (params s))
      :: map ProviderChain fetched /\
    (fst (get_option_data yf_Ticker to_datetime s) = Ok tt -> rest = []).
Proof.
  intros Hspot.
  rewrite (get_option_data_run yf_Ticker to_datetime s spot Hspot). cbv zeta.
  destruct (for_each_trace effects (fun e => [ProviderChain e])
              (get_option_data_body to_datetime
                 (yf_Ticker (ticker (params s))))
              (api_body_effects to_datetime _)
              (options (yf_Ticker (ticker (params s))))
              (api_loop_entry (yf_Ticker (ticker (params s))) spot s))
    as (done & Hlog & (rest & Hrest) & Hok).
  exists done, rest. split; [exact Hrest|].
  assert (Hflat : flat_map (fun e => [ProviderChain e]) done
                  = map ProviderChain done).
  { clear. induction done; simpl; congruence. }
  rewrite Hflat in Hlog. unfold api_loop_entry in Hlog at 2. simpl in Hlog.
  destruct (PyM.for_each _ _ _) as [[[]|e] s1]; simpl in *.
  - split.
    + rewrite Hlog, <- !app_assoc. reflexivity.
    + intros _. specialize (Hok eq_refl). subst done.
      rewrite <- (app_nil_r (options _)) in Hrest at 1.
      apply app_inv_head in Hrest. auto.
  - split; [|discriminate].
    rewrite Hlog, <- !app_assoc. reflexivity.
Qed.

(** X6.  Whatever the provider returns, the failed-expiry list of a run
    holds only expiries of the provider's list, and holds none of them twice
    when the list has no repetition. *)
Theorem failed_expiries_are_expiries s :
  (forall e,
      In e (opt_except_list
              (params (snd (get_option_data yf_Ticker to_datetime s)))) ->
      In e (options (yf_Ticker (ticker (params s))))) /\
  (NoDup (options (yf_Ticker (ticker (params s)))) ->
   NoDup (opt_except_list
            (params (snd (get_option_data yf_Ticker to_datetime s))))).
Proof.
  destruct (resolve_spot (info (yf_Ticker (ticker (params s))))) as [spot|e]
    eqn:Hspot.
  2:{ assert (H : opt_except_list
                    (params (snd (get_option_data yf_Ticker to_datetime s)))
                  = []).
      { unfold get_option_data. run_unfold. simpl. rewrite Hspot. reflexivity. }
      rewrite H. split; [intros e' [] | constructor]. }
  rewrite (get_option_data_run yf_Ticker to_datetime s spot Hspot). cbv zeta.
  destruct (for_each_recorded (fun c => opt_except_list (params c))
              (get_option_data_body to_datetime
                 (yf_Ticker (ticker (params s))))
              (api_body_list_effect to_datetime _)
              (options (yf_Ticker (ticker (params s))))
              (api_loop_entry (yf_Ticker (ticker (params s))) spot s))
    as (rec & Hrec & Hin & Hnd).
  simpl in Hrec.
  destruct (PyM.for_each _ _ _) as [[[]|e] s1]; simpl in *;
    rewrite Hrec; auto.
Qed.

(** X7.  A run starts clean: its outcome, its table, its failed-expiry list
    and its [option_dict] depend on the ticker only, not on what an earlier
    run left in the context. *)
Theorem run_starts_clean s1 s2 :
  ticker (params s1) = ticker (params s2) ->
  fst (get_option_data yf_Ticker to_datetime s1)
  = fst (get_option_data yf_Ticker to_datetime s2) /\
  same_results (snd (get_option_data yf_Ticker to_datetime s1))
               (snd (get_option_data yf_Ticker to_datetime s2)).
Proof.
  intros Ht.
  destruct (resolve_spot (info (yf_Ticker (ticker (params s1))))) as [spot|e]
    eqn:Hspot.
  2:{ unfold get_option_data, same_results. run_unfold. simpl.
      rewrite <- Ht, Hspot. simpl. auto. }
  pose proof Hspot as Hspot2. rewrite Ht in Hspot2.
  rewrite (get_option_data_run yf_Ticker to_datetime s1 spot Hspot),
    (get_option_data_run yf_Ticker to_datetime s2 spot Hspot2). cbv zeta.
  rewrite <- Ht.
  destruct (for_each_related same_results
              (get_option_data_body to_datetime
                 (yf_Ticker (ticker (params s1))))
              (api_body_same_results to_datetime _)
              (options (yf_Ticker (ticker (params s1))))
              (api_loop_entry (yf_Ticker (ticker (params s1))) spot s1)
              (api_loop_entry (yf_Ticker (ticker (params s1))) spot s2))
    as [Hf Hs].
  { unfold same_results. simpl. auto. }
  destruct (PyM.for_each _ _ (api_loop_entry _ spot s1)) as [[[]|e1] t1],
           (PyM.for_each _ _ (api_loop_entry _ spot s2)) as [[[]|e2] t2];
    simpl in *; try discriminate.
  - split; [reflexivity|]. unfold same_results in *. simpl.
    destruct Hs as (H1 & H2 & H3). rewrite H3. auto.
  - split; [exact Hf | exact Hs].
Qed.

(** X8.  The column normalizer is idempotent: renaming the columns of a
    table once more changes nothing, and the table of a completed run is a
    fixed point of the renaming. *)
Theorem normalizer_is_idempotent_on_the_table s :
  (forall df,
      rename (rename df canonical_name) canonical_name
      = rename df canonical_name) /\
  (fst (get_option_data yf_Ticker to_datetime s) = Ok tt ->
   rename (full_data (tables (snd (get_option_data yf_Ticker to_datetime s))))
     canonical_name
   = full_data (tables (snd (get_option_data yf_Ticker to_datetime s)))).
Proof.
  split; [exact rename_idempotent|].
  intros Hok.
  destruct (resolve_spot (info (yf_Ticker (ticker (params s))))) as [spot|e]
    eqn:Hspot.
  2:{ apply (get_option_data_spot_raises yf_Ticker to_datetime) in Hspot.
      destruct Hspot as [Hr _]. congruence. }
  rewrite (get_option_data_run yf_Ticker to_datetime s spot Hspot) in *.
  cbv zeta in *.
  destruct (PyM.for_each _ _ _) as [[[]|e] s1]; simpl in *; [|discriminate].
  apply rename_idempotent.
Qed.
End ApiRun.

(** ** Legacy table parser *)

Lemma list_getitem_head {A} (x : A) l : list_getitem (x :: l) 0 = Ok x.
Proof. reflexivity. Qed.
Lemma list_getitem_second {A} (x y : A) l : list_getitem (x :: y :: l) 1 = Ok y.
Proof. reflexivity. Qed.
Lemma list_getitem_no_second {A} (x : A) : list_getitem [x] 1 = Raise IndexError.
Proof. reflexivity. Qed.

Ltac py_run_pages :=
  py_unfold; py_simpl;
  repeat (first [ rewrite list_getitem_head
                | rewrite list_getitem_second
                | rewrite list_getitem_no_second
                | py_known | py_case ]; py_simpl).

Ltac page_facts :=
  repeat match goal with
  | H : legacy_valid _ = true |- _ => unfold legacy_valid in H
  | H : legacy_valid _ = false |- _ => unfold legacy_valid in H
  | H : match ?x with _ => _ end = _ |- _ =>
      destruct x eqn:?; try discriminate H
  | H : first_of _ _ = Raise ?e |- _ =>
      is_var e; apply first_of_raises in H; subst e
  end.

Section LegacyPass.

Variable to_datetime : string -> result date.

Local Notation "'legacy_body'" := (_process_options_body to_datetime).

(** X9.  The legacy parser reads the tables of a page by position.  A page
    with one table, valid, contributes its rows as calls and is not
    recorded as failed; a page with two valid tables contributes the rows
    of the first as calls and then those of the second as puts, whatever
    tables follow. *)
Theorem legacy_fragments input_date d s :
  to_datetime input_date = Ok d ->
  (forall cdf,
      Dict.get (option_dict (params s)) input_date = Some [cdf] ->
      legacy_valid cdf = true ->
      fst (legacy_body input_date s) = Ok tt /\
      rows (full_data (tables (snd (legacy_body input_date s))))
      = rows (full_data (tables s)) ++ rows (stamped cdf "call" d) /\
      opt_except_list (params (snd (legacy_body input_date s)))
      = opt_except_list (params s)) /\
  (forall cdf pdf others,
      Dict.get (option_dict (params s)) input_date
      = Some (cdf :: pdf :: others) ->
      legacy_valid cdf = true -> legacy_valid pdf = true ->
      fst (legacy_body input_date s) = Ok tt /\
      rows (full_data (tables (snd (legacy_body input_date s))))
      = rows (full_data (tables s)) ++ rows (stamped cdf "call" d)
          ++ rows (stamped pdf "put" d) /\
      opt_except_list (params (snd (legacy_body input_date s)))
      = opt_except_list (params s)).
Proof.
  intros Hd. split.
  - intros cdf Hget Hv. page_facts.
    py_run_pages; repeat split; try congruence.
  - intros cdf pdf others Hget Hc Hp. page_facts.
    py_run_pages; repeat split; try congruence.
    rewrite rows_concat2, !rows_stamped, rows_setitem, rows_concat2,
      !rows_setitem, map_app, !map_map. reflexivity.
Qed.

(** X10.  A page whose first table has a first strike that is not a text
    of digits (a float such as 100.5, a negative number, a placeholder) is
    skipped without a trace: the pass completes, appends no row and does
    not record the date as failed, whatever the second table holds. *)
Theorem legacy_skips_a_page input_date cdf others c s :
  Dict.get (option_dict (params s)) input_date = Some (cdf :: others) ->
  first_of cdf "Strike" = Ok c ->
  str_isdigit c = false ->
  fst (legacy_body input_date s) = Ok tt /\
  full_data (tables (snd (legacy_body input_date s))) = full_data (tables s) /\
  opt_except_list (params (snd (legacy_body input_date s)))
  = opt_except_list (params s).
Proof.
  intros Hget Hf Hc. destruct s as [p [fd] ev]. simpl in Hget.
  py_run_pages; try congruence; repeat split; reflexivity.
Qed.

(** X11.  The legacy parser handles [IndexError] only.  A first table
    without a 'Strike' column or without rows makes the pass raise
    [KeyError]; and with valid tables, an exception of the date parser
    other than [IndexError] leaves the pass as it is; in both cases no row
    is appended and the date is not recorded as failed. *)
Theorem legacy_uncaught_errors input_date cdf others s :
  Dict.get (option_dict (params s)) input_date = Some (cdf :: others) ->
  (forall e, first_of cdf "Strike" = Raise e ->
             fst (legacy_body input_date s) = Raise KeyError /\
             full_data (tables (snd (legacy_body input_date s)))
             = full_data (tables s) /\
             opt_except_list (params (snd (legacy_body input_date s)))
             = opt_except_list (params s)) /\
  (forall e,
      legacy_valid cdf = true ->
      (others = [] \/ exists pdf rest, others = pdf :: rest /\
                                       legacy_valid pdf = true) ->
      to_datetime input_date = Raise e -> only_IndexError e = false ->
      fst (legacy_body input_date s) = Raise e /\
      full_data (tables (snd (legacy_body input_date s)))
      = full_data (tables s) /\
      opt_except_list (params (snd (legacy_body input_date s)))
      = opt_except_list (params s)).
Proof.
  intros Hget. split.
  - intros e He. pose proof (first_of_raises _ _ _ He) as ->.
    destruct s as [p [fd] ev]. simpl in Hget.
    py_run_pages; try congruence; repeat split; reflexivity.
  - intros e Hv Ho Hd He.
    page_facts. destruct s as [p [fd] ev]. simpl in Hget.
    destruct Ho as [-> | (pdf & rest & -> & Hp)]; page_facts;
      py_run_pages; try rewrite He; try congruence;
      repeat split; reflexivity.
Qed.

(** X12.  When the date parser raises no [IndexError]: a pass of the
    legacy parser adds its date to the failed-expiry list only for a page
    without any table, and then appends nothing; and when it appends rows,
    they are the stamped calls of a valid first table, followed by the
    stamped puts of a valid second table when there is one - rows are never
    appended for puts alone. *)
Theorem legacy_page_outcomes input_date s :
  (forall e, to_datetime input_date = Raise e -> only_IndexError e = false) ->
  (opt_except_list (params (snd (legacy_body input_date s)))
   = opt_except_list (params s) \/
   Dict.get (option_dict (params s)) input_date = Some [] /\
   opt_except_list (params (snd (legacy_body input_date s)))
   = opt_except_list (params s) ++ [input_date] /\
   full_data (tables (snd (legacy_body input_date s)))
   = full_data (tables s)) /\
  (full_data (tables (snd (legacy_body input_date s))) = full_data (tables s) \/
   exists cdf others d,
     Dict.get (option_dict (params s)) input_date = Some (cdf :: others) /\
     legacy_valid cdf = true /\
     to_datetime input_date = Ok d /\
     opt_except_list (params (snd (legacy_body input_date s)))
     = opt_except_list (params s) /\
     (rows (full_data (tables (snd (legacy_body input_date s))))
      = rows (full_data (tables s)) ++ rows (stamped cdf "call" d) /\
      others = [] \/
      exists pdf rest,
        others = pdf :: rest /\ legacy_valid pdf = true /\
        rows (full_data (tables (snd (legacy_body input_date s))))
        = rows (full_data (tables s)) ++ rows (stamped cdf "call" d)
            ++ rows (stamped pdf "put" d))).
Proof.
  intros Hparser.
  destruct (Dict.get (option_dict (params s)) input_date)
    as [[|cdf [|pdf rest]]|] eqn:Hget;
    (split; py_run_pages);
    try match goal with
        | H : first_of _ _ = Raise ?e, H' : only_IndexError ?e = true |- _ =>
            apply first_of_raises in H; subst e; discriminate H'
        | H : forall e0, Raise ?e = Raise e0 -> _,
          H' : only_IndexError ?e = true |- _ =>
            specialize (H e eq_refl); congruence
        end;
    first
      [ left; reflexivity
      | right; split; [reflexivity|]; split; reflexivity
      | right; do 3 eexists;
        split; [reflexivity|];
        split; [eapply legacy_valid_intro; eassumption|];
        split; [reflexivity|];
        split; [reflexivity|];
        first
          [ left; split; [apply rows_concat2 | reflexivity]
          | right; do 2 eexists;
            split; [reflexivity|];
            split; [eapply legacy_valid_intro; eassumption|];
            rewrite rows_concat2, !rows_stamped, rows_setitem, rows_concat2,
              !rows_setitem, map_app, !map_map; reflexivity ] ].
Qed.

End LegacyPass.

(** ** Legacy transport: fetching and reading the pages *)

Lemma NoDup_app_cons_fresh {V} (acc : dict V) k (rest : list string) :
  NoDup (map fst acc ++ k :: rest) ->
  Dict.get acc k = None /\ NoDup (map fst acc ++ rest) /\
  forall v, NoDup (map fst (acc ++ [(k, v)]) ++ rest).
Proof.
  intros H. split; [|split].
  - apply get_None_iff. intros Hin.
    apply NoDup_remove_2 in H. apply H. apply in_or_app. now left.
  - now apply NoDup_remove_1 in H.
  - intros v. rewrite map_app. simpl. rewrite <- app_assoc. exact H.
Qed.

Lemma fold_set_some_fresh {V W} (g : string * V -> option W)
  (l : list (string * V)) (acc : dict W) :
  NoDup (map fst acc ++ map fst l) ->
  fold_left (fun d kv => match g kv with
                         | Some w => Dict.set d (fst kv) w
                         | None => d
                         end) l acc
  = acc ++ flat_map (fun kv => match g kv with
                               | Some w => [(fst kv, w)]
                               | None => []
                               end) l.
Proof.
  revert acc. induction l as [|[k v] l IH]; intros acc H; simpl.
  - now rewrite app_nil_r.
  - simpl in H. destruct (NoDup_app_cons_fresh _ _ _ H) as (Hk & Hrest & Hset).
    destruct (g (k, v)) as [w|].
    + rewrite (set_fresh _ _ _ Hk), IH by apply Hset.
      now rewrite <- app_assoc.
    + now apply IH.
Qed.

Section FetchPass.

Variable urlopen : string -> result Response.


Lemma fetch_body_up p kv c raw :
  transport_up urlopen [kv] ->
  fetch_body urlopen p kv (c, raw)
  = (Ok tt,
     (mkCtx (params c) (tables c) (effects c ++ fetch_trace urlopen p [kv]),
      match fetched_text urlopen (snd kv) with
      | Some page => Dict.set raw (fst kv) page
      | None => raw
      end)).
Proof.
  intros H. destruct (H kv (or_introl eq_refl)) as (r & Hr & Ht).
  unfold fetch_body, fetch_trace, fetched_text, pause_after_fetch, sleep.
  cbn [flat_map]. rewrite Hr.
  destruct (text r) as [page|e] eqn:Htext.
  - destruct (wait p <? 0)%Z eqn:Hw;
      run_unfold; simpl; rewrite ?Hr; simpl; rewrite ?Htext; simpl;
      rewrite ?Hw; simpl; rewrite <- ?app_assoc; reflexivity.
  - rewrite (Ht e eq_refl) in *.
    run_unfold; simpl; rewrite ?Hr; simpl; rewrite ?Htext; simpl;
    rewrite <- ?app_assoc; reflexivity.
Qed.

Lemma fetch_loop_up p urls :
  transport_up urlopen urls ->
  forall c raw,
    PyM.for_each urls (fetch_body urlopen p) (c, raw)
    = (Ok tt,
       (mkCtx (params c) (tables c)
          (effects c ++ fetch_trace urlopen p urls),
        fold_left (fun d kv => match fetched_text urlopen (snd kv) with
                               | Some page => Dict.set d (fst kv) page
                               | None => d
                               end) urls raw)).
Proof.
  induction urls as [|kv urls IH]; intros H c raw.
  - simpl. rewrite app_nil_r. destruct c. reflexivity.
  - cbn [PyM.for_each fold_left]. unfold PyM.bind at 1.
    rewrite fetch_body_up
      by (intros kv' [<-|[]]; apply H; now left).
    rewrite IH by (intros kv' Hkv; apply H; now right).
    cbn [params tables effects]. unfold fetch_trace. cbn [flat_map].
    rewrite app_nil_r, <- app_assoc. reflexivity.
Qed.

Lemma extract_web_data_run s :
  transport_up urlopen (url_dict (params s)) ->
  NoDup (Dict.keys (url_dict (params s))) ->
  _extract_web_data urlopen s
  = (Ok (fetched_pages urlopen (url_dict (params s))),
     mkCtx (params s) (tables s)
       (effects s ++ fetch_trace urlopen (params s) (url_dict (params s)))).
Proof.
  intros Hup Hnd. unfold _extract_web_data, PyM.run_local.
  unfold PyM.bind at 1. unfold PyM.in_ctx at 1, PyM.get_params. simpl.
  unfold PyM.bind at 1. unfold Dict.items.
  change (PyM.for_each ?l _)
    with (PyM.for_each l (fetch_body urlopen (params s))).
  rewrite (fetch_loop_up (params s) _ Hup). simpl.
  unfold PyM.get_local. simpl.
  rewrite (fold_set_some_fresh (fun kv => fetched_text urlopen (snd kv)))
    by exact Hnd.
  reflexivity.
Qed.

(** X13.  With every page opening and every text read or refused with
    [ValueError], the fetch pass completes: it requests each URL of
    [url_dict] once, in order, and pauses after each one - for the
    configured wait, or for 5 when the text is refused or the wait is
    negative, in which case the text is kept all the same -; it returns the
    texts read, under their dates, and leaves params and tables alone. *)
Theorem page_fetch_pass s :
  transport_up urlopen (url_dict (params s)) ->
  NoDup (Dict.keys (url_dict (params s))) ->
  _extract_web_data urlopen s
  = (Ok (fetched_pages urlopen (url_dict (params s))),
     mkCtx (params s) (tables s)
       (effects s ++ fetch_trace urlopen (params s) (url_dict (params s)))) /\
  forall input_date page,
    Dict.get (fetched_pages urlopen (url_dict (params s))) input_date
    = Some page ->
    exists url, In (input_date, url) (url_dict (params s)) /\
                fetched_text urlopen url = Some page.
Proof.
  intros Hup Hnd. split; [now apply extract_web_data_run|].
  intros input_date page. unfold fetched_pages.
  generalize (url_dict (params s)). intros urls.
  induction urls as [|[d u] urls IH]; simpl; [discriminate|].
  destruct (fetched_text urlopen u) as [pg|] eqn:Hf; simpl.
  - destruct (String.eqb input_date d) eqn:Hd.
    + apply String.eqb_eq in Hd. subst. intros [= <-]. exists u. auto.
    + intros H. destruct (IH H) as (url & Hin & Hp). exists url. auto.
  - intros H. destruct (IH H) as (url & Hin & Hp). exists url. auto.
Qed.

(** X14.  A page that does not open stops the fetch pass: the exception
    leaves [_extract_web_data], the pages before it have been requested and
    paused after, the failing one has been requested, and no later URL is
    requested. *)
Theorem page_open_failure_stops_fetching s before input_date url after e :
  url_dict (params s) = before ++ (input_date, url) :: after ->
  transport_up urlopen before ->
  urlopen url = Raise e ->
  _extract_web_data urlopen s
  = (Raise e,
     mkCtx (params s) (tables s)
       (effects s ++ fetch_trace urlopen (params s) before ++ [HttpOpen url])).
Proof.
  intros Hurls Hup He. unfold _extract_web_data, PyM.run_local.
  unfold PyM.bind at 1. unfold PyM.in_ctx at 1, PyM.get_params. simpl.
  unfold PyM.bind at 1. unfold Dict.items. rewrite Hurls.
  change (PyM.for_each ?l _) with (PyM.for_each l (fetch_body urlopen (params s))).
  rewrite for_each_app. unfold PyM.bind at 1.
  rewrite (fetch_loop_up (params s) _ Hup).
  cbn [PyM.for_each]. unfold PyM.bind at 1.
  unfold fetch_body at 1. run_unfold. simpl. rewrite He. simpl.
  rewrite <- app_assoc. reflexivity.
Qed.

End FetchPass.

Section ReadPass.

Variable read_html : string -> result (list DataFrame).


Lemma read_body_readable kv s :
  pages_readable read_html (raw_web_data (params s)) [kv] ->
  read_body read_html kv s
  = (Ok tt, mkCtx (read_step read_html (raw_web_data (params s)) kv (params s))
              (tables s) (effects s)).
Proof.
  intros H. destruct (H kv (or_introl eq_refl)) as (page & Hp & Hv).
  unfold read_body, read_step, read_page, Dict.getitem.
  run_unfold. simpl. rewrite Hp. simpl.
  destruct (read_html page) as [frames|e] eqn:Hread; simpl.
  - reflexivity.
  - rewrite (Hv e eq_refl). reflexivity.
Qed.

Lemma raw_read_step raw kv p :
  raw_web_data (read_step read_html raw kv p) = raw_web_data p.
Proof.
  unfold read_step. destruct (read_page _ _ _); destruct p; reflexivity.
Qed.

Lemma read_loop_readable urls :
  forall s,
    pages_readable read_html (raw_web_data (params s)) urls ->
    PyM.for_each urls (read_body read_html) s
    = (Ok tt,
       mkCtx (fold_left (fun p kv => read_step read_html (raw_web_data (params s)) kv p)
                urls (params s))
         (tables s) (effects s)).
Proof.
  induction urls as [|kv urls IH]; intros s H.
  - simpl. destruct s. reflexivity.
  - cbn [PyM.for_each fold_left]. unfold PyM.bind at 1.
    rewrite read_body_readable by (intros kv' [<-|[]]; apply H; now left).
    rewrite IH; cbn [params tables effects]; rewrite raw_read_step.
    + reflexivity.
    + intros kv' Hkv; apply H; now right.
Qed.

Lemma read_fold raw urls :
  forall p,
    NoDup (Dict.keys (option_dict p) ++ Dict.keys urls) ->
    NoDup (Dict.keys (url_except_dict p) ++ Dict.keys urls) ->
    fold_left (fun p kv => read_step read_html raw kv p) urls p
    = with_url_except_dict
        (url_except_dict p ++ unparsed_pages read_html raw urls)
        (with_option_dict (option_dict p ++ parsed_pages read_html raw urls) p).
Proof.
  induction urls as [|[d u] urls IH]; intros p H1 H2.
  - simpl. rewrite !app_nil_r. destruct p; auto.
  - cbn [fold_left]. unfold Dict.keys in *. simpl in H1, H2.
    destruct (NoDup_app_cons_fresh _ _ _ H1) as (Hk1 & Hr1 & Hs1).
    destruct (NoDup_app_cons_fresh _ _ _ H2) as (Hk2 & Hr2 & Hs2).
    unfold parsed_pages, unparsed_pages. cbn [flat_map].
    unfold read_step at 2. cbn [fst snd].
    destruct (read_page read_html raw d) as [frames|e].
    + rewrite IH.
      * destruct p; simpl in *.
        rewrite (set_fresh _ _ _ Hk1), <- app_assoc. reflexivity.
      * destruct p; simpl in *. rewrite (set_fresh _ _ _ Hk1). apply Hs1.
      * destruct p; simpl in *. exact Hr2.
    + rewrite IH.
      * destruct p; simpl in *.
        rewrite (set_fresh _ _ _ Hk2), <- app_assoc. reflexivity.
      * destruct p; simpl in *. exact Hr1.
      * destruct p; simpl in *. rewrite (set_fresh _ _ _ Hk2). apply Hs2.
Qed.

Lemma partition_length raw urls :
  (List.length (parsed_pages read_html raw urls)
   + List.length (unparsed_pages read_html raw urls)
   = List.length urls)%nat.
Proof.
  induction urls as [|kv urls IH]; [reflexivity|].
  unfold parsed_pages, unparsed_pages in *. cbn [flat_map].
  destruct (read_page read_html raw (fst kv));
    rewrite ?length_app; simpl; lia.
Qed.

Lemma read_web_data_run s :
  pages_readable read_html (raw_web_data (params s)) (url_dict (params s)) ->
  NoDup (Dict.keys (url_dict (params s))) ->
  _read_web_data read_html s
  = (Ok tt,
     mkCtx (with_url_except_dict
              (unparsed_pages read_html (raw_web_data (params s))
                 (url_dict (params s)))
              (with_option_dict
                 (parsed_pages read_html (raw_web_data (params s))
                    (url_dict (params s)))
                 (params s)))
       (tables s) (effects s)).
Proof.
  intros Hread Hnd. unfold _read_web_data.
  change (PyM.for_each ?l _) with (PyM.for_each l (read_body read_html)).
  run_unfold. cbn [fst snd params tables effects].
  destruct s as [p t ev]. destruct p. simpl in *.
  unfold Dict.items.
  rewrite read_loop_readable by exact Hread.
  simpl. rewrite read_fold by (simpl; exact Hnd).
  reflexivity.
Qed.

(** X15.  When every date of [url_dict] has its page text and the table
    reader returns or raises [ValueError], the read pass completes and
    splits [url_dict] in two, in order: [option_dict] holds the tables of
    the pages that parsed, [url_except_dict] the URLs of the others; what
    the two held before is dropped, and every date of [url_dict] is in one
    of them. *)
Theorem page_read_pass s :
  pages_readable read_html (raw_web_data (params s)) (url_dict (params s)) ->
  NoDup (Dict.keys (url_dict (params s))) ->
  _read_web_data read_html s
  = (Ok tt,
     mkCtx (with_url_except_dict
              (unparsed_pages read_html (raw_web_data (params s))
                 (url_dict (params s)))
              (with_option_dict
                 (parsed_pages read_html (raw_web_data (params s))
                    (url_dict (params s)))
                 (params s)))
       (tables s) (effects s)) /\
  (List.length (parsed_pages read_html (raw_web_data (params s))
                  (url_dict (params s)))
   + List.length (unparsed_pages read_html (raw_web_data (params s))
                    (url_dict (params s)))
   = List.length (url_dict (params s)))%nat.
Proof.
  intros Hread Hnd. split; [|apply partition_length].
  apply read_web_data_run; assumption.
Qed.

Lemma read_body_raw kv s :
  raw_web_data (params (snd (read_body read_html kv s))) = raw_web_data (params s).
Proof.
  unfold read_body. run_unfold. simpl.
  destruct (Dict.getitem _ _) as [page|e]; simpl.
  - destruct (read_html page) as [frames|e]; simpl; [reflexivity|].
    destruct e; reflexivity.
  - destruct e; reflexivity.
Qed.

Lemma read_loop_missing urls :
  forall s,
    (forall page e, read_html page = Raise e -> e = ValueError) ->
    (exists kv, In kv urls /\ Dict.get (raw_web_data (params s)) (fst kv) = None) ->
    fst (PyM.for_each urls (read_body read_html) s) = Raise KeyError.
Proof.
  induction urls as [|kv urls IH]; intros s Hv (kv0 & Hin & Hnone).
  - destruct Hin.
  - cbn [PyM.for_each]. unfold PyM.bind.
    destruct (Dict.get (raw_web_data (params s)) (fst kv)) as [page|] eqn:Hget.
    + pose proof (read_body_raw kv s) as Hraw.
      assert (Hok : fst (read_body read_html kv s) = Ok tt).
      { unfold read_body, Dict.getitem. run_unfold. simpl. rewrite Hget. simpl.
        destruct (read_html page) as [frames|e] eqn:Hr; simpl; [reflexivity|].
        rewrite (Hv _ _ Hr). reflexivity. }
      destruct (read_body read_html kv s) as [[[]|e] s1]; simpl in *; [|discriminate].
      apply IH; [exact Hv|]. exists kv0. rewrite Hraw. split; [|exact Hnone].
      destruct Hin as [<-|Hin]; [congruence | exact Hin].
    + unfold read_body, Dict.getitem. run_unfold. simpl. rewrite Hget.
      reflexivity.
Qed.

(** X16.  A date of [url_dict] without a page text in [raw_web_data]
    makes the read pass raise [KeyError], which its handler for
    [ValueError] does not catch. *)
Theorem unread_page_aborts_reader s input_date url :
  In (input_date, url) (url_dict (params s)) ->
  Dict.get (raw_web_data (params s)) input_date = None ->
  (forall page e, read_html page = Raise e -> e = ValueError) ->
  fst (_read_web_data read_html s) = Raise KeyError.
Proof.
  intros Hin Hnone Hv. unfold _read_web_data.
  change (PyM.for_each ?l _) with (PyM.for_each l (read_body read_html)).
  run_unfold. cbn [fst snd params tables effects].
  destruct s as [p t ev]. destruct p. simpl in *. unfold Dict.items.
  match goal with
  | |- context [PyM.for_each ?l (read_body read_html) ?st] =>
      pose proof (read_loop_missing l st Hv) as H
  end.
  simpl in H.
  destruct (PyM.for_each _ _ _) as [[[]|e] s1]; simpl in *;
    apply H; exists (input_date, url); auto.
Qed.
End ReadPass.

Lemma set_keys_In {V} (d : dict V) k v k' :
  In k' (Dict.keys (Dict.set d k v)) -> k' = k \/ In k' (Dict.keys d).
Proof.
  unfold Dict.keys. induction d as [|[k0 v0] d IH]; simpl.
  - intros [<-|[]]. now left.
  - destruct (String.eqb k k0) eqn:Hk; simpl.
    + intros H. now right.
    + intros [<-|H]; [right; now left|].
      destruct (IH H) as [->|Hin]; [now left | right; now right].
Qed.

Lemma set_keys_NoDup {V} (d : dict V) k v :
  NoDup (Dict.keys d) -> NoDup (Dict.keys (Dict.set d k v)).
Proof.
  unfold Dict.keys. induction d as [|[k0 v0] d IH]; simpl; intros H.
  - repeat constructor. intros [].
  - destruct (String.eqb k k0) eqn:Hk; simpl; [exact H|].
    inversion H as [|? ? Hnin Hnd]; subst. constructor; [|auto].
    intros Hin. apply set_keys_In in Hin. destruct Hin as [->|Hin]; [|auto].
    rewrite String.eqb_refl in Hk. discriminate.
Qed.

Lemma fold_set_keys_NoDup {V W} (f : string * V -> W) (l : list (string * V)) :
  forall acc : dict W,
    NoDup (Dict.keys acc) ->
    NoDup (Dict.keys (fold_left (fun d kv => Dict.set d (fst kv) (f kv)) l acc)).
Proof.
  induction l as [|kv l IH]; intros acc H; simpl; [exact H|].
  apply IH. now apply set_keys_NoDup.
Qed.

Section Stages.

Variable urlopen : string -> result Response.
Variable findAll_option_divs : string -> list OptionDiv.
Variable parse : string -> result date.
Variable strftime : date -> string.
Variable read_html : string -> result (list DataFrame).
Variable to_datetime : string -> result date.

Lemma build_url_dict_keys tkr soup urls :
  build_url_dict parse strftime tkr soup = Ok urls -> NoDup (Dict.keys urls).
Proof.
  unfold build_url_dict.
  destruct (collect_dates parse (map get_text soup) []) as [ds|e]; simpl;
    [|discriminate].
  destruct (map_result _ soup) as [toks|e]; simpl; [|discriminate].
  intros [= <-].
  apply (fold_set_keys_NoDup (fun kv => option_url tkr (snd kv))).
  constructor.
Qed.

Lemma extracturls_run s root html urls :
  urlopen (root_url (ticker (params s))) = Ok root ->
  text root = Ok html ->
  build_url_dict parse strftime (ticker (params s)) (findAll_option_divs html)
  = Ok urls ->
  _extracturls urlopen findAll_option_divs parse strftime s
  = (Ok tt,
     mkCtx (with_url_dict urls (with_html_doc html (params s))) (tables s)
       (effects s ++ [HttpOpen (root_url (ticker (params s)))])).
Proof.
  intros Hr Ht Hb. unfold _extracturls, root_url in *.
  run_unfold. simpl in *.
  rewrite Hr. simpl. rewrite Ht. simpl. rewrite Hb. simpl. reflexivity.
Qed.

Lemma served_up urls :
  pages_served urlopen read_html urls -> transport_up urlopen urls.
Proof.
  intros H kv Hin. destruct (H kv Hin) as (page & Hf & _).
  unfold fetched_text in Hf.
  destruct (urlopen (snd kv)) as [w|]; [|discriminate].
  exists w. split; [reflexivity|].
  intros e He. rewrite He in Hf. discriminate.
Qed.

Lemma served_fetched urls :
  pages_served urlopen read_html urls ->
  fetched_pages urlopen urls
  = map (fun kv => (fst kv, match fetched_text urlopen (snd kv) with
                            | Some page => page
                            | None => EmptyString
                            end)) urls.
Proof.
  induction urls as [|kv urls IH]; intros H; [reflexivity|].
  unfold fetched_pages in *. simpl.
  destruct (H kv (or_introl eq_refl)) as (page & -> & _). simpl.
  f_equal. apply IH. intros kv' Hin. apply H. now right.
Qed.

Lemma served_readable urls :
  NoDup (Dict.keys urls) ->
  pages_served urlopen read_html urls ->
  pages_readable read_html (fetched_pages urlopen urls) urls.
Proof.
  intros Hnd H kv Hin. destruct (H kv Hin) as (page & Hf & Hv).
  exists page. split; [|exact Hv].
  apply get_In_distinct.
  - rewrite served_fetched by exact H. rewrite map_map. exact Hnd.
  - rewrite served_fetched by exact H.
    apply in_map_iff. exists kv. rewrite Hf. auto.
Qed.

(** X17.  How the stages of the legacy path compose.  When the root page
    is served, the date picker yields a URL map, and every page of the map
    is served and read, [extractoptions] is [_process_options] entered with
    an empty table - whatever the table held before -, with the tables of
    the pages that parsed in [option_dict], with exactly their dates, in the
    order of the map, as the dates to process, and with one request for the
    root page followed by one request and one pause per page behind it. *)
Theorem legacy_run_stages s root html urls :
  urlopen (root_url (ticker (params s))) = Ok root ->
  text root = Ok html ->
  build_url_dict parse strftime (ticker (params s)) (findAll_option_divs html)
  = Ok urls ->
  pages_served urlopen read_html urls ->
  extractoptions to_datetime urlopen findAll_option_divs parse strftime
    read_html s
  = _process_options to_datetime (legacy_entry urlopen read_html html urls s).
Proof.
  intros Hr Ht Hb Hs.
  pose proof (build_url_dict_keys _ _ _ Hb) as Hnd.
  unfold extractoptions. unfold PyM.bind at 1.
  rewrite (extracturls_run s root html urls Hr Ht Hb).
  unfold PyM.bind at 1.
  rewrite extract_web_data_run
    by (destruct s as [[] ? ?]; simpl; auto using served_up).
  unfold PyM.bind at 1. unfold PyM.modify_params at 1.
  unfold PyM.bind at 1.
  rewrite read_web_data_run
    by (destruct s as [[] ? ?]; simpl; auto using served_readable).
  destruct s as [[] [fd] ev]. simpl. run_unfold. simpl.
  unfold legacy_entry. simpl. rewrite <- app_assoc. reflexivity.
Qed.

End Stages.

(** ** Legacy table parser: whole runs *)
Section LegacyRun.

Variable to_datetime : string -> result date.

Local Notation "'legacy_body'" := (_process_options_body to_datetime).

Lemma legacy_body_recorded_page input_date s :
  (forall e, to_datetime input_date = Raise e -> only_IndexError e = false) ->
  opt_except_list (params (snd (legacy_body input_date s)))
  = opt_except_list (params s) \/
  Dict.get (option_dict (params s)) input_date = Some [] /\
  opt_except_list (params (snd (legacy_body input_date s)))
  = opt_except_list (params s) ++ [input_date].
Proof.
  intros Hparser.
  destruct (Dict.get (option_dict (params s)) input_date)
    as [[|cdf [|pdf rest]]|] eqn:Hget;
    py_run_pages;
    try match goal with
        | H : first_of _ _ = Raise ?e, H' : only_IndexError ?e = true |- _ =>
            apply first_of_raises in H; subst e; discriminate H'
        | H : forall e0, Raise ?e = Raise e0 -> _,
          H' : only_IndexError ?e = true |- _ =>
            specialize (H e eq_refl); congruence
        end;
    first [ left; reflexivity | right; split; reflexivity ].
Qed.

Lemma legacy_body_appends input_date s :
  exists new,
    rows (full_data (tables (snd (legacy_body input_date s))))
    = rows (full_data (tables s)) ++ new.
Proof.
  destruct (legacy_body_table_effect to_datetime input_date s)
    as [-> | (frames & d & _ & _ &
              [(df & ot & -> & _) | (cdf & pdf & -> & _)])].
  - exists []. now rewrite app_nil_r.
  - eexists. apply rows_concat2.
  - eexists. apply rows_concat2.
Qed.

(** X18.  When the date parser raises no [IndexError] on the dates to
    process: every date that a run of the legacy parser leaves in the
    failed-expiry list is one of the dates to process and has a page
    without any table; and the run only appends to the table it is given. *)
Theorem legacy_failed_dates s :
  (forall d e, In d (date_list (params s)) -> to_datetime d = Raise e ->
               only_IndexError e = false) ->
  (forall d,
      In d (opt_except_list (params (snd (_process_options to_datetime s)))) ->
      In d (date_list (params s)) /\
      Dict.get (option_dict (params s)) d = Some []) /\
  exists new,
    rows (full_data (tables (snd (_process_options to_datetime s))))
    = rows (full_data (tables s)) ++ new.
Proof.
  intros Hparser. rewrite _process_options_run.
  pose (P := fun c : Ctx =>
    option_dict (params c) = option_dict (params s) /\
    (forall d, In d (opt_except_list (params c)) ->
       In d (date_list (params s)) /\
       Dict.get (option_dict (params s)) d = Some []) /\
    exists new, rows (full_data (tables c)) = rows (full_data (tables s)) ++ new).
  assert (H : P (snd (PyM.for_each (date_list (params s)) legacy_body
                   (mkCtx (with_opt_except_list [] (params s)) (tables s)
                      (effects s))))).
  { apply for_each_invariant.
    - intros x c Hx (Hod & Hrec & new & Hnew). unfold P.
      split; [rewrite legacy_body_option_dict; exact Hod|]. split.
      + intros d Hd.
        destruct (legacy_body_recorded_page x c (fun e => Hparser x e Hx))
          as [E | (Hg & E)].
        * rewrite E in Hd. auto.
        * rewrite E in Hd. apply in_app_or in Hd.
          destruct Hd as [Hd | [<- | []]]; [auto|].
          split; [exact Hx|]. rewrite <- Hod. exact Hg.
      + destruct (legacy_body_appends x c) as (new' & Hn').
        exists (new ++ new'). rewrite Hn', Hnew, app_assoc. reflexivity.
    - unfold P. destruct s as [[] ? ?]. simpl. split; [reflexivity|].
      split; [intros d []|]. exists []. now rewrite app_nil_r. }
  destruct H as (_ & H1 & H2). split; assumption.
Qed.
End LegacyRun.

(** ** URL discovery, continued *)

Lemma set_In {V} (d : dict V) k v k' v' :
  In (k', v') (Dict.set d k v) -> (k' = k /\ v' = v) \/ In (k', v') d.
Proof.
  induction d as [|[k0 v0] d IH]; simpl.
  - intros [[= <- <-]|[]]. now left.
  - destruct (String.eqb k k0) eqn:Hk; simpl.
    + apply String.eqb_eq in Hk. subst k0.
      intros [[= <- <-]|H]; [now left | right; now right].
    + intros [H|H]; [right; now left|].
      destruct (IH H) as [?|?]; [now left | right; now right].
Qed.

Lemma fold_set_In {V W} (f : string * V -> W) (l : list (string * V)) :
  forall (acc : dict W) k w,
    In (k, w) (fold_left (fun d kv => Dict.set d (fst kv) (f kv)) l acc) ->
    In (k, w) acc \/ exists kv, In kv l /\ k = fst kv /\ w = f kv.
Proof.
  induction l as [|kv l IH]; intros acc k w; simpl; [auto|].
  intros H. destruct (IH _ _ _ H) as [Hin | (kv' & Hin & Hk & Hw)].
  - apply set_In in Hin. destruct Hin as [[-> ->] | Hin]; [|auto].
    right. exists kv. auto.
  - right. exists kv'. auto.
Qed.

Lemma set_length {V} (d : dict V) k v :
  (List.length (Dict.set d k v) <= S (List.length d))%nat.
Proof.
  induction d as [|[k0 v0] d IH]; simpl; [lia|].
  destruct (String.eqb k k0); simpl; lia.
Qed.

Lemma fold_set_length {V W} (f : string * V -> W) (l : list (string * V)) :
  forall acc : dict W,
    (List.length (fold_left (fun d kv => Dict.set d (fst kv) (f kv)) l acc)
     <= List.length acc + List.length l)%nat.
Proof.
  induction l as [|kv l IH]; intros acc; simpl; [lia|].
  specialize (IH (Dict.set acc (fst kv) (f kv))).
  pose proof (set_length acc (fst kv) (f kv)). lia.
Qed.

Section Discovery.

Variable urlopen : string -> result Response.
Variable findAll_option_divs : string -> list OptionDiv.
Variable parse : string -> result date.
Variable strftime : date -> string.

Lemma collect_dates_In texts :
  forall acc ds,
    collect_dates parse texts acc = Ok ds ->
    (List.length ds <= List.length acc + List.length texts)%nat /\
    forall d, In d ds ->
      In d acc \/ exists t, In t texts /\ parse t = Ok d.
Proof.
  induction texts as [|t texts IH]; intros acc ds; simpl.
  - intros [= <-]. split; [lia | auto].
  - destruct (parse t) as [d0|e] eqn:Hp; simpl.
    + intros H. destruct (IH _ _ H) as [Hlen Hin].
      rewrite length_app in Hlen. simpl in Hlen. split; [lia|].
      intros d Hd. destruct (Hin d Hd) as [Ha | (t' & Ht' & Hp')].
      * apply in_app_or in Ha. destruct Ha as [Ha | [<- | []]]; [auto|].
        right. exists t. auto.
      * right. exists t'. auto.
    + destruct (index_key_value e); simpl; [|discriminate].
      intros H. destruct (IH _ _ H) as [Hlen Hin]. split; [lia|].
      intros d Hd. destruct (Hin d Hd) as [Ha | (t' & Ht' & Hp')]; [auto|].
      right. exists t'. auto.
Qed.

Lemma map_result_In {A B} (f : A -> result B) l :
  forall bs, map_result f l = Ok bs ->
    forall b, In b bs -> exists a, In a l /\ f a = Ok b.
Proof.
  induction l as [|a l IH]; simpl.
  - intros bs [= <-] b [].
  - destruct (f a) as [b0|e] eqn:Hf; simpl; [|discriminate].
    destruct (map_result f l) as [bs0|e]; simpl; [|discriminate].
    intros bs [= <-] b [<- | Hb].
    + exists a. auto.
    + destruct (IH bs0 eq_refl b Hb) as (a' & Ha' & Hf'). exists a'. auto.
Qed.

Lemma getitem_Some_get {V} (d : dict V) k v :
  Dict.getitem d k = Ok v -> Dict.get d k = Some v.
Proof.
  unfold Dict.getitem. destruct (Dict.get d k); [intros [= ->]|]; easy.
Qed.

(** X19.  Whatever the date picker holds, when discovery returns a URL
    map: its dates are distinct, it has at most one entry per picker entry,
    every date is the formatted date of a picker entry that parsed, and
    every URL is the page URL of the ticker for a token of ten digits
    carried by a picker entry - not necessarily the same entry. *)
Theorem url_dict_entries tkr soup urls :
  build_url_dict parse strftime tkr soup = Ok urls ->
  NoDup (Dict.keys urls) /\
  (List.length urls <= List.length soup)%nat /\
  forall input_date url,
    In (input_date, url) urls ->
    exists a d a' tok,
      In a soup /\ parse (get_text a) = Ok d /\ input_date = strftime d /\
      In a' soup /\ Dict.get (attrs a') "data-value" = Some tok /\
      valid_page tok = true /\ url = option_url tkr tok.
Proof.
  intros Hb. split; [|split].
  - exact (build_url_dict_keys parse strftime _ _ _ Hb).
  - revert Hb. unfold build_url_dict.
    destruct (collect_dates parse (map get_text soup) []) as [ds|e] eqn:Hc;
      simpl; [|discriminate].
    destruct (map_result _ soup) as [toks|e]; simpl; [|discriminate].
    intros [= <-].
    pose proof (fold_set_length (fun kv : string * string => option_url tkr (snd kv))
                  (Dict.items (Dict.of_pairs
                     (combine (map strftime ds) (filter valid_page toks))))
                  Dict.empty) as H1.
    pose proof (fold_set_length (fun kv : string * string => snd kv)
                  (combine (map strftime ds) (filter valid_page toks))
                  Dict.empty) as H2.
    destruct (collect_dates_In _ _ _ Hc) as [Hlen _].
    rewrite length_combine, length_map in H2. rewrite length_map in Hlen.
    unfold Dict.items, Dict.of_pairs, Dict.empty in *. simpl in *. lia.
  - intros input_date url Hin. revert Hb Hin. unfold build_url_dict.
    destruct (collect_dates parse (map get_text soup) []) as [ds|e] eqn:Hc;
      simpl; [|discriminate].
    destruct (map_result _ soup) as [toks|e] eqn:Hm; simpl; [|discriminate].
    intros [= <-] Hin.
    apply (fold_set_In (fun kv : string * string => option_url tkr (snd kv)))
      in Hin.
    destruct Hin as [[] | ([k tok] & Hin & Hk & Hu)]. simpl in Hk, Hu. subst.
    unfold Dict.items, Dict.of_pairs in Hin.
    apply (fold_set_In (fun kv : string * string => snd kv)) in Hin.
    destruct Hin as [[] | ([k' tok'] & Hin & Hk & Hu)]. simpl in Hk, Hu. subst.
    pose proof (in_combine_l _ _ _ _ Hin) as Hl.
    pose proof (in_combine_r _ _ _ _ Hin) as Hr.
    apply in_map_iff in Hl. destruct Hl as (d & <- & Hd).
    apply filter_In in Hr. destruct Hr as [Htok Hvalid].
    destruct (collect_dates_In _ _ _ Hc) as [_ Hds].
    destruct (Hds d Hd) as [[] | (t & Ht & Hp)].
    apply in_map_iff in Ht. destruct Ht as (a & <- & Ha).
    destruct (map_result_In _ _ _ Hm _ Htok) as (a' & Ha' & Hg).
    exists a, d, a', tok'. repeat split; auto using getitem_Some_get.
Qed.

Lemma build_url_dict_no_token tkr soup :
  (forall a e, In a soup -> parse (get_text a) = Raise e ->
               index_key_value e = true) ->
  (exists a, In a soup /\ Dict.get (attrs a) "data-value" = None) ->
  build_url_dict parse strftime tkr soup = Raise KeyError.
Proof.
  intros Hh (a & Ha & Hnone). unfold build_url_dict.
  rewrite collect_dates_handled.
  2:{ intros t e Ht. apply in_map_iff in Ht. destruct Ht as (a0 & <- & Ha0).
      eauto. }
  simpl.
  assert (Hm : map_result (fun a => Dict.getitem (attrs a) "data-value") soup
               = Raise KeyError).
  { clear Hh. induction soup as [|a0 soup' IH]; [destruct Ha|]. simpl.
    unfold Dict.getitem at 1.
    destruct (Dict.get (attrs a0) "data-value") as [tok|] eqn:Hg; simpl;
      [|reflexivity].
    destruct Ha as [-> | Ha]; [congruence|].
    rewrite (IH Ha). reflexivity. }
  rewrite Hm. reflexivity.
Qed.

(** X20.  The date texts are parsed under a handler, the page tokens are
    not: one picker entry without a 'data-value' attribute makes discovery
    raise [KeyError], whatever the other entries hold.  The root page has
    then been requested and stored in [html_doc], and [url_dict] is still
    the one of the previous run. *)
Theorem missing_token_aborts_discovery s root html :
  urlopen (root_url (ticker (params s))) = Ok root ->
  text root = Ok html ->
  (forall a e, In a (findAll_option_divs html) ->
               parse (get_text a) = Raise e -> index_key_value e = true) ->
  (exists a, In a (findAll_option_divs html) /\
             Dict.get (attrs a) "data-value" = None) ->
  _extracturls urlopen findAll_option_divs parse strftime s
  = (Raise KeyError,
     mkCtx (with_html_doc html (params s)) (tables s)
       (effects s ++ [HttpOpen (root_url (ticker (params s)))])).
Proof.
  intros Hr Ht Hh Hno.
  pose proof (build_url_dict_no_token (ticker (params s)) _ Hh Hno) as Hb.
  unfold _extracturls, root_url in *.
  run_unfold. simpl in *.
  rewrite Hr. simpl. rewrite Ht. simpl. rewrite Hb. simpl. reflexivity.
Qed.

End Discovery.

(** ** Precomputed-data path, continued *)

Section PrecomputedPath.

Variable yf_Ticker : string -> Ticker.
Variable to_datetime : string -> result date.
Variable DataPrep_transform : Params * Tables -> result (Params * Tables).
Variable DataPrep_combine : Params * Tables -> result (Params * Tables).

Local Notation "'init_data'" :=
  (Volatility_init_data yf_Ticker to_datetime DataPrep_transform
     DataPrep_combine).
Local Notation "'downstream'" :=
  (PyM.bind (stage DataPrep_transform) (fun _ => stage DataPrep_combine)).

Lemma selected_rate_set p df :
  (if discount_type p =? "smooth"
   then setitem_from df "Discount Rate" "Smooth Discount Rate"
   else setitem_from df "Discount Rate" "Direct Discount Rate")
  = if has_column df (selected_discount_column p)
    then Ok (with_selected_rate p df)
    else Raise KeyError.
Proof.
  unfold with_selected_rate, selected_discount_column, setitem_from.
  destruct (discount_type p =? "smooth"); reflexivity.
Qed.

Lemma select_canonical p df :
  select (with_selected_rate p df) canonical_columns
  = if forallb (has_column df) supplied_columns
    then Ok (mkDataFrame canonical_columns
               (map (fun r => projected_row r
                                (cell_at r (selected_discount_column p)))
                    (rows df)))
    else Raise KeyError.
Proof.
  unfold select.
  assert (H : forallb (has_column (with_selected_rate p df)) canonical_columns
              = forallb (has_column df) supplied_columns).
  { unfold canonical_columns, supplied_columns, with_selected_rate.
    cbn [forallb]. rewrite !has_column_add.
    rewrite String.eqb_refl, orb_true_r.
    repeat match goal with
           | |- context [?a =? ?b] =>
               change (a =? b) with false
           end.
    rewrite !orb_false_r, !andb_true_r. rewrite !andb_assoc, ?andb_true_r. reflexivity. }
  rewrite H. destruct (forallb _ supplied_columns); [|reflexivity].
  unfold with_selected_rate. cbn [rows]. rewrite map_map. reflexivity.
Qed.

Lemma init_data_precomputed_run s df :
  precomputed_data (params s) = Some df ->
  init_data s
  = if has_column df (selected_discount_column (params s)) then
      let df' := with_selected_rate (params s) df in
      let p1 := with_precomputed_data (Some df') (params s) in
      if has_column df "Spot Price" then
        match rows df with
        | [] => (Raise IndexError, mkCtx p1 (tables s) (effects s))
        | r :: _ =>
            let p2 := with_extracted_spot (Some (cell_at r "Spot Price")) p1 in
            if forallb (has_column df) supplied_columns then
              downstream
                (mkCtx p2
                   (mkTables
                      (mkDataFrame canonical_columns
                         (map (fun r =>
                                 projected_row r
                                   (cell_at r (selected_discount_column
                                                 (params s))))
                              (rows df))))
                   (effects s))
            else (Raise KeyError, mkCtx p2 (tables s) (effects s))
        end
      else (Raise KeyError, mkCtx p1 (tables s) (effects s))
    else (Raise KeyError, s).
Proof.
  intros Hpre.
  unfold Volatility_init_data, process_df_option_data, params_precomputed_data.
  unfold PyM.bind at 1. unfold PyM.get_params at 1. cbn [fst snd params].
  rewrite Hpre, selected_rate_set.
  destruct (has_column df (selected_discount_column (params s))) eqn:Hsel;
    [|reflexivity].
  unfold PyM.bind, PyM.lift, PyM.modify_params, PyM.get_params,
    PyM.set_full_data.
  cbn [fst snd params tables effects precomputed_data with_precomputed_data
       with_extracted_spot].
  unfold getitem at 1. unfold with_selected_rate at 1.
  rewrite has_column_add.
  change ("Spot Price" =? "Discount Rate") with false. rewrite orb_false_r.
  destruct (has_column df "Spot Price") eqn:Hspot; [|reflexivity].
  cbn [Res.bind]. unfold with_selected_rate at 1. cbn [rows].
  destruct (rows df) as [|r rs] eqn:Hrows; [reflexivity|].
  cbn [map iloc0]. rewrite cell_at_set_other by discriminate.
  cbn [fst snd params tables effects precomputed_data with_precomputed_data
       with_extracted_spot].
  rewrite select_canonical.
  destruct (forallb (has_column df) supplied_columns); [|reflexivity].
  rewrite Hrows. reflexivity.
Qed.


(** X21.  The precomputed path reads, in this order, the rate column
    the discount-type flag selects, the 'Spot Price' column, the first row,
    and the eleven other canonical columns; the first that is missing
    decides the outcome.  Without the selected rate column the run raises
    [KeyError] and changes nothing; without 'Spot Price' it raises
    [KeyError], and without rows [IndexError], with the Discount Rate
    already set on the supplied table; without one of the eleven columns it
    raises [KeyError] with the spot price already extracted and no table
    produced.  Otherwise the canonical table goes to the downstream stages:
    the rate column that the flag does not select is never read. *)
Theorem precomputed_path_outcomes s df :
  precomputed_data (params s) = Some df ->
  (has_column df (selected_discount_column (params s)) = false ->
   init_data s = (Raise KeyError, s)) /\
  (has_column df (selected_discount_column (params s)) = true ->
   (has_column df "Spot Price" = false ->
    init_data s
    = (Raise KeyError,
       mkCtx (with_precomputed_data
                (Some (with_selected_rate (params s) df)) (params s))
         (tables s) (effects s))) /\
   (has_column df "Spot Price" = true -> rows df = [] ->
    init_data s
    = (Raise IndexError,
       mkCtx (with_precomputed_data
                (Some (with_selected_rate (params s) df)) (params s))
         (tables s) (effects s))) /\
   (forall r rs,
       has_column df "Spot Price" = true -> rows df = r :: rs ->
       forallb (has_column df) supplied_columns = false ->
       init_data s
       = (Raise KeyError,
          mkCtx (with_extracted_spot (Some (cell_at r "Spot Price"))
                   (with_precomputed_data
                      (Some (with_selected_rate (params s) df)) (params s)))
            (tables s) (effects s))) /\
   (forall r rs,
       has_column df "Spot Price" = true -> rows df = r :: rs ->
       forallb (has_column df) supplied_columns = true ->
       init_data s
       = downstream
           (mkCtx (with_extracted_spot (Some (cell_at r "Spot Price"))
                     (with_precomputed_data
                        (Some (with_selected_rate (params s) df)) (params s)))
              (mkTables
                 (mkDataFrame canonical_columns
                    (map (fun r =>
                            projected_row r
                              (cell_at r (selected_discount_column (params s))))
                         (rows df))))
              (effects s)))).
Proof.
  intros Hpre. rewrite (init_data_precomputed_run s df Hpre). cbv zeta.
  split.
  - intros ->. reflexivity.
  - intros ->. split; [|split; [|split]].
    + intros ->. reflexivity.
    + intros -> ->. reflexivity.
    + intros r rs -> -> ->. reflexivity.
    + intros r rs -> -> ->. reflexivity.
Qed.

End PrecomputedPath.

(** ** Trading calendar, continued *)

(** X22.  The comprehension that builds the custom rule table is the
    slice of the version it replaced, [rules[0:6] + rules[8:]]: the rules
    keep their order, and a table of at most six rules is kept whole. *)
Theorem custom_rules_are_a_slice (Holiday : Type) (rules : list Holiday) :
  CustomTradingCalendar_rules Holiday rules = firstn 6 rules ++ skipn 8 rules /\
  ((List.length rules <= 6)%nat -> CustomTradingCalendar_rules Holiday rules = rules).
Proof.
  assert (H : CustomTradingCalendar_rules Holiday rules
              = firstn 6 rules ++ skipn 8 rules).
  { unfold CustomTradingCalendar_rules.
    do 8 (destruct rules as [|? rules]; [reflexivity|]).
    cbn -[filter_enumerate].
    cbn [filter_enumerate Nat.eqb negb andb].
    rewrite filter_enumerate_keep_all by (intros j; reflexivity).
    reflexivity. }
  split; [exact H|].
  intros Hlen. rewrite H.
  rewrite firstn_all2 by exact Hlen.
  rewrite skipn_all2 by lia. apply app_nil_r.
Qed.

(** ** The graph and report methods of [Volatility] *)

Section VolatilityFacts.

Variables GraphDict VolDict Outside : Type.
Variables line_graph scatter_3d surface_3d
  : collaborator Outside GraphDict.
Variable get_vol : string -> Z -> collaborator Outside Q.
Variable create_vol_dict : collaborator Outside VolDict.

Local Notation "'Obj'" := (Volatility GraphDict VolDict Outside).
Local Notation "'visualize_'" :=
  (visualize line_graph scatter_3d surface_3d).
Local Notation "'data_'" := (data line_graph scatter_3d surface_3d).

Lemma update_params_run kwargs (o : Obj) :
  update_params kwargs o
  = (Ok tt, mkVolatility (updated kwargs (self_params o)) (self_data_dict o)
              (self_vol_dict o) (outside o) (calls o)).
Proof.
  unfold update_params, Dict.items, updated.
  revert o. induction kwargs as [|kv kwargs IH]; intros o; simpl.
  - destruct o; reflexivity.
  - unfold PyM.bind. unfold set_param at 1. rewrite IH. reflexivity.
Qed.

Lemma param_is_run key s (o : Obj) v :
  Dict.get (self_params o) key = Some v ->
  param_is key s o = (Ok (setting_is v s), o).
Proof.
  intros H. unfold param_is, get_param, PyM.bind, PyM.ret, Dict.getitem.
  rewrite H. reflexivity.
Qed.

(** X23.  With graphtype 'surface', [visualize] draws the 'trisurf'
    surface only: for any other surface type - 'mesh', the documented
    default, included - it calls no builder and stores nothing; the keyword
    arguments are written to the settings and that is all. *)
Theorem surface_other_than_trisurf_is_not_drawn kwargs (o : Obj) g t :
  Dict.get (updated kwargs (self_params o)) "graphtype" = Some g ->
  setting_is g "surface" = true ->
  Dict.get (updated kwargs (self_params o)) "surfacetype" = Some t ->
  setting_is t "trisurf" = false ->
  visualize_ kwargs o
  = (Ok tt, mkVolatility (updated kwargs (self_params o)) (self_data_dict o)
              (self_vol_dict o) (outside o) (calls o)).
Proof.
  intros Hg Hs Ht Hn. unfold visualize.
  unfold PyM.bind at 1. rewrite update_params_run.
  assert (Hl : setting_is g "line" = false).
  { destruct g; try discriminate. simpl in *.
    apply String.eqb_eq in Hs. subst. reflexivity. }
  assert (Hsc : setting_is g "scatter" = false).
  { destruct g; try discriminate. simpl in *.
    apply String.eqb_eq in Hs. subst. reflexivity. }
  repeat (unfold PyM.bind at 1;
          first [ rewrite (param_is_run "graphtype" _ _ g) by exact Hg
                | rewrite (param_is_run "surfacetype" _ _ t) by exact Ht ];
          rewrite ?Hl, ?Hsc, ?Hs, ?Hn).
  reflexivity.
Qed.


Lemma param_is_missing key s (o : Obj) :
  Dict.get (self_params o) key = None ->
  param_is key s o = (Raise KeyError, o).
Proof.
  intros H. unfold param_is, get_param, PyM.bind, PyM.ret, Dict.getitem.
  rewrite H. reflexivity.
Qed.

(** [self.data_dict[key] = f(params=self.params, ...)] *)
Lemma call_store name (f : collaborator Outside GraphDict) key (o : Obj) :
  (x <- call name f ;; set_data key x)%py o
  = (match fst (f (self_params o, outside o)) with
     | Ok _ => Ok tt
     | Raise e => Raise e
     end,
     mkVolatility (fst (snd (f (self_params o, outside o))))
       (match fst (f (self_params o, outside o)) with
        | Ok x => Dict.set (self_data_dict o) key x
        | Raise _ => self_data_dict o
        end)
       (self_vol_dict o) (snd (snd (f (self_params o, outside o))))
       (calls o ++ [mkCall name (self_params o)])).
Proof.
  unfold PyM.bind, call, set_data.
  destruct (f (self_params o, outside o)) as [[x|e] [p w]]; reflexivity.
Qed.

Ltac vis_step Hg Ht :=
  first
    [ rewrite call_store
    | unfold PyM.bind at 1;
      first [ rewrite (param_is_run "graphtype" _ _ _ Hg)
            | rewrite (param_is_run "surfacetype" _ _ _ Ht)
            | rewrite (param_is_missing "graphtype" _ _ Hg)
            | rewrite (param_is_missing "surfacetype" _ _ Ht) ] ].

(** X24.  The surface types from 'mesh' on are tested in the outer chain
    of [visualize]: they are reached when the graph type is none of 'line',
    'scatter' and 'surface', and then the surface builder is called and its
    result stored under the key of the surface type. *)
Theorem unknown_graphtype_draws_a_surface kwargs (o : Obj) g t key :
  Dict.get (updated kwargs (self_params o)) "graphtype" = Some g ->
  setting_is g "line" = false ->
  setting_is g "scatter" = false ->
  setting_is g "surface" = false ->
  In (t, key) outer_surface_types ->
  Dict.get (updated kwargs (self_params o)) "surfacetype" = Some (SStr t) ->
  visualize_ kwargs o
  = (x <- call "surface_3d" surface_3d ;; set_data key x)%py
      (mkVolatility (updated kwargs (self_params o)) (self_data_dict o)
         (self_vol_dict o) (outside o) (calls o)).
Proof.
  intros Hg Hl Hsc Hs Hin Ht. unfold visualize.
  unfold PyM.bind at 1. rewrite update_params_run.
  unfold outer_surface_types in Hin. simpl in Hin.
  repeat (destruct Hin as [[= <- <-] | Hin];
    [ repeat (unfold PyM.bind at 1;
              first [ rewrite (param_is_run "graphtype" _ _ g) by exact Hg
                    | rewrite (param_is_run "surfacetype" _ _ _) by exact Ht ];
              rewrite ?Hl, ?Hsc, ?Hs; cbn [setting_is String.eqb Ascii.eqb Bool.eqb]);
      reflexivity | ]).
  destruct Hin.
Qed.



Lemma set_param_step {A} key value (k : unit -> VM GraphDict VolDict Outside A)
  (o : Obj) :
  PyM.bind (set_param key value) k o
  = k tt (mkVolatility (Dict.set (self_params o) key value) (self_data_dict o)
            (self_vol_dict o) (outside o) (calls o)).
Proof. reflexivity. Qed.

Lemma set_data_step {A} key value (k : unit -> VM GraphDict VolDict Outside A)
  (o : Obj) :
  PyM.bind (set_data key value) k o
  = k tt (mkVolatility (self_params o)
            (Dict.set (self_data_dict o) key value)
            (self_vol_dict o) (outside o) (calls o)).
Proof. reflexivity. Qed.

Lemma call_step {A B} name (f : collaborator Outside A)
  (k : A -> VM GraphDict VolDict Outside B) (o : Obj) :
  PyM.bind (call name f) k o
  = match f (self_params o, outside o) with
    | (Ok x, pw) =>
        k x (mkVolatility (fst pw) (self_data_dict o) (self_vol_dict o)
               (snd pw) (calls o ++ [mkCall name (self_params o)]))
    | (Raise e, pw) =>
        (Raise e,
         mkVolatility (fst pw) (self_data_dict o) (self_vol_dict o) (snd pw)
           (calls o ++ [mkCall name (self_params o)]))
    end.
Proof.
  unfold PyM.bind, call.
  destruct (f (self_params o, outside o)) as [[x|e] pw]; reflexivity.
Qed.

Ltac data_step :=
  first
    [ rewrite set_param_step
    | rewrite set_data_step
    | rewrite call_step;
      cbn [self_params self_data_dict self_vol_dict outside calls];
      match goal with
      | |- context [match ?f (?p, ?w) with _ => _ end] =>
          let x := fresh "x" in let e := fresh "e" in
          let p' := fresh "p" in let w' := fresh "w" in
          destruct (f (p, w)) as [[x|e] [p' w']]
      end ];
  cbn [fst snd self_params self_data_dict self_vol_dict outside calls].



Local Notation "'skewreport_'" := (skewreport create_vol_dict).
Local Notation "'vol_'" := (vol get_vol).

Lemma unless_None_step {A} key value
  (k : unit -> VM GraphDict VolDict Outside A) (o : Obj) :
  PyM.bind (set_param_unless_None key value) k o
  = k tt (mkVolatility
            (if is_not_None value then Dict.set (self_params o) key value
             else self_params o)
            (self_data_dict o) (self_vol_dict o) (outside o) (calls o)).
Proof.
  unfold set_param_unless_None, PyM.when, PyM.bind, set_param, PyM.ret.
  destruct (is_not_None value); [reflexivity|]. destruct o; reflexivity.
Qed.

(** X27.  [skewreport] passes to the report builder the stored settings
    with each of its four arguments written over them unless it is [None],
    and no other setting changed; the report is stored when the builder
    returns, and the former one is kept when it raises.  In particular the
    defaults [True] of smoothing and smooth_type_svi replace what was
    stored. *)
Theorem skewreport_writes_its_arguments months direction smoothing
  smooth_type_svi (o : Obj) :
  exists c,
    calls (snd (skewreport_ months direction smoothing smooth_type_svi o))
    = calls o ++ [c] /\
    callee c = "create_vol_dict" /\
    (forall key value,
        In (key, value)
           (skewreport_settings months direction smoothing smooth_type_svi) ->
        Dict.get (passed c) key
        = if is_not_None value then Some value
          else Dict.get (self_params o) key) /\
    (forall key,
        ~ In key (map fst (skewreport_settings months direction smoothing
                             smooth_type_svi)) ->
        Dict.get (passed c) key = Dict.get (self_params o) key) /\
    self_vol_dict (snd (skewreport_ months direction smoothing
                          smooth_type_svi o))
    = match fst (create_vol_dict (passed c, outside o)) with
      | Ok vol_dict => Some vol_dict
      | Raise _ => self_vol_dict o
      end.
Proof.
  pattern (skewreport_ months direction smoothing smooth_type_svi o).
  match goal with |- ?Q _ => set (P := Q) end.
  unfold skewreport. rewrite !unless_None_step, call_step.
  cbn [fst snd self_params self_data_dict self_vol_dict outside calls].
  subst P. cbv beta.
  eexists (mkCall "create_vol_dict" _).
  split.
  { destruct (create_vol_dict _) as [[v|e] [p w]]; reflexivity. }
  split; [reflexivity|]. cbn [passed].
  split; [|split].
  - intros key value Hin. unfold skewreport_settings in Hin. simpl in Hin.
    destruct Hin as [[= <- <-] | [[= <- <-] | [[= <- <-] | [[= <- <-] | []]]]];
      destruct (is_not_None months), (is_not_None direction),
               (is_not_None smoothing), (is_not_None smooth_type_svi);
      rewrite ?get_set_same;
      repeat (rewrite get_set_other by discriminate; rewrite ?get_set_same);
      reflexivity.
  - intros key Hn. simpl in Hn.
    assert (H1 : key <> "skew_months") by (intros ->; apply Hn; auto).
    assert (H2 : key <> "skew_direction") by (intros ->; apply Hn; auto).
    assert (H3 : key <> "smoothing") by (intros ->; apply Hn; auto).
    assert (H4 : key <> "smooth_type_svi") by (intros ->; apply Hn; tauto).
    destruct (is_not_None months), (is_not_None direction),
             (is_not_None smoothing), (is_not_None smooth_type_svi);
      rewrite ?get_set_other by assumption; reflexivity.
  - destruct (create_vol_dict _) as [[v|e] [p w]]; reflexivity.
Qed.


End VolatilityFacts.

(** ** Sample runs *)



Lemma one_chain_fetch_per_expiry_witness :
  exists fetched rest,
    ["2025-03-21"; "next week"] = fetched ++ rest /\
    effects (snd (get_option_data Sample2.two_expiries Sample.to_datetime
                    Sample.ctx0))
    = ProviderInfo "SPY" :: ProviderOptions "SPY" :: map ProviderChain fetched.
Proof.
  destruct (one_chain_fetch_per_expiry Sample2.two_expiries Sample.to_datetime
              Sample.ctx0 _ eq_refl)
    as (fetched & rest & Hsplit & Heff & _).
  exists fetched, rest. split; [exact Hsplit | exact Heff].
Defined.

Lemma failed_expiries_are_expiries_witness :
  NoDup (opt_except_list
           (params (snd (get_option_data Sample2.two_expiries
                           Sample.to_datetime Sample.ctx0)))).
Proof.
  apply (proj2 (failed_expiries_are_expiries Sample2.two_expiries
                  Sample.to_datetime Sample.ctx0)).
  simpl. repeat constructor; simpl; intuition discriminate.
Defined.

Lemma run_starts_clean_witness :
  same_results
    (snd (get_option_data Sample2.two_expiries Sample.to_datetime Sample.ctx0))
    (snd (get_option_data Sample2.two_expiries Sample.to_datetime
            Sample2.ctx_used)).
Proof.
  exact (proj2 (run_starts_clean Sample2.two_expiries Sample.to_datetime
                  Sample.ctx0 Sample2.ctx_used eq_refl)).
Defined.

Lemma normalizer_is_idempotent_on_the_table_witness :
  rename (full_data (tables (snd (Sample.api_run (Ok Sample.five_calls)
                                                 (Ok Sample.three_puts)))))
    canonical_name
  = full_data (tables (snd (Sample.api_run (Ok Sample.five_calls)
                                           (Ok Sample.three_puts)))).
Proof.
  exact (proj2 (normalizer_is_idempotent_on_the_table
                  (Sample.one_expiry Sample.quote_mid (Ok Sample.five_calls)
                     (Ok Sample.three_puts))
                  Sample.to_datetime Sample.ctx0) eq_refl).
Defined.

Lemma legacy_fragments_witness :
  rows (full_data (tables (snd (_process_options_body Sample.to_datetime
                                  "2025-03-21" LegacySample.ctx_pages))))
  = rows (stamped Sample.legacy_calls "call" 739331%Z)
      ++ rows (stamped LegacySample.legacy_puts "put" 739331%Z) /\
  rows (full_data (tables (snd (_process_options_body Sample.to_datetime
                                  "2025-04-18" LegacySample.ctx_pages))))
  = rows (stamped Sample.legacy_calls "call" 739359%Z).
Proof.
  split.
  - destruct (proj2 (legacy_fragments Sample.to_datetime "2025-03-21"
                       739331%Z LegacySample.ctx_pages eq_refl)
                Sample.legacy_calls LegacySample.legacy_puts []
                eq_refl eq_refl eq_refl)
      as (_ & Hrows & _).
    exact Hrows.
  - destruct (proj1 (legacy_fragments Sample.to_datetime "2025-04-18"
                       739359%Z LegacySample.ctx_pages eq_refl)
                Sample.legacy_calls eq_refl eq_refl)
      as (_ & Hrows & _).
    exact Hrows.
Defined.

Lemma legacy_skips_a_page_witness :
  fst (_process_options_body Sample.to_datetime "2025-06-20"
         LegacySample.ctx_pages) = Ok tt /\
  full_data (tables (snd (_process_options_body Sample.to_datetime
                            "2025-06-20" LegacySample.ctx_pages)))
  = empty_frame /\
  opt_except_list (params (snd (_process_options_body Sample.to_datetime
                                  "2025-06-20" LegacySample.ctx_pages)))
  = [].
Proof.
  exact (legacy_skips_a_page Sample.to_datetime "2025-06-20"
           LegacySample.float_strikes [LegacySample.legacy_puts]
           (CFloat (201 # 2)) LegacySample.ctx_pages
           eq_refl eq_refl eq_refl).
Defined.

Lemma legacy_uncaught_errors_witness :
  fst (_process_options_body Sample.to_datetime "2025-07-18"
         LegacySample.ctx_pages) = Raise KeyError /\
  fst (_process_options_body Sample.to_datetime "next week"
         LegacySample.ctx_pages) = Raise ValueError.
Proof.
  split.
  - exact (proj1 (proj1 (legacy_uncaught_errors Sample.to_datetime
                           "2025-07-18" LegacySample.no_strike_column []
                           LegacySample.ctx_pages eq_refl)
                    KeyError eq_refl)).
  - exact (proj1 (proj2 (legacy_uncaught_errors Sample.to_datetime
                           "next week" Sample.legacy_calls []
                           LegacySample.ctx_pages eq_refl)
                    ValueError eq_refl (or_introl eq_refl) eq_refl eq_refl)).
Defined.

Lemma legacy_page_outcomes_witness :
  opt_except_list
    (params (snd (_process_options_body Sample.to_datetime "2025-05-16"
                    LegacySample.ctx_pages))) = [] \/
  Dict.get LegacySample.pages "2025-05-16" = Some [] /\
  opt_except_list
    (params (snd (_process_options_body Sample.to_datetime "2025-05-16"
                    LegacySample.ctx_pages))) = ["2025-05-16"] /\
  full_data
    (tables (snd (_process_options_body Sample.to_datetime "2025-05-16"
                    LegacySample.ctx_pages))) = empty_frame.
Proof.
  refine (proj1 (legacy_page_outcomes Sample.to_datetime "2025-05-16"
                   LegacySample.ctx_pages _)).
  intros e H. vm_compute in H. injection H as <-. reflexivity.
Defined.

Lemma page_fetch_pass_witness :
  _extract_web_data Sample.urlopen_march_unreadable
    (LegacySample.ctx_urls LegacySample.urls (-1))
  = (Ok [("2025-04-18", "<html>")],
     mkCtx (params (LegacySample.ctx_urls LegacySample.urls (-1)))
       (mkTables empty_frame)
       [HttpOpen Sample.march_url; Sleep 5;
        HttpOpen Sample.april_url; Sleep 5]).
Proof.
  refine (proj1 (page_fetch_pass Sample.urlopen_march_unreadable
                   (LegacySample.ctx_urls LegacySample.urls (-1)) _ _)).
  - intros kv [<- | [<- | []]]; eexists; (split; [reflexivity|]);
      intros e H; simpl in H; try discriminate H.
    injection H as <-. reflexivity.
  - simpl. repeat constructor; simpl; intuition discriminate.
Defined.

Lemma page_open_failure_stops_fetching_witness :
  _extract_web_data Sample.urlopen_march_down
    (LegacySample.ctx_urls
       (LegacySample.urls_april_first ++ [("2025-05-16", "later")]) 2)
  = (Raise ConnectionError,
     mkCtx (params (LegacySample.ctx_urls
                      (LegacySample.urls_april_first
                       ++ [("2025-05-16", "later")]) 2))
       (mkTables empty_frame)
       [HttpOpen Sample.april_url; Sleep 2; HttpOpen Sample.march_url]).
Proof.
  refine (page_open_failure_stops_fetching Sample.urlopen_march_down
            (LegacySample.ctx_urls
               (LegacySample.urls_april_first ++ [("2025-05-16", "later")]) 2)
            [("2025-04-18", Sample.april_url)] "2025-03-21" Sample.march_url
            [("2025-05-16", "later")] ConnectionError eq_refl _ eq_refl).
  intros kv [<- | []]. eexists. split; [reflexivity|].
  intros e H. discriminate H.
Defined.

Lemma page_read_pass_witness :
  _read_web_data LegacySample.read_html
    (LegacySample.ctx_fetched
       [("2025-03-21", "<html>"); ("2025-04-18", "no tables")])
  = (Ok tt,
     mkCtx (with_url_except_dict [("2025-04-18", Sample.april_url)]
              (with_option_dict [("2025-03-21", [Sample.legacy_calls])]
                 (params (LegacySample.ctx_fetched
                            [("2025-03-21", "<html>");
                             ("2025-04-18", "no tables")]))))
       (mkTables empty_frame) []).
Proof.
  refine (proj1 (page_read_pass LegacySample.read_html
                   (LegacySample.ctx_fetched
                      [("2025-03-21", "<html>"); ("2025-04-18", "no tables")])
                   _ _)).
  - intros kv [<- | [<- | []]]; eexists; (split; [reflexivity|]);
      intros e H; simpl in H; try discriminate H.
    injection H as <-. reflexivity.
  - simpl. repeat constructor; simpl; intuition discriminate.
Defined.

Lemma unread_page_aborts_reader_witness :
  fst (_read_web_data LegacySample.read_html
         (LegacySample.ctx_fetched [("2025-04-18", "<html>")]))
  = Raise KeyError.
Proof.
  refine (unread_page_aborts_reader LegacySample.read_html
            (LegacySample.ctx_fetched [("2025-04-18", "<html>")])
            "2025-03-21" Sample.march_url (or_introl eq_refl) eq_refl _).
  intros page e H. unfold LegacySample.read_html in H.
  destruct (page =? "<html>"); [discriminate H|].
  injection H as <-. reflexivity.
Defined.

Lemma legacy_run_stages_witness :
  Sample.legacy_run Sample.urlopen_up
  = _process_options Sample.to_datetime
      (legacy_entry Sample.urlopen_up Sample.read_html "<html>"
         LegacySample.urls Sample.ctx0).
Proof.
  refine (legacy_run_stages Sample.urlopen_up Sample.findAll_option_divs
            Sample.parse Sample.strftime Sample.read_html Sample.to_datetime
            Sample.ctx0 (mkResponse (Ok "<html>")) "<html>" LegacySample.urls
            eq_refl eq_refl eq_refl _).
  intros kv [<- | [<- | []]]; eexists; (split; [reflexivity|]);
    intros e H; discriminate H.
Defined.

Lemma legacy_failed_dates_witness :
  In "2025-05-16" (date_list (params LegacySample.ctx_pages)) /\
  Dict.get (option_dict (params LegacySample.ctx_pages)) "2025-05-16"
  = Some [].
Proof.
  refine (proj1 (legacy_failed_dates Sample.to_datetime
                   LegacySample.ctx_pages _) "2025-05-16" _).
  - intros d' e _ H. unfold Sample.to_datetime in H.
    destruct (d' =? "2025-03-21"); [discriminate H|].
    destruct (d' =? "2025-04-18"); [discriminate H|].
    injection H as <-. reflexivity.
  - vm_compute. left. reflexivity.
Defined.

Lemma url_dict_entries_witness :
  exists a d a' tok,
    In a [Sample.march; Sample.april] /\
    Sample.parse (get_text a) = Ok d /\
    "2025-04-18" = Sample.strftime d /\
    In a' [Sample.march; Sample.april] /\
    Dict.get (attrs a') "data-value" = Some tok /\
    valid_page tok = true /\ Sample.april_url = option_url "SPY" tok.
Proof.
  refine (proj2 (proj2 (url_dict_entries Sample.parse Sample.strftime "SPY"
                          [Sample.march; Sample.april] LegacySample.urls
                          eq_refl))
            "2025-04-18" Sample.april_url _).
  right. left. reflexivity.
Defined.

Lemma missing_token_aborts_discovery_witness :
  _extracturls Sample.urlopen_up LegacySample.findAll_no_token Sample.parse
    Sample.strftime (LegacySample.ctx_urls LegacySample.urls 1)
  = (Raise KeyError,
     mkCtx (with_html_doc "<html>"
              (params (LegacySample.ctx_urls LegacySample.urls 1)))
       (mkTables empty_frame) [HttpOpen Sample.root_url]).
Proof.
  refine (missing_token_aborts_discovery Sample.urlopen_up
            LegacySample.findAll_no_token Sample.parse Sample.strftime
            (LegacySample.ctx_urls LegacySample.urls 1)
            (mkResponse (Ok "<html>")) "<html>" eq_refl eq_refl _ _).
  - intros a e [<- | [<- | []]] H; discriminate H.
  - exists LegacySample.no_token. split; [right; left; reflexivity|reflexivity].
Defined.

Lemma precomputed_path_outcomes_witness :
  Volatility_init_data
    (Sample.one_expiry Sample.quote_mid (Raise KeyError) (Raise KeyError))
    Sample.to_datetime Sample.pass_on Sample.pass_on
    (LegacySample.ctx_supplied LegacySample.smooth_only "direct")
  = (Raise KeyError,
     LegacySample.ctx_supplied LegacySample.smooth_only "direct") /\
  fst (Volatility_init_data
         (Sample.one_expiry Sample.quote_mid (Raise KeyError) (Raise KeyError))
         Sample.to_datetime Sample.pass_on Sample.pass_on
         (LegacySample.ctx_supplied LegacySample.smooth_only_empty "smooth"))
  = Raise IndexError /\
  fst (Volatility_init_data
         (Sample.one_expiry Sample.quote_mid (Raise KeyError) (Raise KeyError))
         Sample.to_datetime Sample.pass_on Sample.pass_on
         (LegacySample.ctx_supplied LegacySample.smooth_only "smooth"))
  = Ok tt.
Proof.
  split; [|split].
  - exact (proj1 (precomputed_path_outcomes _ Sample.to_datetime
                    Sample.pass_on Sample.pass_on
                    (LegacySample.ctx_supplied LegacySample.smooth_only
                       "direct")
                    LegacySample.smooth_only eq_refl) eq_refl).
  - destruct (proj2 (precomputed_path_outcomes
                       (Sample.one_expiry Sample.quote_mid (Raise KeyError)
                          (Raise KeyError))
                       Sample.to_datetime Sample.pass_on Sample.pass_on
                       (LegacySample.ctx_supplied
                          LegacySample.smooth_only_empty "smooth")
                       LegacySample.smooth_only_empty eq_refl) eq_refl)
      as (_ & Hempty & _).
    rewrite (Hempty eq_refl eq_refl). reflexivity.
  - destruct (proj2 (precomputed_path_outcomes
                       (Sample.one_expiry Sample.quote_mid (Raise KeyError)
                          (Raise KeyError))
                       Sample.to_datetime Sample.pass_on Sample.pass_on
                       (LegacySample.ctx_supplied LegacySample.smooth_only
                          "smooth")
                       LegacySample.smooth_only eq_refl) eq_refl)
      as (_ & _ & _ & Hfull).
    rewrite (Hfull _ _ eq_refl eq_refl eq_refl). reflexivity.
Defined.

Lemma custom_rules_are_a_slice_witness :
  CustomTradingCalendar_rules date Sample.federal_rules
  = [ 740014; 740031; 740059; 740164; 740183; 740199;
      740296; 740311; 740340 ]%Z /\
  CustomTradingCalendar_rules date [740014; 740031]%Z = [740014; 740031]%Z.
Proof.
  split.
  - rewrite (proj1 (custom_rules_are_a_slice date Sample.federal_rules)).
    reflexivity.
  - apply (proj2 (custom_rules_are_a_slice date [740014; 740031]%Z)).
    simpl. lia.
Defined.

Lemma surface_other_than_trisurf_is_not_drawn_witness :
  visualize VolatilitySample.line_graph VolatilitySample.scatter_3d
    VolatilitySample.surface_3d [("graphtype", SStr "surface")]
    VolatilitySample.obj0
  = (Ok tt,
     mkVolatility
       [ ("graphtype", SStr "surface"); ("surfacetype", SStr "mesh");
         ("smoothing", SBool false) ]
       [] None tt []).
Proof.
  exact (surface_other_than_trisurf_is_not_drawn _ _ _
           VolatilitySample.line_graph VolatilitySample.scatter_3d
           VolatilitySample.surface_3d [("graphtype", SStr "surface")]
           VolatilitySample.obj0 (SStr "surface") (SStr "mesh")
           eq_refl eq_refl eq_refl eq_refl).
Defined.

Lemma unknown_graphtype_draws_a_surface_witness :
  self_data_dict
    (snd (visualize VolatilitySample.line_graph VolatilitySample.scatter_3d
            VolatilitySample.surface_3d [("graphtype", SStr "Surface")]
            VolatilitySample.obj0))
  = [("mesh_data_dict", "surface graph")].
Proof.
  rewrite (unknown_graphtype_draws_a_surface _ _ _
             VolatilitySample.line_graph VolatilitySample.scatter_3d
             VolatilitySample.surface_3d [("graphtype", SStr "Surface")]
             VolatilitySample.obj0 (SStr "Surface") "mesh" "mesh_data_dict"
             eq_refl eq_refl eq_refl eq_refl (or_introl eq_refl) eq_refl).
  reflexivity.
Defined.



Lemma skewreport_writes_its_arguments_witness :
  exists c,
    calls (snd (skewreport VolatilitySample.create_vol_dict SNone SNone
                  (SBool true) (SBool true) VolatilitySample.obj0)) = [c] /\
    Dict.get (passed c) "smoothing" = Some (SBool true) /\
    Dict.get (passed c) "skew_months" = None.
Proof.
  destruct (skewreport_writes_its_arguments _ _ _ VolatilitySample.create_vol_dict
              SNone SNone (SBool true) (SBool true) VolatilitySample.obj0)
    as (c & Hcalls & _ & Hset & _).
  exists c. split; [exact Hcalls|]. split.
  - exact (Hset "smoothing" (SBool true)
             (or_intror (or_intror (or_introl eq_refl)))).
  - exact (Hset "skew_months" SNone (or_introl eq_refl)).
Defined.
